(** * SignAware AI: document status machine, chat context assembler, PII masking

    A shallow embedding of the service layer of the repository
    ([app/services/document_analysis.py], [app/services/chat_service.py],
    [app/services/pii_masking.py], with the records of [app/models.py] and
    [app/schemas.py]) and the properties of its specification.

    Modelling conventions.
    - A Python [str] is a [string]; a character is a code point below 256.
    - A [float] that passed a [ge]/[le] validator is a rational [Q]
      (NaN and the infinities fail every such validator, so they never
      reach the store).
    - The SQLAlchemy session is an explicit [World]: the documents table is a
      [gmap] keyed by primary key, the chat_messages table is the list of its
      rows in insertion order.
    - The inference providers are oracles passed to the service functions.
    - Exceptions and mutation are threaded by a small state-and-error monad;
      the order of commits, provider requests and yielded tuples is kept in a
      trace.
    - The store itself does not fail: a commit always succeeds. *)

From stdpp Require Import base option list gmap strings.
From Stdlib Require Import ZArith QArith Lia Permutation Sorted Ascii String.

Close Scope Q_scope.
Local Open Scope nat_scope.
Local Open Scope string_scope.
Local Open Scope list_scope.

(** ** Python string primitives *)

Module PyStr.

(** [str.isspace] on the code points below 256: U+0009..U+000D,
    U+001C..U+0020, U+0085 and U+00A0. *)
Definition isspace (c : ascii) : bool :=
  let n := nat_of_ascii c in
  (Nat.leb 9 n && Nat.leb n 13) || (Nat.leb 28 n && Nat.leb n 32)
  || Nat.eqb n 133 || Nat.eqb n 160.

Fixpoint lstrip (s : string) : string :=
  match s with
  | EmptyString => EmptyString
  | String c s' => if isspace c then lstrip s' else s
  end.

Fixpoint rstrip (s : string) : string :=
  match s with
  | EmptyString => EmptyString
  | String c s' =>
      match rstrip s' with
      | EmptyString => if isspace c then EmptyString else String c EmptyString
      | r => String c r
      end
  end.

(** [s.strip()] *)
Definition strip (s : string) : string := rstrip (lstrip s).

(** [s.startswith(p)] *)
Definition startswith (p s : string) : bool := String.prefix p s.

(** [s.find(sub)]: index of the first occurrence, [None] for Python's -1. *)
Fixpoint find (sub s : string) : option nat :=
  if startswith sub s then Some 0
  else match s with
       | EmptyString => None
       | String _ s' => option_map S (find sub s')
       end.

(** [sub in s] *)
Definition contains (sub s : string) : bool :=
  match find sub s with Some _ => true | None => false end.

(** [s[n:]] *)
Fixpoint slice_from (n : nat) (s : string) : string :=
  match n, s with
  | O, _ => s
  | S _, EmptyString => EmptyString
  | S n', String _ s' => slice_from n' s'
  end.

Definition newline : ascii := ascii_of_nat 10.

(** [s.split('\n')] *)
Fixpoint split_lines (s : string) : list string :=
  match s with
  | EmptyString => [EmptyString]
  | String c s' =>
      if Ascii.eqb c newline then EmptyString :: split_lines s'
      else match split_lines s' with
           | l :: ls => String c l :: ls
           | [] => [String c EmptyString]
           end
  end.

(** [sep.join(parts)] *)
Definition join (sep : string) (parts : list string) : string :=
  String.concat sep parts.

(** Truthiness of a [str]. *)
Definition truthy (s : string) : bool :=
  match s with EmptyString => false | _ => true end.

End PyStr.

(** ** [PIIMaskingService.mask_pii]: cleaning of the provider's response

    Lines 70-87 of [pii_masking.py], as a function of [raw_response]. *)

Module MaskClean.
Import PyStr.

Definition preamble_prefixes : list string := ["Here"; "The"; "I've"; "This"].

(** [line.startswith(("Here", "The", "I've", "This"))] *)
Definition startswith_preamble (line : string) : bool :=
  existsb (fun p => startswith p line) preamble_prefixes.

(** The block guarded by
    [if "<think>" in raw_response and "</think>" in raw_response]. *)
Definition skip_thinking (raw_response : string) : string :=
  if contains "<think>" raw_response && contains "</think>" raw_response then
    match find "</think>" raw_response with
    | Some thinking_end => strip (slice_from (thinking_end + 8) raw_response)
    | None => raw_response
    end
  else raw_response.

(** The [for line in lines] loop; [masked_content] is the list being
    appended to. *)
Fixpoint collect (lines : list string) (masked_content : list string)
  : list string :=
  match lines with
  | [] => masked_content
  | line :: rest =>
      let line := strip line in
      if truthy line && negb (startswith_preamble line)
      then collect rest (masked_content ++ [line])
      else collect rest masked_content
  end.

Definition clean_response (raw_response : string) : string :=
  let raw_response := skip_thinking raw_response in
  let lines := split_lines raw_response in
  let masked_content := collect lines [] in
  match masked_content with
  | [] => strip raw_response
  | _ => join " " masked_content
  end.

(** The post-processing as the specification words it: the lines of the
    remainder that are empty or begin with a preamble word are discarded,
    the surviving lines (as they stand) are joined with single spaces. *)
Definition claimed_discard (line : string) : bool :=
  negb (truthy line) || startswith_preamble line.

Definition claimed_clean_response (raw_response : string) : string :=
  let remainder := skip_thinking raw_response in
  match List.filter (fun l => negb (claimed_discard l)) (split_lines remainder) with
  | [] => strip remainder
  | survivors => join " " survivors
  end.

(** The same with every line stripped before it is tested and joined. *)
Definition keep_line (line : string) : bool :=
  truthy line && negb (startswith_preamble line).

Definition kept_lines (remainder : string) : list string :=
  List.filter keep_line (List.map strip (split_lines remainder)).

End MaskClean.

(** ** [app/models.py] and [app/schemas.py] *)

Definition UUID := N.
Definition datetime := Z.

Inductive DocumentType :=
  TERMS_OF_SERVICE | PRIVACY_POLICY | CONTRACT | AGREEMENT | OTHER.

Inductive DocumentStatus := PENDING | PROCESSING | COMPLETED | FAILED.

Inductive ChatMessageRole := USER | ASSISTANT | SYSTEM.

Definition DocumentType_value (t : DocumentType) : string :=
  match t with
  | TERMS_OF_SERVICE => "terms_of_service"
  | PRIVACY_POLICY => "privacy_policy"
  | CONTRACT => "contract"
  | AGREEMENT => "agreement"
  | OTHER => "other"
  end.

Definition DocumentStatus_value (s : DocumentStatus) : string :=
  match s with
  | PENDING => "pending"
  | PROCESSING => "processing"
  | COMPLETED => "completed"
  | FAILED => "failed"
  end.

Definition ChatMessageRole_value (r : ChatMessageRole) : string :=
  match r with
  | USER => "user"
  | ASSISTANT => "assistant"
  | SYSTEM => "system"
  end.

Definition DocumentStatus_eqb (a b : DocumentStatus) : bool :=
  match a, b with
  | PENDING, PENDING | PROCESSING, PROCESSING
  | COMPLETED, COMPLETED | FAILED, FAILED => true
  | _, _ => false
  end.

Definition ChatMessageRole_eqb (a b : ChatMessageRole) : bool :=
  match a, b with
  | USER, USER | ASSISTANT, ASSISTANT | SYSTEM, SYSTEM => true
  | _, _ => false
  end.

(** [Field(..., ge=lo, le=hi)] *)
Definition in_range (lo hi x : Q) : bool := Qle_bool lo x && Qle_bool x hi.

(** [document_analysis.AnalysisResult]: the fields the output parser reads
    from the completion. *)
Module AnalysisResult.
Record t := mk {
  summary : string;
  hidden_clauses : list string;
  risk_assessment : string;
  loopholes : list string;
  red_flags : list string;
  risk_score : Q;
  confidence_rating : Q;
  key_concerns : list string
}.

(** The [ge]/[le] constraints of the model. *)
Definition valid (r : t) : bool :=
  in_range 1 5 (risk_score r) && in_range 0 100 (confidence_rating r).
End AnalysisResult.

(** [schemas.DocumentAnalysisResult]; also the JSON object that
    [model_dump(mode='json')] stores in [Document.analysis], which has
    exactly these nine keys. *)
Module DocumentAnalysisResult.
Record t := mk {
  summary : string;
  hidden_clauses : list string;
  risk_assessment : string;
  loopholes : list string;
  red_flags : list string;
  risk_score : Q;
  confidence_rating : Q;
  key_concerns : list string;
  analyzed_at : datetime
}.

Definition valid (a : t) : bool :=
  in_range 1 5 (risk_score a) && in_range 0 100 (confidence_rating a).
End DocumentAnalysisResult.

(** The dict stored in [Document.maskedContent]. *)
Module MaskedContent.
Record t := mk {
  original_content : string;
  masked_content : string;
  original_length : nat;
  masked_length : nat;
  masked_at : string;
  model_used : string
}.
End MaskedContent.

(** [models.Document], with the columns the services read or write. *)
Module Document.
Record t := mk {
  id : UUID;
  title : string;
  content : string;
  type : DocumentType;
  status : DocumentStatus;
  analysis : option DocumentAnalysisResult.t;
  maskedContent : option MaskedContent.t;
  processingStartedAt : option datetime;
  processingCompletedAt : option datetime;
  errorMessage : option string;
  userId : UUID
}.

Definition set_status (v : DocumentStatus) (d : t) : t :=
  mk (id d) (title d) (content d) (type d) v (analysis d) (maskedContent d)
     (processingStartedAt d) (processingCompletedAt d) (errorMessage d) (userId d).
Definition set_analysis (v : option DocumentAnalysisResult.t) (d : t) : t :=
  mk (id d) (title d) (content d) (type d) (status d) v (maskedContent d)
     (processingStartedAt d) (processingCompletedAt d) (errorMessage d) (userId d).
Definition set_maskedContent (v : option MaskedContent.t) (d : t) : t :=
  mk (id d) (title d) (content d) (type d) (status d) (analysis d) v
     (processingStartedAt d) (processingCompletedAt d) (errorMessage d) (userId d).
Definition set_processingStartedAt (v : option datetime) (d : t) : t :=
  mk (id d) (title d) (content d) (type d) (status d) (analysis d) (maskedContent d)
     v (processingCompletedAt d) (errorMessage d) (userId d).
Definition set_processingCompletedAt (v : option datetime) (d : t) : t :=
  mk (id d) (title d) (content d) (type d) (status d) (analysis d) (maskedContent d)
     (processingStartedAt d) v (errorMessage d) (userId d).
Definition set_errorMessage (v : option string) (d : t) : t :=
  mk (id d) (title d) (content d) (type d) (status d) (analysis d) (maskedContent d)
     (processingStartedAt d) (processingCompletedAt d) v (userId d).
End Document.

(** [models.ChatMessage]; [message_metadata] is the dict
    [{"timestamp": ...}], kept as its one value. *)
Module ChatMessage.
Record t := mk {
  id : UUID;
  content : string;
  role : ChatMessageRole;
  sessionId : option string;
  message_metadata : option string;
  userId : UUID;
  documentId : UUID;
  createdAt : datetime
}.
End ChatMessage.

(** [schemas.ChatMessageResponse] *)
Module ChatMessageResponse.
Record t := mk {
  id : UUID;
  content : string;
  role : ChatMessageRole;
  sessionId : option string;
  message_metadata : option string;
  userId : UUID;
  documentId : UUID;
  createdAt : datetime
}.
End ChatMessageResponse.

(** [schemas.AnalyzeDocumentResponse] *)
Module AnalyzeDocumentResponse.
Record t := mk {
  document_id : UUID;
  status : DocumentStatus;
  analysis : option DocumentAnalysisResult.t;
  processing_started_at : option datetime;
  processing_completed_at : option datetime;
  error_message : option string
}.
End AnalyzeDocumentResponse.

(** ** The world the services run in *)

Inductive ExnClass := ValueError | ValidationError | ProviderError | OtherException.

(** A raised exception; [exn_str e] is [str(e)]. *)
Record Exn := mkExn { exn_class : ExnClass; exn_str : string }.

(** [langchain_core.messages] *)
Inductive LLMMessage :=
| SystemMessage (content : string)
| HumanMessage (content : string)
| AIMessage (content : string).

Record Database := mkDatabase {
  documents : gmap UUID Document.t;
  chat_messages : list ChatMessage.t
}.

(** The externally visible effects, in the order they happen: a commit (with
    the contents of the database it makes durable), a request to one of the
    inference providers, a tuple yielded by the chat generator. *)
Inductive Event :=
| EvCommit (snapshot : Database)
| EvChainInvoke (prompt : string)
| EvChatStream (messages : list LLMMessage)
| EvOllamaPost (prompt : string)
| EvYield (chunk : string) (message_id : option UUID).

Record World := mkWorld {
  db : Database;
  clock : datetime;
  next_uuid : UUID;
  trace : list Event
}.

Inductive Outcome (A : Type) :=
| Return (a : A)
| Raise (e : Exn).
Arguments Return {A} a.
Arguments Raise {A} e.

Definition M (A : Type) : Type := World -> Outcome A * World.

#[global] Instance M_ret : MRet M := fun A a w => (Return a, w).

#[global] Instance M_bind : MBind M := fun A B f m w =>
  match m w with
  | (Return a, w') => f a w'
  | (Raise e, w') => (Raise e, w')
  end.

Definition raise {A : Type} (e : Exn) : M A := fun w => (Raise e, w).

(** [try: body except Exception as e: handler e]; what the body did to the
    world before it raised stays done. *)
Definition try_except {A : Type} (body : M A) (handler : Exn -> M A) : M A :=
  fun w =>
    match body w with
    | (Return a, w') => (Return a, w')
    | (Raise e, w') => handler e w'
    end.

Definition emit (e : Event) : M unit := fun w =>
  (Return tt, mkWorld (db w) (clock w) (next_uuid w) (trace w ++ [e])).

(** [datetime.utcnow()] and the server's [now()]: the reading, after which
    the clock has moved on. *)
Definition utcnow : M datetime := fun w =>
  (Return (clock w), mkWorld (db w) (clock w + 1)%Z (next_uuid w) (trace w)).

(** [uuid_generate_v4()] *)
Definition uuid_generate : M UUID := fun w =>
  (Return (next_uuid w), mkWorld (db w) (clock w) (next_uuid w + 1)%N (trace w)).

Definition get_db : M Database := fun w => (Return (db w), w).

Definition put_db (d : Database) : M unit := fun w =>
  (Return tt, mkWorld d (clock w) (next_uuid w) (trace w)).

(** [db.commit()]: the database as it stands becomes durable. *)
Definition db_commit : M unit :=
  d ← get_db; emit (EvCommit d).

(** [db.query(Document).filter(Document.id == document_id,
    Document.userId == user_id).first()] *)
Definition owned_document (d : Database) (document_id user_id : UUID)
  : option Document.t :=
  match documents d !! document_id with
  | Some doc =>
      if N.eqb (Document.id doc) document_id && N.eqb (Document.userId doc) user_id
      then Some doc else None
  | None => None
  end.

Definition query_document (document_id user_id : UUID) : M (option Document.t) :=
  d ← get_db; mret (owned_document d document_id user_id).

(** The ORM object loaded for primary key [h]: its current attributes. *)
Definition row (h : UUID) : M Document.t :=
  d ← get_db;
  match documents d !! h with
  | Some doc => mret doc
  | None => raise (mkExn OtherException "Instance has been deleted")
  end.

(** An attribute assignment on the ORM object loaded for primary key [h]. *)
Definition set_attr (h : UUID) (f : Document.t -> Document.t) : M unit :=
  doc ← row h;
  d ← get_db;
  put_db (mkDatabase (<[h := f doc]> (documents d)) (chat_messages d)).

(** What the libraries and the deployment supply. *)
Record Runtime := mkRuntime {
  str_uuid : UUID -> string;
  str_float : Q -> string;
  isoformat : datetime -> string;
  (** [PydanticOutputParser.get_format_instructions()] *)
  format_instructions : string;
  (** the JSON object in a completion, fields read and ranges not yet
      checked; [None] when the completion is malformed *)
  parse_json : string -> option AnalysisResult.t;
  (** [str] of the parser's exception on a malformed completion *)
  parser_error : string -> string;
  (** [str] of the parser's exception on a field out of range *)
  validation_error : AnalysisResult.t -> string
}.

(** [app/config.py] *)
Record Settings := mkSettings {
  openai_model : string;
  ollama_base_url : string;
  ollama_model : string
}.

Definition default_settings : Settings :=
  mkSettings "gpt-4-turbo-preview" "http://localhost:11434" "deepseek-r1:8b".

(** One request to a provider either raises or completes with a text. *)
Inductive Reply :=
| Fails (e : Exn)
| Completes (text : string).

(** A streamed reply: the contents of the chunks in emission order, then
    either the end of the stream or an exception. *)
Record ChatStream := mkChatStream {
  chunks : list string;
  failure : option Exn
}.

Record Providers := mkProviders {
  chain_llm : string -> Reply;
  chat_astream : list LLMMessage -> ChatStream;
  ollama_post : string -> Reply
}.

Definition nl : string := String PyStr.newline EmptyString.

(** The lines of a triple-quoted literal, joined by newlines. *)
Definition text_block (ls : list string) : string := PyStr.join nl ls.

Section Services.

Variable rt : Runtime.
Variable settings : Settings.
Variable llm : Providers.

(** ** [app/services/document_analysis.py] *)

(** The [PromptTemplate] of [analyze_document], formatted. *)
Definition analysis_prompt
  (title doc_type content content_source content_description content_note : string)
  : string :=
  text_block [
    "You are an expert legal analyst. Analyze the following legal document and provide a comprehensive analysis.";
    "";
    "Document Title: " +:+ title;
    "Document Type: " +:+ doc_type;
    "Content Source: " +:+ content_source +:+ " content (" +:+ content_description +:+ ")";
    "";
    "Document Content:";
    content;
    "";
    "Please analyze this document and provide:";
    "";
    "1. A comprehensive summary of the document";
    "2. Any hidden or obscure clauses that might not be immediately apparent";
    "3. A risk assessment explaining potential risks to the user";
    "4. Any loopholes you can identify";
    "5. Red flags or concerning elements";
    "6. A risk score out of 5 (1 = low risk, 5 = high risk)";
    "7. Your confidence rating as a percentage (0-100)";
    "8. Key concerns that users should be aware of";
    "";
    "Be thorough and critical in your analysis. Focus on protecting the user's interests.";
    "Consider the document type when analyzing - different types of documents have different risk patterns.";
    content_note;
    "";
    format_instructions rt;
    ""
  ].

(** [PydanticOutputParser(pydantic_object=AnalysisResult)] on a completion:
    the JSON object is read, then the ranges of [AnalysisResult] are
    checked. *)
Definition output_parser (text : string) : M AnalysisResult.t :=
  match parse_json rt text with
  | None => raise (mkExn ValidationError (parser_error rt text))
  | Some result =>
      if AnalysisResult.valid result then mret result
      else raise (mkExn ValidationError (validation_error rt result))
  end.

(** [chain.ainvoke(...)] with [chain = prompt | self.llm | self.output_parser]. *)
Definition chain_ainvoke
  (title doc_type content content_source content_description content_note : string)
  : M AnalysisResult.t :=
  let prompt :=
    analysis_prompt title doc_type content content_source content_description content_note in
  emit (EvChainInvoke prompt);;
  match chain_llm llm prompt with
  | Fails e => raise e
  | Completes text => output_parser text
  end.

(** The constructor of [DocumentAnalysisResult], which checks its ranges;
    the exception text is pydantic's. *)
Definition DocumentAnalysisResult_init (a : DocumentAnalysisResult.t)
  : M DocumentAnalysisResult.t :=
  if DocumentAnalysisResult.valid a then mret a
  else raise (mkExn ValidationError
                (validation_error rt
                   (AnalysisResult.mk
                      (DocumentAnalysisResult.summary a)
                      (DocumentAnalysisResult.hidden_clauses a)
                      (DocumentAnalysisResult.risk_assessment a)
                      (DocumentAnalysisResult.loopholes a)
                      (DocumentAnalysisResult.red_flags a)
                      (DocumentAnalysisResult.risk_score a)
                      (DocumentAnalysisResult.confidence_rating a)
                      (DocumentAnalysisResult.key_concerns a)))).

(** [document.maskedContent and document.maskedContent.get('masked_content')] *)
Definition usable_masked_content (d : Document.t) : option string :=
  match Document.maskedContent d with
  | Some mc =>
      if PyStr.truthy (MaskedContent.masked_content mc)
      then Some (MaskedContent.masked_content mc) else None
  | None => None
  end.

Definition not_found (document_id : UUID) : Exn :=
  mkExn ValueError ("Document " +:+ str_uuid rt document_id +:+ " not found or access denied").

(** The [try] block of [analyze_document], on the ORM object with primary
    key [h]. *)
Definition analysis_attempt (h : UUID) : M AnalyzeDocumentResponse.t :=
  set_attr h (Document.set_status PROCESSING);;
  started ← utcnow;
  set_attr h (Document.set_processingStartedAt (Some started));;
  set_attr h (Document.set_errorMessage None);;
  db_commit;;
  document ← row h;
  let '(content_for_analysis, content_source, content_description, content_note) :=
    match usable_masked_content document with
    | Some masked =>
        (masked, "masked", "PII has been masked for privacy",
         "Note: Personal identifiable information (PII) has been masked in this document for privacy protection.")
    | None =>
        (Document.content document, "original", "original unmasked content", "")
    end in
  result ← chain_ainvoke (Document.title document)
             (DocumentType_value (Document.type document))
             content_for_analysis content_source content_description content_note;
  analyzed ← utcnow;
  analysis_data ← DocumentAnalysisResult_init
    (DocumentAnalysisResult.mk
       (AnalysisResult.summary result)
       (AnalysisResult.hidden_clauses result)
       (AnalysisResult.risk_assessment result)
       (AnalysisResult.loopholes result)
       (AnalysisResult.red_flags result)
       (AnalysisResult.risk_score result)
       (AnalysisResult.confidence_rating result)
       (AnalysisResult.key_concerns result)
       analyzed);
  set_attr h (Document.set_analysis (Some analysis_data));;
  set_attr h (Document.set_status COMPLETED);;
  completed ← utcnow;
  set_attr h (Document.set_processingCompletedAt (Some completed));;
  db_commit;;
  document ← row h;
  mret (AnalyzeDocumentResponse.mk
          (Document.id document) (Document.status document)
          (Some analysis_data)
          (Document.processingStartedAt document)
          (Document.processingCompletedAt document) None).

(** Its [except Exception as e] block. *)
Definition analysis_failed (h : UUID) (e : Exn) : M AnalyzeDocumentResponse.t :=
  set_attr h (Document.set_status FAILED);;
  set_attr h (Document.set_errorMessage (Some (exn_str e)));;
  completed ← utcnow;
  set_attr h (Document.set_processingCompletedAt (Some completed));;
  db_commit;;
  document ← row h;
  mret (AnalyzeDocumentResponse.mk
          (Document.id document) (Document.status document)
          None
          (Document.processingStartedAt document)
          (Document.processingCompletedAt document)
          (Some (exn_str e))).

Definition analyze_document (document_id user_id : UUID)
  : M AnalyzeDocumentResponse.t :=
  found ← query_document document_id user_id;
  match found with
  | None => raise (not_found document_id)
  | Some document =>
      match DocumentStatus_eqb (Document.status document) COMPLETED,
            Document.analysis document with
      | true, Some stored =>
          analysis_result ← DocumentAnalysisResult_init stored;
          mret (AnalyzeDocumentResponse.mk
                  (Document.id document) (Document.status document)
                  (Some analysis_result)
                  (Document.processingStartedAt document)
                  (Document.processingCompletedAt document) None)
      | _, _ =>
          try_except (analysis_attempt (Document.id document))
                     (analysis_failed (Document.id document))
      end
  end.

Definition get_analysis_by_document_id (document_id user_id : UUID)
  : M AnalyzeDocumentResponse.t :=
  found ← query_document document_id user_id;
  match found with
  | None => raise (not_found document_id)
  | Some document =>
      analysis_result ←
        match Document.analysis document with
        | Some stored => a ← DocumentAnalysisResult_init stored; mret (Some a)
        | None => mret None
        end;
      mret (AnalyzeDocumentResponse.mk
              (Document.id document) (Document.status document)
              analysis_result
              (Document.processingStartedAt document)
              (Document.processingCompletedAt document)
              (Document.errorMessage document))
  end.

(** ** [app/services/chat_service.py] *)

Definition bullets (items : list string) : string :=
  PyStr.join nl (List.map (fun item => "- " +:+ item) items).

(** What [_get_document_context] renders from the tables. *)
Definition document_context (d : Database) (document_id user_id : UUID) : string :=
  match owned_document d document_id user_id with
  | None => "No document found or access denied."
  | Some document =>
      match Document.analysis document with
      | None =>
          "Document '" +:+ Document.title document
          +:+ "' has not been analyzed yet. Please analyze the document first to get detailed insights."
      | Some analysis =>
          text_block [
            "";
            "Document Information:";
            "- Title: " +:+ Document.title document;
            "- Type: " +:+ DocumentType_value (Document.type document);
            "- Status: " +:+ DocumentStatus_value (Document.status document);
            "";
            "Document Analysis Summary:";
            "- Summary: " +:+ DocumentAnalysisResult.summary analysis;
            "- Risk Score: " +:+ str_float rt (DocumentAnalysisResult.risk_score analysis) +:+ "/5";
            "- Confidence Rating: " +:+ str_float rt (DocumentAnalysisResult.confidence_rating analysis) +:+ "%";
            "- Risk Assessment: " +:+ DocumentAnalysisResult.risk_assessment analysis;
            "";
            "Hidden Clauses:";
            bullets (DocumentAnalysisResult.hidden_clauses analysis);
            "";
            "Loopholes:";
            bullets (DocumentAnalysisResult.loopholes analysis);
            "";
            "Red Flags:";
            bullets (DocumentAnalysisResult.red_flags analysis);
            "";
            "Key Concerns:";
            bullets (DocumentAnalysisResult.key_concerns analysis);
            "";
            "Analysis Date: " +:+ isoformat rt (DocumentAnalysisResult.analyzed_at analysis);
            ""
          ]
      end
  end.

Definition _get_document_context (document_id user_id : UUID) : M string :=
  d ← get_db; mret (document_context d document_id user_id).

(** [db.add(message); db.commit(); db.refresh(message)]: the row gets its
    primary key and its [createdAt] from the server. *)
Definition _save_message (content : string) (role : ChatMessageRole)
  (session_id : string) (document_id user_id : UUID) : M ChatMessage.t :=
  stamp ← utcnow;
  new_id ← uuid_generate;
  created ← utcnow;
  let message :=
    ChatMessage.mk new_id content role (Some session_id)
      (Some (isoformat rt stamp)) user_id document_id created in
  d ← get_db;
  put_db (mkDatabase (documents d) (chat_messages d ++ [message]));;
  db_commit;;
  mret message.

(** The [filter(...)] on [sessionId], [documentId] and [userId]. *)
Definition in_session (session_id : string) (document_id user_id : UUID)
  (m : ChatMessage.t) : bool :=
  match ChatMessage.sessionId m with
  | Some s => String.eqb s session_id
  | None => false
  end
  && N.eqb (ChatMessage.documentId m) document_id
  && N.eqb (ChatMessage.userId m) user_id.

(** [order_by(ChatMessage.createdAt)]: ascending, rows of equal
    [createdAt] in table order. *)
Fixpoint insert_by_createdAt (m : ChatMessage.t) (sorted : list ChatMessage.t)
  : list ChatMessage.t :=
  match sorted with
  | [] => [m]
  | x :: rest =>
      if Z.leb (ChatMessage.createdAt m) (ChatMessage.createdAt x)
      then m :: x :: rest
      else x :: insert_by_createdAt m rest
  end.

Fixpoint order_by_createdAt (rows : list ChatMessage.t) : list ChatMessage.t :=
  match rows with
  | [] => []
  | m :: rest => insert_by_createdAt m (order_by_createdAt rest)
  end.

(** [db.query(ChatMessage).filter(...).order_by(ChatMessage.createdAt).all()] *)
Definition select_messages (d : Database) (session_id : string)
  (document_id user_id : UUID) : list ChatMessage.t :=
  order_by_createdAt
    (List.filter (in_session session_id document_id user_id) (chat_messages d)).

Definition query_messages (session_id : string) (document_id user_id : UUID)
  : M (list ChatMessage.t) :=
  d ← get_db; mret (select_messages d session_id document_id user_id).

(** The dict [{"role": ..., "content": ...}] as a pair. *)
Definition history_entry (msg : ChatMessage.t) : string * string :=
  (ChatMessageRole_value (ChatMessage.role msg), ChatMessage.content msg).

Definition _get_conversation_history (session_id : string) (document_id user_id : UUID)
  : M (list (string * string)) :=
  messages ← query_messages session_id document_id user_id;
  mret (List.map history_entry messages).

Definition system_prompt (document_context : string) : string :=
  text_block [
    "You are a helpful AI assistant specialized in analyzing and discussing legal documents. ";
    "You have access to the following document analysis:";
    "";
    document_context;
    "";
    "Use this analysis to answer questions about the document. Be helpful, accurate, and always refer back to the specific ";
    "analysis when relevant. If a user asks about something not covered in the analysis, politely explain that you can ";
    "only discuss what's covered in the provided document analysis.";
    "";
    "Always maintain a professional and helpful tone while being thorough in your responses."
  ].

(** The loop over [conversation_history[:-1]]. *)
Fixpoint history_messages (history : list (string * string)) : list LLMMessage :=
  match history with
  | [] => []
  | (role, content) :: rest =>
      if String.eqb role "user" then HumanMessage content :: history_messages rest
      else if String.eqb role "assistant" then AIMessage content :: history_messages rest
      else history_messages rest
  end.

Definition yield (chunk : string) (message_id : option UUID) : M unit :=
  emit (EvYield chunk message_id).

(** The body of [async for chunk in self.llm.astream(messages)], over the
    chunks the stream emits. *)
Fixpoint forward_chunks (emitted : list string) (complete_response : string)
  : M string :=
  match emitted with
  | [] => mret complete_response
  | chunk :: rest =>
      if PyStr.truthy chunk then
        yield chunk None;;
        forward_chunks rest (complete_response +:+ chunk)
      else forward_chunks rest complete_response
  end.

(** The whole [async for]: the request, the chunks, then the exception the
    stream ends with, if any. *)
Definition astream_all (messages : list LLMMessage) : M string :=
  emit (EvChatStream messages);;
  let stream := chat_astream llm messages in
  complete_response ← forward_chunks (chunks stream) "";
  match failure stream with
  | Some e => raise e
  | None => mret complete_response
  end.

(** The [try] block of [chat_stream]. *)
Definition chat_attempt (message session_id : string) (document_id user_id : UUID)
  : M unit :=
  document_context ← _get_document_context document_id user_id;
  conversation_history ← _get_conversation_history session_id document_id user_id;
  let messages :=
    [SystemMessage (system_prompt document_context)]
    ++ history_messages (removelast conversation_history)
    ++ [HumanMessage message] in
  complete_response ← astream_all messages;
  if PyStr.truthy complete_response then
    assistant_message ←
      _save_message complete_response ASSISTANT session_id document_id user_id;
    yield "" (Some (ChatMessage.id assistant_message))
  else mret tt.

(** Its [except Exception as e] block. *)
Definition chat_failed (session_id : string) (document_id user_id : UUID) (e : Exn)
  : M unit :=
  let error_message := "Sorry, I encountered an error: " +:+ exn_str e in
  assistant_message ←
    _save_message error_message ASSISTANT session_id document_id user_id;
  yield error_message (Some (ChatMessage.id assistant_message)).

Definition chat_stream (message session_id : string) (document_id user_id : UUID)
  : M unit :=
  found ← query_document document_id user_id;
  match found with
  | None => yield "Error: Document not found or access denied." None
  | Some _ =>
      user_message ← _save_message message USER session_id document_id user_id;
      try_except (chat_attempt message session_id document_id user_id)
                 (chat_failed session_id document_id user_id)
  end.

Definition get_chat_history (session_id : string) (document_id user_id : UUID)
  : M (list ChatMessageResponse.t) :=
  messages ← query_messages session_id document_id user_id;
  mret (List.map (fun msg =>
          ChatMessageResponse.mk
            (ChatMessage.id msg) (ChatMessage.content msg) (ChatMessage.role msg)
            (ChatMessage.sessionId msg) (ChatMessage.message_metadata msg)
            (ChatMessage.userId msg) (ChatMessage.documentId msg)
            (ChatMessage.createdAt msg)) messages).

(** ** [app/services/pii_masking.py] *)

Definition masking_prompt (text : string) : string :=
  text_block [
    "You are a PII (Personally Identifiable Information) masking expert. Your task is to identify and mask any PII in the provided text while preserving the document's meaning and structure.";
    "";
    "PII to mask includes:";
    "- Names (first, last, full names)";
    "- Email addresses";
    "- Phone numbers";
    "- Social Security Numbers";
    "- Credit card numbers";
    "- Addresses (street, city, state, zip)";
    "- IP addresses";
    "- Driver's license numbers";
    "- Passport numbers";
    "- Bank account numbers";
    "- Date of birth";
    "- Medical record numbers";
    "- Employee IDs";
    "- License plate numbers";
    "";
    "Instructions:";
    "1. Replace each PII item with a generic placeholder in brackets, like [NAME], [EMAIL], [PHONE], [ADDRESS], [SSN], etc.";
    "2. Keep the same format and structure of the original text";
    "3. Do not change any non-PII content";
    "4. If no PII is found, return the original text unchanged";
    "5. Respond ONLY with the masked text, no explanations, thinking process, or additional content";
    "6. Do not include any reasoning or analysis - just provide the final masked text";
    "";
    "Text to mask:";
    text;
    "";
    "Masked text:"
  ].

(** The request to the local model server ([raise_for_status] included),
    then the cleaning of [result.get("response", "")]. *)
Definition mask_pii (text : string) : M string :=
  let prompt := masking_prompt text in
  emit (EvOllamaPost prompt);;
  match ollama_post llm prompt with
  | Fails e => raise e
  | Completes raw_response => mret (MaskClean.clean_response raw_response)
  end.

(** The dict [mask_document_content] returns. *)
Record MaskingResult := mkMaskingResult {
  mr_document_id : UUID;
  mr_masked_content : string;
  mr_original_length : nat;
  mr_masked_length : nat;
  mr_masked_at : string
}.

Definition mask_document_content (document_id user_id : UUID) : M MaskingResult :=
  found ← query_document document_id user_id;
  match found with
  | None => raise (not_found document_id)
  | Some document =>
      let h := Document.id document in
      try_except
        (masked_content ← mask_pii (Document.content document);
         masked_at ← utcnow;
         let masked_data :=
           MaskedContent.mk
             (Document.content document)
             masked_content
             (String.length (Document.content document))
             (String.length masked_content)
             (isoformat rt masked_at)
             (ollama_model settings) in
         set_attr h (Document.set_maskedContent (Some masked_data));;
         db_commit;;
         document ← row h;
         mret (mkMaskingResult
                 (Document.id document)
                 masked_content
                 (String.length (Document.content document))
                 (String.length masked_content)
                 (MaskedContent.masked_at masked_data)))
        (fun e =>
           raise (mkExn OtherException
                    ("Failed to mask document content: " +:+ exn_str e)))
  end.

End Services.


(** ** [app/routers/document_analysis.py]: creating and deleting documents

    The handlers turn every exception into an [HTTPException]; the store
    refuses a second row with the same primary key. *)

Definition create_document (title content : string) (type : DocumentType)
  (user_id : UUID) : M Document.t :=
  new_id ← uuid_generate;
  d ← get_db;
  match documents d !! new_id with
  | Some _ =>
      raise (mkExn OtherException "Failed to create document: duplicate key")
  | None =>
      let db_document :=
        Document.mk new_id title content type PENDING
          None None None None None user_id in
      put_db (mkDatabase (<[new_id := db_document]> (documents d)) (chat_messages d));;
      db_commit;;
      mret db_document
  end.

(** [db.delete(document)]; the chat messages of the document go with it
    ([ondelete="CASCADE"]). *)
Definition delete_document (document_id user_id : UUID) : M unit :=
  found ← query_document document_id user_id;
  match found with
  | None => raise (mkExn OtherException "Document not found")
  | Some document =>
      d ← get_db;
      put_db (mkDatabase
                (delete (Document.id document) (documents d))
                (List.filter
                   (fun m => negb (N.eqb (ChatMessage.documentId m) (Document.id document)))
                   (chat_messages d)));;
      db_commit
  end.

(** ** Reachable database states

    A document is created by [create_document] ([routers/document_analysis.py])
    or by [scripts/init_db.py], both with [status=PENDING] and every nullable
    column null. *)

Definition created (d : Document.t) : Prop :=
  Document.status d = PENDING
  /\ Document.analysis d = None
  /\ Document.maskedContent d = None
  /\ Document.processingStartedAt d = None
  /\ Document.processingCompletedAt d = None
  /\ Document.errorMessage d = None.

Definition initial (w : World) : Prop :=
  map_Forall (fun _ d => created d) (documents (db w)) /\ trace w = [].

(** One request served: a document created or deleted, an analysis, a
    masking or a chat turn, from any caller, on any document, against any
    behaviour of the providers. *)
Inductive request (rt : Runtime) (st : Settings) : World -> World -> Prop :=
| req_create title content type user_id w :
    request rt st w (snd (create_document title content type user_id w))
| req_delete document_id user_id w :
    request rt st w (snd (delete_document document_id user_id w))
| req_analyze llm document_id user_id w :
    request rt st w (snd (analyze_document rt llm document_id user_id w))
| req_mask llm document_id user_id w :
    request rt st w (snd (mask_document_content rt st llm document_id user_id w))
| req_chat llm message session_id document_id user_id w :
    request rt st w (snd (chat_stream rt llm message session_id document_id user_id w)).

Inductive reachable (rt : Runtime) (st : Settings) : World -> Prop :=
| reach_initial w : initial w -> reachable rt st w
| reach_request w w' : reachable rt st w -> request rt st w w' -> reachable rt st w'.

(** The database states that were ever made durable, and the current one. *)
Fixpoint commits_of (t : list Event) : list Database :=
  match t with
  | [] => []
  | EvCommit s :: rest => s :: commits_of rest
  | _ :: rest => commits_of rest
  end.

Definition persisted (w : World) : list Database :=
  db w :: commits_of (trace w).

(** The invariant of the specification on one document. *)
Definition analysis_ok (d : Document.t) : Prop :=
  Document.status d = COMPLETED
  <-> exists a, Document.analysis d = Some a /\ DocumentAnalysisResult.valid a = true.

(** ** Vocabulary of the properties *)

(** The row [d] written under primary key [h]. *)
Definition store_at (h : UUID) (d : Document.t) (b : Database) : Database :=
  mkDatabase (<[h := d]> (documents b)) (chat_messages b).

(** The three groups of assignments of [analyze_document]. *)
Definition mark_processing (started : datetime) (d : Document.t) : Document.t :=
  Document.set_errorMessage None
    (Document.set_processingStartedAt (Some started)
       (Document.set_status PROCESSING d)).

Definition mark_completed (a : DocumentAnalysisResult.t) (completed : datetime)
  (d : Document.t) : Document.t :=
  Document.set_processingCompletedAt (Some completed)
    (Document.set_status COMPLETED (Document.set_analysis (Some a) d)).

Definition mark_failed (message : string) (completed : datetime) (d : Document.t)
  : Document.t :=
  Document.set_processingCompletedAt (Some completed)
    (Document.set_errorMessage (Some message) (Document.set_status FAILED d)).

(** The response built from a row. *)
Definition response_of (d : Document.t) (analysis : option DocumentAnalysisResult.t)
  (error_message : option string) : AnalyzeDocumentResponse.t :=
  AnalyzeDocumentResponse.mk (Document.id d) (Document.status d) analysis
    (Document.processingStartedAt d) (Document.processingCompletedAt d) error_message.

(** The row [_save_message] adds in world [w], and the world it leaves. *)
Definition saved_message (rt : Runtime) (content : string) (role : ChatMessageRole)
  (session_id : string) (document_id user_id : UUID) (w : World) : ChatMessage.t :=
  ChatMessage.mk (next_uuid w) content role (Some session_id)
    (Some (isoformat rt (clock w))) user_id document_id (clock w + 1)%Z.

Definition with_message (m : ChatMessage.t) (b : Database) : Database :=
  mkDatabase (documents b) (chat_messages b ++ [m]).

Definition after_save (m : ChatMessage.t) (w : World) : World :=
  mkWorld (with_message m (db w)) (clock w + 1 + 1)%Z (next_uuid w + 1)%N
    (trace w ++ [EvCommit (with_message m (db w))]).

(** The rows of one (session, document, user) tuple, in table order, and
    their number. *)
Definition session_rows (b : Database) (session_id : string)
  (document_id user_id : UUID) : list ChatMessage.t :=
  List.filter (in_session session_id document_id user_id) (chat_messages b).

Definition session_count (b : Database) (session_id : string)
  (document_id user_id : UUID) : nat :=
  List.length (session_rows b session_id document_id user_id).

(** The fragments of a stream that reach the caller. *)
Definition forwarded (emitted : list string) : list string :=
  List.filter PyStr.truthy emitted.

(** The messages a chat turn sends to the provider, from the tables as they
    are once the user's message is saved. *)
Definition turn_request (rt : Runtime) (b : Database) (message session_id : string)
  (document_id user_id : UUID) : list LLMMessage :=
  [SystemMessage (system_prompt (document_context rt b document_id user_id))]
  ++ history_messages
       (removelast (List.map history_entry
                      (select_messages b session_id document_id user_id)))
  ++ [HumanMessage message].

(** The content of the assistant message a stream leads to, if any. *)
Definition turn_reply (s : ChatStream) : option string :=
  match failure s with
  | Some e => Some ("Sorry, I encountered an error: " +:+ exn_str e)
  | None =>
      let complete_response := PyStr.join "" (forwarded (chunks s)) in
      if PyStr.truthy complete_response then Some complete_response else None
  end.

(** The chunk of the last tuple yielded with it. *)
Definition closing_chunk (s : ChatStream) : string :=
  match failure s with
  | Some e => "Sorry, I encountered an error: " +:+ exn_str e
  | None => ""
  end.

Definition fragment_event (chunk : string) : Event := EvYield chunk None.

Definition with_events (evs : list Event) (w : World) : World :=
  mkWorld (db w) (clock w) (next_uuid w) (trace w ++ evs).

Fixpoint yields_of (t : list Event) : list (string * option UUID) :=
  match t with
  | [] => []
  | EvYield c i :: rest => (c, i) :: yields_of rest
  | _ :: rest => yields_of rest
  end.

Definition is_provider_request (e : Event) : bool :=
  match e with
  | EvChainInvoke _ | EvChatStream _ | EvOllamaPost _ => true
  | _ => false
  end.

Definition provider_requests (t : list Event) : list Event :=
  List.filter is_provider_request t.

Definition by_createdAt (a b : ChatMessage.t) : Prop :=
  (ChatMessage.createdAt a <= ChatMessage.createdAt b)%Z.

Definition response_of_message (msg : ChatMessage.t) : ChatMessageResponse.t :=
  ChatMessageResponse.mk
    (ChatMessage.id msg) (ChatMessage.content msg) (ChatMessage.role msg)
    (ChatMessage.sessionId msg) (ChatMessage.message_metadata msg)
    (ChatMessage.userId msg) (ChatMessage.documentId msg)
    (ChatMessage.createdAt msg).

(** What holds of every row that was ever made durable: an analysis is
    stored exactly on the completed documents, and it is within its ranges. *)
Definition doc_inv (d : Document.t) : Prop :=
  match Document.analysis d with
  | Some a => Document.status d = COMPLETED /\ DocumentAnalysisResult.valid a = true
  | None => Document.status d <> COMPLETED
  end.

Definition db_inv (b : Database) : Prop :=
  map_Forall (fun _ d => doc_inv d) (documents b).

Definition world_inv (w : World) : Prop := Forall db_inv (persisted w).

(** The record [mask_document_content] stores for the masked text it got
    at time [masked_at]. *)
Definition masked_record (rt : Runtime) (st : Settings) (d : Document.t)
  (masked : string) (masked_at : datetime) : MaskedContent.t :=
  MaskedContent.mk (Document.content d) masked
    (String.length (Document.content d)) (String.length masked)
    (isoformat rt masked_at) (ollama_model st).

(** ** Sample data *)

Definition sample_result : AnalysisResult.t :=
  AnalysisResult.mk "A one-year lease." ["Automatic renewal"] "Moderate risk."
    [] ["Late fees"] (3 # 1)%Q (80 # 1)%Q ["Renewal terms"].

Definition excessive_result : AnalysisResult.t :=
  AnalysisResult.mk "A one-year lease." [] "Extreme risk." [] []
    (9 # 1)%Q (80 # 1)%Q [].

(** A runtime whose parser reads "ok" as [sample_result], "9/5" as
    [excessive_result] and rejects everything else. *)
Definition sample_rt : Runtime :=
  mkRuntime (fun _ => "<uuid>") (fun _ => "<float>") (fun _ => "<time>")
    "<format instructions>"
    (fun text =>
       if String.eqb text "ok" then Some sample_result
       else if String.eqb text "9/5" then Some excessive_result
       else None)
    (fun _ => "Invalid json output")
    (fun _ => "Input should be less than or equal to 5").

Definition sample_document : Document.t :=
  Document.mk 1%N "Lease" "  Tenant: Ann Lee" CONTRACT PENDING
    None None None None None 7%N.

Definition other_document : Document.t :=
  Document.mk 2%N "NDA" "Parties: Bo Chen" AGREEMENT PENDING
    None None None None None 7%N.

Definition sample_world : World :=
  mkWorld (mkDatabase {[1%N := sample_document; 2%N := other_document]} [])
    100%Z 1%N [].

(** Providers that answer, that answer with nothing, and that fail. *)
Definition sample_llm : Providers :=
  mkProviders (fun _ => Completes "ok")
    (fun _ => mkChatStream ["The lease "; ""; "renews."] None)
    (fun _ => Completes ("<think>mask the name</think>" +:+ nl +:+ "  Tenant: [NAME]")).

Definition silent_llm : Providers :=
  mkProviders (fun _ => Completes "")
    (fun _ => mkChatStream [""] None)
    (fun _ => Completes "").

Definition failing_llm : Providers :=
  mkProviders (fun _ => Fails (mkExn ProviderError ""))
    (fun _ => mkChatStream ["The lea"] (Some (mkExn ProviderError "connection reset")))
    (fun _ => Fails (mkExn ProviderError "503 Service Unavailable")).

(** The sample world after one successful analysis of document 1, and that
    document as stored. *)
Definition analysed_world : World :=
  snd (analyze_document sample_rt sample_llm 1%N 7%N sample_world).

Definition analysed_document : Document.t :=
  default sample_document (documents (db analysed_world) !! 1%N).

Definition analysed_result : DocumentAnalysisResult.t :=
  DocumentAnalysisResult.mk "A one-year lease." ["Automatic renewal"] "Moderate risk."
    [] ["Late fees"] (3 # 1)%Q (80 # 1)%Q ["Renewal terms"] 101%Z.

(** [sub] occurs in [s] after [before], and nowhere earlier. *)
Definition first_occurrence (sub s before after : string) : Prop :=
  s = before +:+ sub +:+ after
  /\ forall before' after', s = before' +:+ sub +:+ after' ->
       String.length before <= String.length before'.

(** * More of the code *)

(** ** [app/models.py]: [EnumAsString] *)

(** An enum class: its members in definition order and their values. *)
Record EnumClass (E : Type) := mkEnumClass {
  members : list E;
  value_of : E -> string
}.
Arguments mkEnumClass {E} members value_of.
Arguments members {E} e.
Arguments value_of {E} e.

Definition DocumentType_class : EnumClass DocumentType :=
  mkEnumClass [TERMS_OF_SERVICE; PRIVACY_POLICY; CONTRACT; AGREEMENT; OTHER]
    DocumentType_value.

Definition DocumentStatus_class : EnumClass DocumentStatus :=
  mkEnumClass [PENDING; PROCESSING; COMPLETED; FAILED] DocumentStatus_value.

Definition ChatMessageRole_class : EnumClass ChatMessageRole :=
  mkEnumClass [USER; ASSISTANT; SYSTEM] ChatMessageRole_value.

(** What is assigned to, or read from, an [EnumAsString] column: a member
    of the enum class or a plain string. *)
Inductive ColumnValue (E : Type) :=
| Member (e : E)
| Plain (s : string).
Arguments Member {E} e.
Arguments Plain {E} s.

(** [process_bind_param]; [None] is SQL NULL. *)
Definition process_bind_param {E : Type} (cls : EnumClass E)
  (value : option (ColumnValue E)) : option string :=
  match value with
  | None => None
  | Some (Member e) => Some (value_of cls e)
  | Some (Plain s) => Some s
  end.

(** The loop [for enum_item in self.enum_class]. *)
Fixpoint find_by_value {E : Type} (value_of : E -> string) (items : list E)
  (value : string) : option E :=
  match items with
  | [] => None
  | enum_item :: rest =>
      if String.eqb (value_of enum_item) value then Some enum_item
      else find_by_value value_of rest value
  end.

(** [process_result_value] *)
Definition process_result_value {E : Type} (cls : EnumClass E)
  (value : option string) : option (ColumnValue E) :=
  match value with
  | None => None
  | Some s =>
      match find_by_value (value_of cls) (members cls) s with
      | Some enum_item => Some (Member enum_item)
      | None => Some (Plain s)
      end
  end.

(** ** [app/services/pii_masking.py]: [get_masked_content] *)

Definition get_masked_content (rt : Runtime) (document_id user_id : UUID)
  : M MaskingResult :=
  found ← query_document document_id user_id;
  match found with
  | None => raise (not_found rt document_id)
  | Some document =>
      match Document.maskedContent document with
      | None =>
          raise (mkExn ValueError "Document has not been processed for PII masking")
      | Some masked =>
          mret (mkMaskingResult
                  (Document.id document)
                  (MaskedContent.masked_content masked)
                  (MaskedContent.original_length masked)
                  (MaskedContent.masked_length masked)
                  (MaskedContent.masked_at masked))
      end
  end.

(** ** [app/services/chat_service.py]: [get_chat_sessions] *)

(** One dict of [session_info]. *)
Record SessionInfo := mkSessionInfo {
  si_session_id : string;
  si_document_id : UUID;
  si_first_message : string;
  si_message_count : nat;
  si_created_at : option datetime;
  si_updated_at : option datetime
}.

(** [s[:n]] *)
Fixpoint slice_to (n : nat) (s : string) : string :=
  match n, s with
  | O, _ => EmptyString
  | S _, EmptyString => EmptyString
  | S n', String c s' => String c (slice_to n' s')
  end.

(** The [filter(...)] of the [sessionId] query. *)
Definition has_session (document_id user_id : UUID) (m : ChatMessage.t) : bool :=
  N.eqb (ChatMessage.documentId m) document_id
  && N.eqb (ChatMessage.userId m) user_id
  && match ChatMessage.sessionId m with Some _ => true | None => false end.

(** [.distinct()], in order of first occurrence. *)
Fixpoint distinct (l : list string) : list string :=
  match l with
  | [] => []
  | x :: rest => x :: List.filter (fun y => negb (String.eqb y x)) (distinct rest)
  end.

Definition session_ids (b : Database) (document_id user_id : UUID) : list string :=
  distinct
    (List.flat_map
       (fun m => match ChatMessage.sessionId m with Some s => [s] | None => [] end)
       (List.filter (has_session document_id user_id) (chat_messages b))).

(** [order_by(ChatMessage.createdAt.desc())]: descending, rows of equal
    [createdAt] in table order. *)
Fixpoint insert_by_createdAt_desc (m : ChatMessage.t) (sorted : list ChatMessage.t)
  : list ChatMessage.t :=
  match sorted with
  | [] => [m]
  | x :: rest =>
      if Z.leb (ChatMessage.createdAt x) (ChatMessage.createdAt m)
      then m :: x :: rest
      else x :: insert_by_createdAt_desc m rest
  end.

Fixpoint order_by_createdAt_desc (rows : list ChatMessage.t) : list ChatMessage.t :=
  match rows with
  | [] => []
  | m :: rest => insert_by_createdAt_desc m (order_by_createdAt_desc rest)
  end.

(** The body of [for session in sessions]. *)
Definition session_entry (b : Database) (document_id user_id : UUID)
  (session_id : string) : SessionInfo :=
  let rows := session_rows b session_id document_id user_id in
  let first_message := head (order_by_createdAt rows) in
  let last_message := head (order_by_createdAt_desc rows) in
  let message_count := List.length rows in
  mkSessionInfo session_id document_id
    match first_message with
    | Some m =>
        if Nat.ltb 100 (String.length (ChatMessage.content m))
        then slice_to 100 (ChatMessage.content m) +:+ "..."
        else ChatMessage.content m
    | None => ""
    end
    message_count
    (option_map ChatMessage.createdAt first_message)
    (option_map ChatMessage.createdAt last_message).

(** [x["updated_at"] or x["created_at"]]; a [datetime] is always truthy. *)
Definition session_key (x : SessionInfo) : option datetime :=
  match si_updated_at x with
  | Some t => Some t
  | None => si_created_at x
  end.

Fixpoint session_keys (infos : list SessionInfo)
  : option (list (datetime * SessionInfo)) :=
  match infos with
  | [] => Some []
  | x :: rest =>
      match session_key x, session_keys rest with
      | Some k, Some ks => Some ((k, x) :: ks)
      | _, _ => None
      end
  end.

(** [sorted(..., reverse=True)]: descending by key, entries of equal key in
    their original order. *)
Fixpoint insert_by_key_desc (x : datetime * SessionInfo)
  (sorted : list (datetime * SessionInfo)) : list (datetime * SessionInfo) :=
  match sorted with
  | [] => [x]
  | y :: rest =>
      if Z.leb (fst y) (fst x) then x :: y :: rest
      else y :: insert_by_key_desc x rest
  end.

Fixpoint sort_by_key_desc (l : list (datetime * SessionInfo))
  : list (datetime * SessionInfo) :=
  match l with
  | [] => []
  | x :: rest => insert_by_key_desc x (sort_by_key_desc rest)
  end.

(** [sorted] compares keys only when there are two entries or more; a
    [None] key cannot be compared. *)
Definition sorted_sessions (infos : list SessionInfo) : M (list SessionInfo) :=
  match infos with
  | [] | [_] => mret infos
  | _ =>
      match session_keys infos with
      | Some keyed => mret (List.map snd (sort_by_key_desc keyed))
      | None =>
          raise (mkExn OtherException
                   "'<' not supported between instances of 'NoneType' and 'NoneType'")
      end
  end.

Definition get_chat_sessions (document_id user_id : UUID) : M (list SessionInfo) :=
  d ← get_db;
  sorted_sessions
    (List.map (session_entry d document_id user_id)
       (session_ids d document_id user_id)).

(** ** The routers

    A handler answers with a body or with an [HTTPException]. *)

Inductive HTTPResult (A : Type) :=
| HTTPOk (body : A)
| HTTPException (status_code : nat) (detail : string).
Arguments HTTPOk {A} body.
Arguments HTTPException {A} status_code detail.

Definition Handler (A : Type) : Type := World -> HTTPResult A * World.

(** [except ValueError]: pydantic's [ValidationError] is a [ValueError]. *)
Definition is_ValueError (e : Exn) : bool :=
  match exn_class e with
  | ValueError | ValidationError => true
  | _ => false
  end.

(** [try: return service(...)]
    [except ValueError as e: raise HTTPException(404, str(e))]
    [except Exception as e: raise HTTPException(500, prefix + str(e))] *)
Definition serve_or_404 {A : Type} (prefix : string) (service : M A) : Handler A :=
  fun w =>
    match service w with
    | (Return a, w') => (HTTPOk a, w')
    | (Raise e, w') =>
        (if is_ValueError e then HTTPException 404 (exn_str e)
         else HTTPException 500 (prefix +:+ exn_str e), w')
    end.

(** The same without the [except ValueError] clause. *)
Definition serve {A : Type} (prefix : string) (service : M A) : Handler A :=
  fun w =>
    match service w with
    | (Return a, w') => (HTTPOk a, w')
    | (Raise e, w') => (HTTPException 500 (prefix +:+ exn_str e), w')
    end.

(** [app/routers/document_analysis.py] *)
Module DocumentRouter.

Definition analyze_document (rt : Runtime) (llm : Providers)
  (document_id user_id : UUID) : Handler AnalyzeDocumentResponse.t :=
  serve_or_404 "Failed to analyze document: "
    (analyze_document rt llm document_id user_id).

Definition get_document_analysis (rt : Runtime) (document_id user_id : UUID)
  : Handler AnalyzeDocumentResponse.t :=
  serve_or_404 "Failed to retrieve analysis: "
    (get_analysis_by_document_id rt document_id user_id).

End DocumentRouter.

(** [app/routers/pii_masking.py] *)
Module PIIRouter.

(** [PIIMaskingResponse] *)
Record PIIMaskingResponse := mkPIIMaskingResponse {
  masked_content : string;
  original_length : nat;
  masked_length : nat
}.

Definition mask_pii_text (llm : Providers) (text : string)
  : Handler PIIMaskingResponse :=
  serve "Failed to mask PII: "
    (masked_content ← mask_pii llm text;
     mret (mkPIIMaskingResponse masked_content (String.length text)
             (String.length masked_content))).

Definition mask_document_pii (rt : Runtime) (st : Settings) (llm : Providers)
  (document_id user_id : UUID) : Handler MaskingResult :=
  serve_or_404 "Failed to mask document PII: "
    (mask_document_content rt st llm document_id user_id).

Definition get_masked_document_content (rt : Runtime) (document_id user_id : UUID)
  : Handler MaskingResult :=
  serve_or_404 "Failed to retrieve masked content: "
    (get_masked_content rt document_id user_id).

End PIIRouter.

(** [app/routers/chat.py] *)
Module ChatRouter.

(** The tuples a generator yields when it is run to its end. *)
Definition consume (generator : M unit) : M (list (string * option UUID)) :=
  fun w =>
    match generator w with
    | (Return _, w') =>
        (Return (skipn (List.length (yields_of (trace w))) (yields_of (trace w'))),
         w')
    | (Raise e, w') => (Raise e, w')
    end.

(** The events of the SSE response; [data] is kept as its fields. *)
Inductive SSEEvent :=
| SSEMessage (content session_id : string) (document_id : UUID)
| SSEEnd (session_id : string) (document_id : UUID) (message_id : option UUID).

(** The [async for] of [event_stream], then its [end] event. *)
Fixpoint event_loop (session_id : string) (document_id : UUID)
  (tuples : list (string * option UUID)) (message_id : option UUID)
  : list SSEEvent :=
  match tuples with
  | [] => [SSEEnd session_id document_id message_id]
  | (chunk, msg_id) :: rest =>
      (if PyStr.truthy chunk then [SSEMessage chunk session_id document_id] else [])
      ++ event_loop session_id document_id rest
           (match msg_id with Some i => Some i | None => message_id end)
  end.

(** [ChatResponse]; its [message_id] is a required [UUID]. *)
Record ChatResponse := mkChatResponse {
  response : string;
  session_id : string;
  message_id : UUID
}.

(** The [async for] of [chat_message]. *)
Fixpoint accumulate (tuples : list (string * option UUID))
  (complete_response : string) (message_id : option UUID)
  : string * option UUID :=
  match tuples with
  | [] => (complete_response, message_id)
  | (chunk, msg_id) :: rest =>
      accumulate rest
        (if PyStr.truthy chunk then complete_response +:+ chunk else complete_response)
        (match msg_id with Some i => Some i | None => message_id end)
  end.

(** [missing_id] is [str] of the validation error that [ChatResponse]
    raises on [message_id=None]. *)
Definition chat_message (rt : Runtime) (llm : Providers) (missing_id : string)
  (message session_id : string) (document_id user_id : UUID)
  : Handler ChatResponse :=
  serve "Chat failed: "
    (tuples ← consume (chat_stream rt llm message session_id document_id user_id);
     let '(complete_response, message_id) := accumulate tuples "" None in
     match message_id with
     | Some i => mret (mkChatResponse complete_response session_id i)
     | None => raise (mkExn ValidationError missing_id)
     end).

(** [ChatHistoryResponse] *)
Record ChatHistoryResponse := mkChatHistoryResponse {
  ch_session_id : string;
  ch_document_id : UUID;
  ch_messages : list ChatMessageResponse.t;
  ch_total_messages : nat
}.

Definition get_chat_history (session_id : string) (document_id user_id : UUID)
  : Handler ChatHistoryResponse :=
  serve "Failed to get chat history: "
    (messages ← get_chat_history session_id document_id user_id;
     mret (mkChatHistoryResponse session_id document_id messages
             (List.length messages))).

(** The dict of [get_chat_sessions]. *)
Record ChatSessionsResponse := mkChatSessionsResponse {
  cs_document_id : UUID;
  cs_sessions : list SessionInfo;
  cs_total_sessions : nat
}.

Definition get_chat_sessions (document_id user_id : UUID)
  : Handler ChatSessionsResponse :=
  serve "Failed to get chat sessions: "
    (sessions ← get_chat_sessions document_id user_id;
     mret (mkChatSessionsResponse document_id sessions (List.length sessions))).

(** The dict of [delete_chat_session]. *)
Record DeletedSession := mkDeletedSession {
  ds_message : string;
  ds_session_id : string;
  ds_document_id : UUID;
  ds_deleted_messages : nat
}.

(** [db.query(ChatMessage).filter(...).delete()] then [db.commit()];
    [str_nat] is [str] on the count. *)
Definition delete_chat_session (str_nat : nat -> string) (session_id : string)
  (document_id user_id : UUID) : Handler DeletedSession :=
  serve "Failed to delete chat session: "
    (d ← get_db;
     let deleted_count := session_count d session_id document_id user_id in
     put_db (mkDatabase (documents d)
               (List.filter
                  (fun m => negb (in_session session_id document_id user_id m))
                  (chat_messages d)));;
     db_commit;;
     mret (mkDeletedSession
             ("Deleted " +:+ str_nat deleted_count +:+ " messages from session")
             session_id document_id deleted_count)).

Definition chat_stream (rt : Runtime) (llm : Providers) (message session_id : string)
  (document_id user_id : UUID) : M (list SSEEvent) :=
  tuples ← consume (chat_stream rt llm message session_id document_id user_id);
  mret (event_loop session_id document_id tuples None).

End ChatRouter.

(** The tuples yielded between two traces. *)
Definition yielded_since (w w' : World) : list (string * option UUID) :=
  skipn (List.length (yields_of (trace w))) (yields_of (trace w')).

(** Every durable row is in a state the status machine can be in. *)
Definition status_inv (d : Document.t) : Prop :=
  match Document.status d with
  | PENDING =>
      Document.processingStartedAt d = None
      /\ Document.processingCompletedAt d = None
      /\ Document.errorMessage d = None
  | PROCESSING =>
      Document.processingStartedAt d <> None /\ Document.errorMessage d = None
  | COMPLETED =>
      Document.processingStartedAt d <> None
      /\ Document.processingCompletedAt d <> None
      /\ Document.errorMessage d = None
  | FAILED =>
      Document.processingStartedAt d <> None
      /\ Document.processingCompletedAt d <> None
      /\ Document.errorMessage d <> None
  end.

(** ** Vocabulary of the further properties *)

Definition first_char (s : string) : option ascii :=
  match s with
  | EmptyString => None
  | String c _ => Some c
  end.

Fixpoint last_char (s : string) : option ascii :=
  match s with
  | EmptyString => None
  | String c rest =>
      match rest with
      | EmptyString => Some c
      | String _ _ => last_char rest
      end
  end.

Fixpoint has_newline (s : string) : bool :=
  match s with
  | EmptyString => false
  | String c rest => Ascii.eqb c PyStr.newline || has_newline rest
  end.

(** The message a stored chat message becomes in a provider request. *)
Definition role_message (m : ChatMessage.t) : list LLMMessage :=
  match ChatMessage.role m with
  | USER => [HumanMessage (ChatMessage.content m)]
  | ASSISTANT => [AIMessage (ChatMessage.content m)]
  | SYSTEM => []
  end.

(** The prompt an analysis of row [d] sends. *)
Definition prompt_for (rt : Runtime) (d : Document.t) : string :=
  match usable_masked_content d with
  | Some masked =>
      analysis_prompt rt (Document.title d) (DocumentType_value (Document.type d))
        masked "masked" "PII has been masked for privacy"
        "Note: Personal identifiable information (PII) has been masked in this document for privacy protection."
  | None =>
      analysis_prompt rt (Document.title d) (DocumentType_value (Document.type d))
        (Document.content d) "original" "original unmasked content" ""
  end.

(** What the chain gives on a prompt: the exception it raises or the
    record the parser accepts. *)
Definition chain_result (rt : Runtime) (llm : Providers) (prompt : string)
  : Exn + AnalysisResult.t :=
  match chain_llm llm prompt with
  | Fails e => inl e
  | Completes text =>
      match parse_json rt text with
      | None => inl (mkExn ValidationError (parser_error rt text))
      | Some result =>
          if AnalysisResult.valid result then inr result
          else inl (mkExn ValidationError (validation_error rt result))
      end
  end.

(** The record stored for a parsed result analysed at [analyzed]. *)
Definition stored_analysis (result : AnalysisResult.t) (analyzed : datetime)
  : DocumentAnalysisResult.t :=
  DocumentAnalysisResult.mk
    (AnalysisResult.summary result) (AnalysisResult.hidden_clauses result)
    (AnalysisResult.risk_assessment result) (AnalysisResult.loopholes result)
    (AnalysisResult.red_flags result) (AnalysisResult.risk_score result)
    (AnalysisResult.confidence_rating result) (AnalysisResult.key_concerns result)
    analyzed.

(** The row an attempt on [d] started at [c] leaves, and the response. *)
Definition attempted_row (rt : Runtime) (llm : Providers) (c : datetime)
  (d : Document.t) : Document.t :=
  let d1 := mark_processing c d in
  match chain_result rt llm (prompt_for rt d) with
  | inl e => mark_failed (exn_str e) (c + 1)%Z d1
  | inr result => mark_completed (stored_analysis result (c + 1)%Z) (c + 1 + 1)%Z d1
  end.

Definition attempted_response (rt : Runtime) (llm : Providers) (c : datetime)
  (d : Document.t) : AnalyzeDocumentResponse.t :=
  match chain_result rt llm (prompt_for rt d) with
  | inl e => response_of (attempted_row rt llm c d) None (Some (exn_str e))
  | inr result =>
      response_of (attempted_row rt llm c d)
        (Some (stored_analysis result (c + 1)%Z)) None
  end.

(** A property of rows, in a database state and in every state ever made
    durable. *)
Definition rows_ok (P : Document.t -> Prop) (b : Database) : Prop :=
  map_Forall (fun _ d => P d) (documents b).

Definition all_rows_ok (P : Document.t -> Prop) (w : World) : Prop :=
  Forall (rows_ok P) (persisted w).

(** What [analyze_document] gives on the sample world when the provider
    fails: the response, and the world then. *)
Definition analyze_document_outcome_of_failing_llm
  : Outcome AnalyzeDocumentResponse.t * World :=
  let w' := snd (analyze_document sample_rt failing_llm 1%N 7%N sample_world) in
  (Return (response_of (default sample_document (documents (db w') !! 1%N))
             None (Some "")),
   w').

(** The sample world after one chat turn on document 1. *)
Definition talked_world : World :=
  snd (chat_stream sample_rt sample_llm "Is it risky?" "s1" 1%N 7%N sample_world).

(** [x] is listed before [y] only if it was updated no earlier. *)
Definition newer_first (x y : SessionInfo) : Prop :=
  match si_updated_at x, si_updated_at y with
  | Some a, Some b => (b <= a)%Z
  | _, _ => False
  end.

(** The text shown for a first message. *)
Definition preview (content : string) : string :=
  if Nat.ltb 100 (String.length content)
  then slice_to 100 content +:+ "..."
  else content.

(** A stored masking record describes the document it is stored on. *)
Definition masked_inv (d : Document.t) : Prop :=
  match Document.maskedContent d with
  | Some mc =>
      MaskedContent.original_content mc = Document.content d
      /\ MaskedContent.original_length mc = String.length (Document.content d)
      /\ MaskedContent.masked_length mc = String.length (MaskedContent.masked_content mc)
      /\ PyStr.strip (MaskedContent.masked_content mc) = MaskedContent.masked_content mc
  | None => True
  end.

(** The columns of a document that only its creation sets. *)
Definition same_identity (d d' : Document.t) : Prop :=
  Document.id d' = Document.id d
  /\ Document.title d' = Document.title d
  /\ Document.content d' = Document.content d
  /\ Document.type d' = Document.type d
  /\ Document.userId d' = Document.userId d.

(** * Properties *)

(** ** The embedding at work *)

Example strip_example : PyStr.strip ("  " +:+ nl +:+ " a b  ") = "a b".
Proof. reflexivity. Qed.

Example split_lines_example :
  PyStr.split_lines ("a" +:+ nl +:+ nl +:+ "b" +:+ nl) = ["a"; ""; "b"; ""].
Proof. reflexivity. Qed.

Example find_example : PyStr.find "</think>" "<think>x</think>y</think>" = Some 8.
Proof. reflexivity. Qed.

Example find_absent_example : PyStr.find "</think>" "<think>x" = None.
Proof. reflexivity. Qed.

Example clean_response_thinking :
  MaskClean.clean_response
    ("<think>mask the names</think>" +:+ nl +:+ "Here is the masked text:" +:+ nl
     +:+ nl +:+ " Dear [NAME]," +:+ nl +:+ "call [PHONE].")
  = "Dear [NAME], call [PHONE].".
Proof. reflexivity. Qed.

Example clean_response_unclosed :
  MaskClean.clean_response ("<think>Dear [NAME]" +:+ nl +:+ "This is it")
  = "<think>Dear [NAME]".
Proof. reflexivity. Qed.

Example clean_response_fallback :
  MaskClean.clean_response (" The End " +:+ nl) = "The End".
Proof. reflexivity. Qed.

Example analysed_document_stored :
  Document.status analysed_document = COMPLETED
  /\ Document.analysis analysed_document = Some analysed_result
  /\ Document.processingStartedAt analysed_document = Some 100%Z
  /\ Document.processingCompletedAt analysed_document = Some 102%Z
  /\ List.length (commits_of (trace analysed_world)) = 2
  /\ List.length (provider_requests (trace analysed_world)) = 1.
Proof. vm_compute. repeat split. Qed.

Example out_of_range_analysis_fails :
  let llm := mkProviders (fun _ => Completes "9/5") (chat_astream sample_llm)
               (ollama_post sample_llm) in
  let w' := snd (analyze_document sample_rt llm 1%N 7%N sample_world) in
  Document.status <$> documents (db w') !! 1%N = Some FAILED
  /\ Document.analysis <$> documents (db w') !! 1%N = Some None
  /\ Document.errorMessage <$> documents (db w') !! 1%N
     = Some (Some "Input should be less than or equal to 5").
Proof. vm_compute. repeat split. Qed.

Example failed_stream_reply :
  let w' := snd (chat_stream sample_rt failing_llm "Is it risky?" "s1" 1%N 7%N
                   sample_world) in
  List.map ChatMessage.content (chat_messages (db w'))
  = ["Is it risky?"; "Sorry, I encountered an error: connection reset"]
  /\ yields_of (trace w')
     = [("The lea", None);
        ("Sorry, I encountered an error: connection reset", Some 2%N)].
Proof. vm_compute. repeat split. Qed.

(** ** Strings *)

Lemma append_String c s r : String c s +:+ r = String c (s +:+ r).
Proof. reflexivity. Qed.

Lemma append_Empty r : "" +:+ r = r.
Proof. reflexivity. Qed.

Lemma startswith_split p s :
  PyStr.startswith p s = true <-> exists r, s = p +:+ r.
Proof.
  unfold PyStr.startswith. revert s.
  induction p as [|c p IH]; intros s; simpl.
  - destruct s; split; eauto.
  - destruct s as [|c' s]; simpl.
    + split; [discriminate | intros [r Hr]; discriminate].
    + destruct (Ascii.ascii_dec c c') as [->|Hne].
      * rewrite IH. split; intros [r Hr]; exists r;
          rewrite append_String in *; congruence.
      * split; [discriminate | intros [r Hr]; rewrite append_String in Hr; congruence].
Qed.

Lemma slice_from_append p r : PyStr.slice_from (String.length p) (p +:+ r) = r.
Proof. induction p; [destruct r; reflexivity | rewrite append_String; simpl; auto]. Qed.

Lemma find_first sub s i :
  PyStr.find sub s = Some i ->
  exists before after,
    first_occurrence sub s before after
    /\ String.length before = i
    /\ PyStr.slice_from (i + String.length sub) s = after.
Proof.
  revert i. induction s as [|c s IH]; intros i.
  - cbn [PyStr.find]. destruct (PyStr.startswith sub "") eqn:Hp; [|discriminate].
    intros [= <-]. apply startswith_split in Hp as [r Hr].
    destruct sub; [|rewrite append_String in Hr; discriminate].
    rewrite append_Empty in Hr. subst r.
    exists "", "". repeat split; simpl; auto with arith.
  - cbn [PyStr.find]. destruct (PyStr.startswith sub (String c s)) eqn:Hp.
    + intros [= <-]. apply startswith_split in Hp as [r Hr].
      exists "", r. repeat split; simpl; auto with arith.
      rewrite Hr. apply slice_from_append.
    + destruct (PyStr.find sub s) as [j|] eqn:Hf; [|discriminate].
      intros [= <-]. destruct (IH j eq_refl) as (b & a & [Hs Hmin] & Hlen & Hsl).
      exists (String c b), a. repeat split.
      * rewrite append_String. congruence.
      * intros b' a' Heq. destruct b' as [|c' b'].
        -- exfalso. rewrite append_Empty in Heq.
           assert (PyStr.startswith sub (String c s) = true) as Ht
             by (apply startswith_split; eauto).
           congruence.
        -- rewrite append_String in Heq. injection Heq as -> Heq.
           simpl. apply le_n_S. eapply Hmin. eassumption.
      * simpl. congruence.
      * simpl. assumption.
Qed.

Lemma collect_filter lines acc :
  MaskClean.collect lines acc
  = acc ++ List.filter MaskClean.keep_line (List.map PyStr.strip lines).
Proof.
  revert acc. induction lines as [|l ls IH]; intros acc; simpl.
  - now rewrite app_nil_r.
  - unfold MaskClean.keep_line at 1.
    destruct (PyStr.truthy (PyStr.strip l) && negb (MaskClean.startswith_preamble (PyStr.strip l))).
    + rewrite IH, <- app_assoc. reflexivity.
    + apply IH.
Qed.

(** ** The cleaning of the masking provider's response *)

(** C9, as worded, at a response whose lines are indented: the lines are
    neither empty nor begin with a preamble word, so joining them as they
    stand keeps the indentation; the code strips every line first. *)
Lemma clean_response_claim_fails :
  let raw := "  Tenant: [NAME]" +:+ nl +:+ "  Phone: [PHONE]" in
  MaskClean.clean_response raw = "Tenant: [NAME] Phone: [PHONE]"
  /\ MaskClean.claimed_clean_response raw = "  Tenant: [NAME]   Phone: [PHONE]"
  /\ MaskClean.clean_response raw <> MaskClean.claimed_clean_response raw.
Proof. vm_compute. repeat split. discriminate. Qed.

(** C9, amended: when the response contains both "<think>" and "</think>"
    the remainder is the stripped text after the first "</think>", otherwise
    the response itself; every line of the remainder is stripped, the
    stripped lines that are empty or begin with "Here", "The", "I've" or
    "This" are discarded, and the others are joined with single spaces; if
    none is left the stripped remainder is returned. *)
Theorem clean_response_spec (raw : string) :
  let remainder := MaskClean.skip_thinking raw in
  (if PyStr.contains "<think>" raw && PyStr.contains "</think>" raw
   then exists before after,
          first_occurrence "</think>" raw before after
          /\ remainder = PyStr.strip after
   else remainder = raw)
  /\ (forall line, In line (MaskClean.kept_lines remainder) ->
        line <> "" /\ MaskClean.startswith_preamble line = false
        /\ exists l, In l (PyStr.split_lines remainder) /\ line = PyStr.strip l)
  /\ MaskClean.clean_response raw
     = match MaskClean.kept_lines remainder with
       | [] => PyStr.strip remainder
       | kept => PyStr.join " " kept
       end.
Proof.
  intros remainder. split; [|split].
  - subst remainder. unfold MaskClean.skip_thinking.
    destruct (PyStr.contains "<think>" raw && PyStr.contains "</think>" raw) eqn:Hboth;
      [|reflexivity].
    destruct (PyStr.find "</think>" raw) as [i|] eqn:Hf.
    + destruct (find_first _ _ _ Hf) as (b & a & Hfirst & _ & Hsl).
      exists b, a. split; [exact Hfirst|]. now rewrite <- Hsl.
    + apply andb_true_iff in Hboth as [_ Hc]. unfold PyStr.contains in Hc.
      rewrite Hf in Hc. discriminate.
  - intros line Hin. unfold MaskClean.kept_lines in Hin.
    apply filter_In in Hin as [Hin Hkeep].
    apply in_map_iff in Hin as (l & <- & Hl).
    unfold MaskClean.keep_line in Hkeep.
    apply andb_true_iff in Hkeep as [Ht Hp].
    apply negb_true_iff in Hp.
    repeat split; eauto.
    intros E. rewrite E in Ht. discriminate.
  - unfold MaskClean.clean_response. fold remainder.
    rewrite collect_filter. cbn [app]. unfold MaskClean.kept_lines.
    now destruct (List.filter _ _).
Qed.

(** ** Running the services *)

Ltac run_prims :=
  unfold query_document, set_attr, row, db_commit, yield, emit, utcnow,
    uuid_generate, get_db, put_db, raise, try_except;
  unfold mbind, M_bind, mret, M_ret;
  cbn [fst snd db clock next_uuid trace documents chat_messages].

Lemma bind_Return {A B} (m : M A) (k : A -> M B) w a w1 :
  m w = (Return a, w1) -> (m ≫= k) w = k a w1.
Proof. intros H. unfold mbind, M_bind. now rewrite H. Qed.

Lemma bind_Raise {A B} (m : M A) (k : A -> M B) w e w1 :
  m w = (Raise e, w1) -> (m ≫= k) w = (Raise e, w1).
Proof. intros H. unfold mbind, M_bind. now rewrite H. Qed.

Lemma utcnow_run b c u t :
  utcnow (mkWorld b c u t) = (Return c, mkWorld b (c + 1)%Z u t).
Proof. reflexivity. Qed.

Lemma db_commit_run b c u t :
  db_commit (mkWorld b c u t) = (Return tt, mkWorld b c u (t ++ [EvCommit b])).
Proof. reflexivity. Qed.

Lemma emit_run e b c u t :
  emit e (mkWorld b c u t) = (Return tt, mkWorld b c u (t ++ [e])).
Proof. reflexivity. Qed.

Lemma row_run h d b c u t :
  documents b !! h = Some d -> row h (mkWorld b c u t) = (Return d, mkWorld b c u t).
Proof. intros H. unfold row. run_prims. now rewrite H. Qed.

Lemma set_attr_run h f d b c u t :
  documents b !! h = Some d ->
  set_attr h f (mkWorld b c u t) = (Return tt, mkWorld (store_at h (f d) b) c u t).
Proof. intros H. unfold set_attr. run_prims. now rewrite H. Qed.

Lemma store_at_lookup h d b : documents (store_at h d b) !! h = Some d.
Proof. apply lookup_insert_eq. Qed.

Lemma store_at_twice h d d' b : store_at h d' (store_at h d b) = store_at h d' b.
Proof. unfold store_at. cbn. now rewrite insert_insert_eq. Qed.

Lemma owned_document_lookup b did uid d :
  owned_document b did uid = Some d ->
  documents b !! did = Some d /\ Document.id d = did /\ Document.userId d = uid.
Proof.
  unfold owned_document. destruct (documents b !! did) as [doc|]; [|discriminate].
  destruct (N.eqb (Document.id doc) did) eqn:E1; [|discriminate].
  destruct (N.eqb (Document.userId doc) uid) eqn:E2; [|discriminate].
  intros [= <-]. apply N.eqb_eq in E1, E2. auto.
Qed.

Ltac step_attr :=
  erewrite bind_Return
    by (apply set_attr_run; first [eassumption | apply store_at_lookup]);
  rewrite ?store_at_twice.
Ltac step_row :=
  erewrite bind_Return
    by (apply row_run; first [eassumption | apply store_at_lookup]).
Ltac step_now := erewrite bind_Return by apply utcnow_run.
Ltac step_commit := erewrite bind_Return by apply db_commit_run.
Ltac step_emit := erewrite bind_Return by apply emit_run.

Lemma analysis_failed_run h e d b c u t :
  documents b !! h = Some d ->
  let d' := mark_failed (exn_str e) c d in
  analysis_failed h e (mkWorld b c u t)
  = (Return (response_of d' None (Some (exn_str e))),
     mkWorld (store_at h d' b) (c + 1)%Z u (t ++ [EvCommit (store_at h d' b)])).
Proof.
  intros Hl d'. unfold analysis_failed.
  step_attr. step_attr. step_now. step_attr. step_commit. step_row.
  reflexivity.
Qed.

(** ** The analysis attempt *)

Section Attempt.
Variable rt : Runtime.
Variable llm : Providers.

Lemma analysis_attempt_cases h d b c u t :
  documents b !! h = Some d ->
  let d1 := mark_processing c d in
  let b1 := store_at h d1 b in
  exists prompt,
    let t1 := t ++ [EvCommit b1; EvChainInvoke prompt] in
    (exists e,
        analysis_attempt rt llm h (mkWorld b c u t)
        = (Raise e, mkWorld b1 (c + 1)%Z u t1))
    \/ (exists a,
        DocumentAnalysisResult.valid a = true
        /\ let d2 := mark_completed a (c + 1 + 1)%Z d1 in
           let b2 := store_at h d2 b in
           analysis_attempt rt llm h (mkWorld b c u t)
           = (Return (response_of d2 (Some a) None),
              mkWorld b2 (c + 1 + 1 + 1)%Z u (t1 ++ [EvCommit b2]))).
Proof.
  intros Hl d1 b1. unfold analysis_attempt.
  step_attr. step_now. step_attr. step_attr. step_commit. step_row.
  fold d1 b1.
  destruct (match usable_masked_content d1 with Some _ => _ | None => _ end)
    as [[[content source] description] note].
  unfold chain_ainvoke.
  match goal with |- context [EvChainInvoke ?p] => exists p;
    change (t ++ [EvCommit b1; EvChainInvoke p])
      with (t ++ ([EvCommit b1] ++ [EvChainInvoke p]));
    rewrite (app_assoc t)
  end.
  destruct (chain_llm llm _) as [e|text].
  { left. exists e. erewrite bind_Raise; [reflexivity|].
    erewrite bind_Return by apply emit_run. reflexivity. }
  unfold output_parser.
  destruct (parse_json rt text) as [r|].
  2:{ left. eexists. erewrite bind_Raise; [reflexivity|].
      erewrite bind_Return by apply emit_run. reflexivity. }
  destruct (AnalysisResult.valid r) eqn:Hv.
  2:{ left. eexists. erewrite bind_Raise; [reflexivity|].
      erewrite bind_Return by apply emit_run. reflexivity. }
  right. eexists. split; [|].
  2:{ erewrite bind_Return.
      2:{ erewrite bind_Return by apply emit_run. reflexivity. }
      step_now. unfold DocumentAnalysisResult_init.
      change (DocumentAnalysisResult.valid _) with (AnalysisResult.valid r).
      rewrite Hv.
      erewrite bind_Return by reflexivity.
      step_attr. step_attr. step_now. step_attr. step_commit. step_row.
      reflexivity. }
  exact Hv.
Qed.
End Attempt.

Lemma append_assoc (a b c : string) : (a +:+ b) +:+ c = a +:+ b +:+ c.
Proof. induction a; [reflexivity | rewrite !append_String; congruence]. Qed.

Lemma append_nil_r (a : string) : a +:+ "" = a.
Proof. induction a; [reflexivity | rewrite append_String; congruence]. Qed.

Lemma join_empty_cons x xs : PyStr.join "" (x :: xs) = x +:+ PyStr.join "" xs.
Proof.
  unfold PyStr.join. destruct xs; cbn [String.concat].
  - now rewrite append_nil_r.
  - reflexivity.
Qed.

(** ** The chat turn *)

Section Chat.
Variable rt : Runtime.
Variable llm : Providers.

Lemma save_message_run content role sid did uid w :
  let m := saved_message rt content role sid did uid w in
  _save_message rt content role sid did uid w = (Return m, after_save m w).
Proof. reflexivity. Qed.

Lemma forward_chunks_run emitted : forall acc w,
  forward_chunks emitted acc w
  = (Return (acc +:+ PyStr.join "" (forwarded emitted)),
     with_events (List.map fragment_event (forwarded emitted)) w).
Proof.
  induction emitted as [|chunk rest IH]; intros acc w.
  - cbn. rewrite append_nil_r. unfold with_events. rewrite app_nil_r.
    now destruct w.
  - cbn [forward_chunks forwarded List.filter].
    destruct (PyStr.truthy chunk).
    + erewrite bind_Return by reflexivity.
      rewrite IH. fold (forwarded rest).
      rewrite join_empty_cons, append_assoc.
      unfold with_events. cbn. now rewrite <- app_assoc.
    + apply IH.
Qed.

Lemma astream_all_run messages w :
  let s := chat_astream llm messages in
  astream_all llm messages w
  = (match failure s with
     | Some e => Raise e
     | None => Return (PyStr.join "" (forwarded (chunks s)))
     end,
     with_events (EvChatStream messages :: List.map fragment_event (forwarded (chunks s))) w).
Proof.
  intros s. unfold astream_all.
  erewrite bind_Return by reflexivity.
  fold s.
  assert (forall w0, with_events (List.map fragment_event (forwarded (chunks s)))
            (with_events [EvChatStream messages] w0)
          = with_events (EvChatStream messages :: List.map fragment_event (forwarded (chunks s))) w0) as E.
  { intros w0. unfold with_events. cbn. now rewrite <- app_assoc. }
  destruct (failure s) as [e|].
  - erewrite bind_Return by apply forward_chunks_run.
    unfold raise. now rewrite <- E.
  - erewrite bind_Return by apply forward_chunks_run.
    unfold mret, M_ret. now rewrite <- E.
Qed.

Lemma chat_stream_run message sid did uid w d :
  owned_document (db w) did uid = Some d ->
  let um := saved_message rt message USER sid did uid w in
  let w1 := after_save um w in
  let request := turn_request rt (db w1) message sid did uid in
  let s := chat_astream llm request in
  let w2 := with_events (EvChatStream request :: List.map fragment_event (forwarded (chunks s))) w1 in
  chat_stream rt llm message sid did uid w
  = (Return tt,
     match turn_reply s with
     | Some reply =>
         let am := saved_message rt reply ASSISTANT sid did uid w2 in
         with_events [EvYield (closing_chunk s) (Some (ChatMessage.id am))] (after_save am w2)
     | None => w2
     end).
Proof.
  intros Hown um w1 request s w2. unfold chat_stream.
  erewrite bind_Return by reflexivity. rewrite Hown.
  erewrite bind_Return by apply save_message_run.
  fold um w1. unfold try_except, chat_attempt.
  erewrite bind_Return by reflexivity.
  erewrite bind_Return by reflexivity.
  fold (turn_request rt (db w1) message sid did uid). fold request.
  unfold turn_reply, closing_chunk.
  pose proof (astream_all_run request w1) as Hrun. cbn zeta in Hrun.
  fold s in Hrun. fold w2 in Hrun.
  destruct (failure s) as [e|].
  - erewrite bind_Raise by exact Hrun.
    unfold chat_failed. erewrite bind_Return by apply save_message_run.
    reflexivity.
  - erewrite bind_Return by exact Hrun.
    destruct (PyStr.truthy (PyStr.join "" (forwarded (chunks s)))).
    + erewrite bind_Return by apply save_message_run. reflexivity.
    + reflexivity.
Qed.
End Chat.

Lemma chat_stream_unowned rt llm message session_id document_id user_id w :
  owned_document (db w) document_id user_id = None ->
  chat_stream rt llm message session_id document_id user_id w
  = (Return tt,
     with_events [EvYield "Error: Document not found or access denied." None] w).
Proof.
  intros Hnone. unfold chat_stream. erewrite bind_Return by reflexivity.
  rewrite Hnone. reflexivity.
Qed.

(** C10: when no document with the given id is owned by the caller,
    [chat_stream] yields the one tuple
    ("Error: Document not found or access denied.", None) and ends; the
    database is left as it was, so no chat message is persisted. *)
Theorem chat_stream_not_found rt llm message session_id document_id user_id w :
  owned_document (db w) document_id user_id = None ->
  chat_stream rt llm message session_id document_id user_id w
  = (Return tt,
     mkWorld (db w) (clock w) (next_uuid w)
       (trace w ++ [EvYield "Error: Document not found or access denied." None])).
Proof.
  intros Hnone. unfold chat_stream. run_prims. rewrite Hnone. reflexivity.
Qed.

Lemma chat_stream_not_found_witness :
  let outcome := chat_stream sample_rt sample_llm "Is it risky?" "s1" 9%N 7%N sample_world in
  fst outcome = Return tt
  /\ db (snd outcome) = db sample_world
  /\ yields_of (trace (snd outcome))
     = [("Error: Document not found or access denied.", None)].
Proof.
  cbn zeta.
  rewrite (chat_stream_not_found sample_rt sample_llm "Is it risky?" "s1" 9%N 7%N
             sample_world eq_refl).
  repeat split.
Defined.

Lemma in_session_saved rt content role sid did uid w :
  in_session sid did uid (saved_message rt content role sid did uid w) = true.
Proof.
  unfold in_session, saved_message. cbn.
  now rewrite String.eqb_refl, !N.eqb_refl.
Qed.

Lemma session_count_with_message m b sid did uid :
  in_session sid did uid m = true ->
  session_count (with_message m b) sid did uid = session_count b sid did uid + 1.
Proof.
  intros H. unfold session_count, session_rows, with_message. cbn.
  rewrite List.filter_app, List.length_app. cbn. now rewrite H.
Qed.

Lemma yields_of_fragments l :
  yields_of (List.map fragment_event l) = List.map (fun c => (c, None)) l.
Proof. induction l; cbn; congruence. Qed.

Lemma yields_of_app t1 t2 : yields_of (t1 ++ t2) = yields_of t1 ++ yields_of t2.
Proof. induction t1 as [|[] t1 IH]; cbn; congruence. Qed.

Lemma provider_requests_fragments l :
  provider_requests (List.map fragment_event l) = [].
Proof. induction l; cbn; auto. Qed.

(** C1, as worded, at a stream that ends normally without any text: the
    user's message is the only one persisted, the count grows by 1. *)
Lemma chat_turn_claim_fails :
  let w' := snd (chat_stream sample_rt silent_llm "Is it risky?" "s1" 1%N 7%N
                   sample_world) in
  owned_document (db sample_world) 1%N 7%N = Some sample_document
  /\ session_count (db sample_world) "s1" 1%N 7%N = 0
  /\ session_count (db w') "s1" 1%N 7%N = 1
  /\ List.map ChatMessage.role (chat_messages (db w')) = [USER]
  /\ session_count (db w') "s1" 1%N 7%N
     <> session_count (db sample_world) "s1" 1%N 7%N + 2.
Proof. vm_compute. repeat split. discriminate. Qed.

(** C1, amended: in a chat turn on an owned document the user's message is
    committed before the one request to the provider; after the stream ends
    one assistant message is committed when the stream raised or the
    accumulated text is non-empty, and none when the stream ended normally
    with an empty accumulated text; the number of messages of the (session,
    document, user) tuple grows by 2 in the first case and by 1 in the
    second. *)
Theorem chat_turn_messages rt llm message session_id document_id user_id w d :
  owned_document (db w) document_id user_id = Some d ->
  let w' := snd (chat_stream rt llm message session_id document_id user_id w) in
  exists user_message request tail replies,
    let s := chat_astream llm request in
    trace w' = trace w ++ EvCommit (with_message user_message (db w))
                       :: EvChatStream request :: tail
    /\ provider_requests tail = []
    /\ ChatMessage.content user_message = message
    /\ ChatMessage.role user_message = USER
    /\ in_session session_id document_id user_id user_message = true
    /\ db w' = mkDatabase (documents (db w))
                 (chat_messages (db w) ++ user_message :: replies)
    /\ List.map (fun m => (ChatMessage.role m, ChatMessage.content m)) replies
       = match turn_reply s with
         | Some reply => [(ASSISTANT, reply)]
         | None => []
         end
    /\ tail = List.map fragment_event (forwarded (chunks s))
              ++ match replies with
                 | [] => []
                 | m :: _ => [EvCommit (db w');
                              EvYield (closing_chunk s) (Some (ChatMessage.id m))]
                 end
    /\ session_count (db w') session_id document_id user_id
       = session_count (db w) session_id document_id user_id + 1
         + (match turn_reply s with Some _ => 1 | None => 0 end).
Proof.
  intros Hown w'. subst w'.
  rewrite (chat_stream_run rt llm _ _ _ _ _ _ Hown). cbn [snd].
  set (um := saved_message rt message USER session_id document_id user_id w).
  set (request := turn_request rt (db (after_save um w)) message session_id document_id user_id).
  set (s := chat_astream llm request).
  set (frags := List.map fragment_event (forwarded (chunks s))).
  pose proof (in_session_saved rt message USER session_id document_id user_id w) as Hum.
  fold um in Hum.
  exists um, request.
  destruct (turn_reply s) as [reply|] eqn:Hreply.
  - set (w2 := with_events (EvChatStream request :: frags) (after_save um w)).
    set (am := saved_message rt reply ASSISTANT session_id document_id user_id w2).
    pose proof (in_session_saved rt reply ASSISTANT session_id document_id user_id w2) as Ham.
    fold am in Ham.
    exists (frags ++ [EvCommit (with_message am (with_message um (db w)));
                      EvYield (closing_chunk s) (Some (ChatMessage.id am))]), [am].
    cbn zeta. fold s. rewrite Hreply.
    cbn [trace db with_events after_save].
    subst w2. cbn [trace db with_events after_save].
    repeat split; try reflexivity; try assumption.
    + rewrite <- !app_assoc. reflexivity.
    + unfold provider_requests. rewrite List.filter_app.
      fold (provider_requests frags). unfold frags.
      now rewrite provider_requests_fragments.
    + unfold with_message. cbn. now rewrite <- app_assoc.
    + rewrite !session_count_with_message by assumption. lia.
  - exists frags, []. cbn zeta. fold s. rewrite Hreply.
    cbn [trace db with_events after_save].
    repeat split; try reflexivity; try assumption.
    + rewrite <- !app_assoc. reflexivity.
    + apply provider_requests_fragments.
    + now rewrite app_nil_r.
    + rewrite !session_count_with_message by assumption. lia.
Qed.

Lemma chat_turn_messages_witness :
  session_count
    (db (snd (chat_stream sample_rt sample_llm "Is it risky?" "s1" 1%N 7%N sample_world)))
    "s1" 1%N 7%N = 2.
Proof.
  destruct (chat_turn_messages sample_rt sample_llm "Is it risky?" "s1" 1%N 7%N
              sample_world sample_document eq_refl)
    as (um & request & tail & replies & _ & _ & _ & _ & _ & _ & _ & _ & H).
  rewrite H. reflexivity.
Defined.


Lemma truthy_append a b : PyStr.truthy a = true -> PyStr.truthy (a +:+ b) = true.
Proof. destruct a; [discriminate | reflexivity]. Qed.

Lemma truthy_join_forwarded emitted :
  PyStr.truthy (PyStr.join "" (forwarded emitted))
  = match forwarded emitted with [] => false | _ :: _ => true end.
Proof.
  destruct (forwarded emitted) as [|x xs] eqn:E; [reflexivity|].
  rewrite join_empty_cons. apply truthy_append.
  assert (In x (forwarded emitted)) as Hin by (rewrite E; now left).
  unfold forwarded in Hin. now apply filter_In in Hin.
Qed.

(** C7: in a chat turn whose stream does not raise, the fragments yielded to
    the caller are the non-empty chunks of the provider, in the order of
    emission; when there is at least one, exactly one assistant message is
    persisted, its content is the concatenation of the fragments in that
    order, and a last tuple with an empty chunk carries its id; every
    assistant message the turn persists has that content. *)
Theorem chat_stream_forwarding rt llm message session_id document_id user_id w d :
  owned_document (db w) document_id user_id = Some d ->
  let w' := snd (chat_stream rt llm message session_id document_id user_id w) in
  exists request user_message,
    let s := chat_astream llm request in
    let fragments := List.filter PyStr.truthy (chunks s) in
    provider_requests (trace w')
    = provider_requests (trace w) ++ [EvChatStream request]
    /\ (failure s = None ->
        exists closing replies,
          yields_of (trace w')
          = yields_of (trace w) ++ List.map (fun c => (c, None)) fragments ++ closing
          /\ chat_messages (db w')
             = chat_messages (db w) ++ user_message :: replies
          /\ Forall (fun m => ChatMessage.role m = ASSISTANT
                              /\ ChatMessage.content m = PyStr.join "" fragments)
               replies
          /\ match fragments with
             | [] => replies = [] /\ closing = []
             | _ :: _ => exists m, replies = [m]
                                   /\ closing = [("", Some (ChatMessage.id m))]
             end).
Proof.
  intros Hown w'. subst w'.
  rewrite (chat_stream_run rt llm _ _ _ _ _ _ Hown). cbn [snd].
  set (um := saved_message rt message USER session_id document_id user_id w).
  set (request := turn_request rt (db (after_save um w)) message session_id document_id user_id).
  set (s := chat_astream llm request).
  exists request, um. cbn zeta. fold s. fold (forwarded (chunks s)).
  set (frags := List.map fragment_event (forwarded (chunks s))).
  assert (provider_requests frags = []) as Hfr by apply provider_requests_fragments.
  assert (yields_of frags = List.map (fun c => (c, None)) (forwarded (chunks s))) as Hy
    by apply yields_of_fragments.
  split.
  - destruct (turn_reply s); cbn [trace db with_events after_save];
      unfold provider_requests in *; rewrite !List.filter_app;
      cbn [List.filter is_provider_request]; rewrite Hfr;
      cbn [app]; now rewrite ?app_nil_r.
  - intros Hok. unfold turn_reply, closing_chunk. rewrite Hok.
    rewrite truthy_join_forwarded.
    destruct (forwarded (chunks s)) as [|x xs] eqn:Efw.
    + exists [], []. cbn [trace db with_events after_save chat_messages with_message].
      rewrite !yields_of_app. cbn [yields_of]. rewrite Hy. cbn [app].
      repeat split; auto. now rewrite app_nil_r.
    + set (w2 := with_events (EvChatStream request :: frags) (after_save um w)).
      set (am := saved_message rt (PyStr.join "" (x :: xs)) ASSISTANT
                   session_id document_id user_id w2).
      exists [("", Some (ChatMessage.id am))], [am].
      cbn [trace db with_events after_save chat_messages with_message].
      subst w2. cbn [trace db with_events after_save chat_messages with_message].
      rewrite !yields_of_app. cbn [yields_of]. rewrite Hy. cbn [app].
      repeat split.
      * now rewrite <- !app_assoc.
      * now rewrite <- app_assoc.
      * repeat constructor.
      * exists am. split; reflexivity.
Qed.

Lemma chat_stream_forwarding_witness :
  exists message_id,
    yields_of
      (trace (snd (chat_stream sample_rt sample_llm "Is it risky?" "s1" 1%N 7%N
                     sample_world)))
    = [("The lease ", None); ("renews.", None); ("", Some message_id)].
Proof.
  destruct (chat_stream_forwarding sample_rt sample_llm "Is it risky?" "s1" 1%N 7%N
              sample_world sample_document eq_refl)
    as (request & um & _ & H).
  destruct (H eq_refl) as (closing & replies & Hy & _ & _ & m & _ & ->).
  exists (ChatMessage.id m). exact Hy.
Defined.


(** ** The history of a session *)

Lemma insert_by_createdAt_perm m rows :
  Permutation (insert_by_createdAt m rows) (m :: rows).
Proof.
  induction rows as [|x rest IH]; cbn; [reflexivity|].
  destruct (Z.leb _ _); [reflexivity|].
  rewrite IH. apply perm_swap.
Qed.

Lemma order_by_createdAt_perm rows : Permutation (order_by_createdAt rows) rows.
Proof.
  induction rows as [|m rest IH]; cbn; [reflexivity|].
  rewrite insert_by_createdAt_perm. now constructor.
Qed.

Lemma insert_by_createdAt_hd m rows x :
  by_createdAt x m -> HdRel by_createdAt x rows ->
  HdRel by_createdAt x (insert_by_createdAt m rows).
Proof.
  intros Hxm Hhd. destruct rows as [|y rest]; cbn; [now constructor|].
  destruct (Z.leb _ _); constructor; [assumption|].
  now inversion Hhd.
Qed.

Lemma insert_by_createdAt_sorted m rows :
  Sorted by_createdAt rows -> Sorted by_createdAt (insert_by_createdAt m rows).
Proof.
  induction 1 as [|x rest Hs IH Hhd]; cbn; [repeat constructor|].
  destruct (Z.leb (ChatMessage.createdAt m) (ChatMessage.createdAt x)) eqn:E.
  - constructor; [now constructor|]. constructor. unfold by_createdAt. lia.
  - constructor; [exact IH|].
    apply insert_by_createdAt_hd; [|exact Hhd]. unfold by_createdAt. lia.
Qed.

Lemma order_by_createdAt_sorted rows : Sorted by_createdAt (order_by_createdAt rows).
Proof.
  induction rows; cbn; [constructor | now apply insert_by_createdAt_sorted].
Qed.

Lemma Permutation_in_iff {A} (x : A) l l' :
  Permutation l l' -> In x l <-> In x l'.
Proof. intros H. split; apply Permutation_in; [assumption | now symmetry]. Qed.

Lemma in_session_spec sid did uid m :
  in_session sid did uid m = true
  <-> ChatMessage.sessionId m = Some sid
      /\ ChatMessage.documentId m = did /\ ChatMessage.userId m = uid.
Proof.
  unfold in_session. rewrite !andb_true_iff, !N.eqb_eq.
  destruct (ChatMessage.sessionId m) as [s|].
  - rewrite String.eqb_eq. split.
    + intros [[H1 H2] H3]. subst. auto.
    + intros (H1 & H2 & H3). split; [split|]; congruence.
  - split; [intros [[H _] _]; discriminate | intros [H _]; discriminate].
Qed.

(** C6: [_get_conversation_history] and [get_chat_history] return, without
    failing and without touching the world, one entry per persisted message
    of the (session, document, user) tuple and no other, in ascending order
    of [createdAt]; the length of the output is the number of those
    messages. *)
Theorem history_sorted_complete (session_id : string) (document_id user_id : UUID)
  (w : World) :
  exists rows,
    _get_conversation_history session_id document_id user_id w
    = (Return (List.map history_entry rows), w)
    /\ get_chat_history session_id document_id user_id w
       = (Return (List.map response_of_message rows), w)
    /\ Permutation rows (session_rows (db w) session_id document_id user_id)
    /\ (forall m, In m rows <->
          In m (chat_messages (db w))
          /\ ChatMessage.sessionId m = Some session_id
          /\ ChatMessage.documentId m = document_id
          /\ ChatMessage.userId m = user_id)
    /\ Sorted by_createdAt rows
    /\ List.length (List.map history_entry rows)
       = session_count (db w) session_id document_id user_id
    /\ List.length (List.map response_of_message rows)
       = session_count (db w) session_id document_id user_id.
Proof.
  exists (select_messages (db w) session_id document_id user_id).
  assert (Permutation (select_messages (db w) session_id document_id user_id)
            (session_rows (db w) session_id document_id user_id)) as Hperm
    by apply order_by_createdAt_perm.
  split; [reflexivity|]. split; [reflexivity|]. split; [exact Hperm|].
  split; [|split; [apply order_by_createdAt_sorted|]].
  - intros m. rewrite (Permutation_in_iff m _ _ Hperm).
    unfold session_rows. rewrite filter_In, in_session_spec. tauto.
  - rewrite !List.length_map. split; now apply Permutation_length.
Qed.

(** ** The document context *)

(** C5, as worded, at two owned documents without analysis: the string
    returned names the document, so it is not the same for both. *)
Lemma document_context_claim_fails :
  owned_document (db sample_world) 1%N 7%N = Some sample_document
  /\ Document.analysis sample_document = None
  /\ owned_document (db sample_world) 2%N 7%N = Some other_document
  /\ Document.analysis other_document = None
  /\ _get_document_context sample_rt 1%N 7%N sample_world
     = (Return "Document 'Lease' has not been analyzed yet. Please analyze the document first to get detailed insights.",
        sample_world)
  /\ _get_document_context sample_rt 2%N 7%N sample_world
     = (Return "Document 'NDA' has not been analyzed yet. Please analyze the document first to get detailed insights.",
        sample_world)
  /\ fst (_get_document_context sample_rt 1%N 7%N sample_world)
     <> fst (_get_document_context sample_rt 2%N 7%N sample_world).
Proof. repeat split; try reflexivity. vm_compute. discriminate. Qed.

(** C5, amended: [_get_document_context] never raises; when no document with
    the given id is owned by the caller it returns the fixed string
    "No document found or access denied."; when the owned document has no
    analysis it returns the fixed sentence with the document's title in it,
    the same for all such documents of the same title. *)
Theorem document_context_fails_closed rt document_id user_id w :
  match owned_document (db w) document_id user_id with
  | None =>
      _get_document_context rt document_id user_id w
      = (Return "No document found or access denied.", w)
  | Some d =>
      Document.analysis d = None ->
      _get_document_context rt document_id user_id w
      = (Return ("Document '" +:+ Document.title d
                 +:+ "' has not been analyzed yet. Please analyze the document first to get detailed insights."),
         w)
  end.
Proof.
  unfold _get_document_context, document_context. run_prims.
  destruct (owned_document (db w) document_id user_id) as [d|]; [|reflexivity].
  now intros ->.
Qed.

Lemma document_context_fails_closed_witness :
  _get_document_context sample_rt 9%N 7%N sample_world
  = (Return "No document found or access denied.", sample_world)
  /\ _get_document_context sample_rt 1%N 7%N sample_world
     = (Return "Document 'Lease' has not been analyzed yet. Please analyze the document first to get detailed insights.",
        sample_world).
Proof.
  split.
  - exact (document_context_fails_closed sample_rt 9%N 7%N sample_world).
  - exact (document_context_fails_closed sample_rt 1%N 7%N sample_world eq_refl).
Defined.


(** ** Masking a document *)

Section Masking.
Variable rt : Runtime.
Variable st : Settings.
Variable llm : Providers.

Lemma mask_pii_run text w :
  mask_pii llm text w
  = (match ollama_post llm (masking_prompt text) with
     | Fails e => Raise e
     | Completes raw_response => Return (MaskClean.clean_response raw_response)
     end,
     with_events [EvOllamaPost (masking_prompt text)] w).
Proof.
  unfold mask_pii. erewrite bind_Return by reflexivity.
  now destruct (ollama_post llm (masking_prompt text)).
Qed.

Lemma mask_document_content_run did uid d b c u t :
  owned_document b did uid = Some d ->
  let prompt := masking_prompt (Document.content d) in
  mask_document_content rt st llm did uid (mkWorld b c u t)
  = match ollama_post llm prompt with
    | Fails e =>
        (Raise (mkExn OtherException
                  ("Failed to mask document content: " +:+ exn_str e)),
         mkWorld b c u (t ++ [EvOllamaPost prompt]))
    | Completes raw_response =>
        let masked := MaskClean.clean_response raw_response in
        let mc := masked_record rt st d masked c in
        let d' := Document.set_maskedContent (Some mc) d in
        let b' := store_at did d' b in
        (Return (mkMaskingResult did masked (String.length (Document.content d))
                   (String.length masked) (MaskedContent.masked_at mc)),
         mkWorld b' (c + 1)%Z u (t ++ [EvOllamaPost prompt; EvCommit b']))
    end.
Proof.
  intros Hown prompt.
  destruct (owned_document_lookup _ _ _ _ Hown) as (Hl & Hid & _).
  unfold mask_document_content.
  erewrite bind_Return by reflexivity.
  cbn [db]. rewrite Hown, Hid. unfold try_except.
  pose proof (mask_pii_run (Document.content d) (mkWorld b c u t)) as Hrun.
  fold prompt in Hrun.
  destruct (ollama_post llm prompt) as [e|raw].
  - erewrite bind_Raise by exact Hrun. reflexivity.
  - erewrite bind_Return by exact Hrun. unfold with_events.
    cbn [db clock next_uuid trace].
    step_now. step_attr. step_commit. step_row.
    rewrite <- app_assoc. subst. reflexivity.
Qed.

End Masking.

(** ** The status machine *)

Lemma commits_of_app t1 t2 : commits_of (t1 ++ t2) = commits_of t1 ++ commits_of t2.
Proof. induction t1 as [|[] t1 IH]; cbn; congruence. Qed.

Lemma doc_inv_created d : created d -> doc_inv d.
Proof. intros (Hs & Ha & _). unfold doc_inv. rewrite Ha, Hs. discriminate. Qed.

Lemma doc_inv_mark_processing c d :
  Document.analysis d = None -> doc_inv (mark_processing c d).
Proof. intros Ha. unfold doc_inv. cbn. rewrite Ha. discriminate. Qed.

Lemma doc_inv_mark_failed msg c d :
  Document.analysis d = None -> doc_inv (mark_failed msg c d).
Proof. intros Ha. unfold doc_inv. cbn. rewrite Ha. discriminate. Qed.

Lemma doc_inv_mark_completed a c d :
  DocumentAnalysisResult.valid a = true -> doc_inv (mark_completed a c d).
Proof. intros Hv. unfold doc_inv. cbn. auto. Qed.

Lemma doc_inv_set_maskedContent v d :
  doc_inv d -> doc_inv (Document.set_maskedContent v d).
Proof. auto. Qed.

Lemma db_inv_store_at h d b : db_inv b -> doc_inv d -> db_inv (store_at h d b).
Proof. intros Hb Hd. unfold db_inv, store_at. cbn. now apply map_Forall_insert_2. Qed.

Lemma db_inv_with_message m b : db_inv b -> db_inv (with_message m b).
Proof. auto. Qed.

Lemma db_inv_lookup b k d : db_inv b -> documents b !! k = Some d -> doc_inv d.
Proof. intros Hb Hl. exact (Hb k d Hl). Qed.

Lemma world_inv_split w :
  world_inv w <-> db_inv (db w) /\ Forall db_inv (commits_of (trace w)).
Proof.
  unfold world_inv, persisted. split.
  - intros H. inversion H. auto.
  - intros [H1 H2]. now constructor.
Qed.

(** A document that is not short-circuited has no analysis. *)
Lemma attempted_no_analysis d :
  doc_inv d ->
  match DocumentStatus_eqb (Document.status d) COMPLETED, Document.analysis d with
  | true, Some _ => True
  | _, _ => Document.analysis d = None
  end.
Proof.
  unfold doc_inv. destruct (Document.analysis d) as [a|].
  - intros [-> _]. exact I.
  - now destruct (DocumentStatus_eqb _ _).
Qed.

Section Analysis.
Variable rt : Runtime.
Variable llm : Providers.

(** The short circuit: nothing is written, no provider is asked. *)
Lemma analyze_document_completed did uid w d a :
  owned_document (db w) did uid = Some d ->
  Document.status d = COMPLETED ->
  Document.analysis d = Some a ->
  DocumentAnalysisResult.valid a = true ->
  analyze_document rt llm did uid w = (Return (response_of d (Some a) None), w).
Proof.
  intros Hown Hs Ha Hv. unfold analyze_document.
  erewrite bind_Return by reflexivity. rewrite Hown, Hs, Ha. cbn [DocumentStatus_eqb].
  unfold DocumentAnalysisResult_init. rewrite Hv.
  erewrite bind_Return by reflexivity. unfold response_of. now rewrite Hs.
Qed.

(** Otherwise the attempt is made, and its exception is handled. *)
Lemma analyze_document_attempted did uid w d :
  owned_document (db w) did uid = Some d ->
  Document.analysis d = None ->
  analyze_document rt llm did uid w
  = try_except (analysis_attempt rt llm did) (analysis_failed did) w.
Proof.
  intros Hown Ha. destruct (owned_document_lookup _ _ _ _ Hown) as (_ & Hid & _).
  unfold analyze_document.
  erewrite bind_Return by reflexivity. rewrite Hown, Ha, Hid.
  now destruct (DocumentStatus_eqb _ _).
Qed.

Lemma analyze_document_preserves did uid w :
  world_inv w -> world_inv (snd (analyze_document rt llm did uid w)).
Proof.
  intros Hinv. destruct w as [b c u t].
  destruct (owned_document b did uid) as [d|] eqn:Hown.
  2:{ unfold analyze_document. erewrite bind_Return by reflexivity.
      cbn [db]. rewrite Hown. exact Hinv. }
  destruct (owned_document_lookup _ _ _ _ Hown) as (Hl & Hid & _).
  destruct (proj1 (world_inv_split _) Hinv) as [Hb Hpast]. cbn [db trace] in Hb, Hpast.
  pose proof (db_inv_lookup _ _ _ Hb Hl) as Hd.
  unfold doc_inv in Hd.
  destruct (Document.analysis d) as [a|] eqn:Ha.
  - destruct Hd as [Hs Hv].
    erewrite analyze_document_completed; eauto.
  -
    rewrite (analyze_document_attempted did uid (mkWorld b c u t) d Hown Ha).
    unfold try_except.
    destruct (analysis_attempt_cases rt llm did d b c u t Hl) as (prompt & Hcases).
    cbn zeta in Hcases.
    assert (db_inv (store_at did (mark_processing c d) b)) as Hb1
      by (apply db_inv_store_at; [assumption | now apply doc_inv_mark_processing]).
    destruct Hcases as [[e He] | (a & Hv & Hok)].
    + rewrite He. erewrite analysis_failed_run by apply store_at_lookup.
      cbn [snd]. rewrite store_at_twice.
      assert (db_inv (store_at did
                (mark_failed (exn_str e) (c + 1)%Z (mark_processing c d)) b)) as Hb2
        by (apply db_inv_store_at; [assumption | now apply doc_inv_mark_failed]).
      unfold world_inv, persisted. cbn [db trace].
      rewrite !commits_of_app. cbn [commits_of].
      constructor; [assumption|].
      rewrite !Forall_app. repeat split; auto.
    + rewrite Hok. cbn [snd].
      assert (db_inv (store_at did
                (mark_completed a (c + 1 + 1)%Z (mark_processing c d)) b)) as Hb2
        by (apply db_inv_store_at; [assumption | now apply doc_inv_mark_completed]).
      unfold world_inv, persisted. cbn [db trace].
      rewrite !commits_of_app. cbn [commits_of].
      constructor; [assumption|].
      rewrite !Forall_app. repeat split; auto.
Qed.

End Analysis.

Lemma mask_document_content_preserves rt st llm did uid w :
  world_inv w -> world_inv (snd (mask_document_content rt st llm did uid w)).
Proof.
  intros Hinv. destruct w as [b c u t].
  destruct (owned_document b did uid) as [d|] eqn:Hown.
  2:{ unfold mask_document_content. erewrite bind_Return by reflexivity.
      cbn [db]. rewrite Hown. exact Hinv. }
  destruct (owned_document_lookup _ _ _ _ Hown) as (Hl & Hid & _).
  destruct (proj1 (world_inv_split _) Hinv) as [Hb Hpast]. cbn [db trace] in Hb, Hpast.
  pose proof (db_inv_lookup _ _ _ Hb Hl) as Hd.
  rewrite (mask_document_content_run rt st llm _ _ _ _ _ _ _ Hown).
  destruct (ollama_post llm _) as [e|raw]; cbn [snd].
  - unfold world_inv, persisted in *. cbn [db trace] in *.
    rewrite commits_of_app. cbn. now rewrite app_nil_r.
  - cbn zeta.
    match goal with |- world_inv (mkWorld ?b' _ _ _) => assert (db_inv b') as Hb' end.
    { apply db_inv_store_at; [assumption|]. now apply doc_inv_set_maskedContent. }
    unfold world_inv, persisted in *. cbn [db trace] in *.
    rewrite commits_of_app. cbn [commits_of].
    constructor; [assumption|]. rewrite Forall_app. split; auto.
Qed.

Lemma chat_stream_preserves rt llm message sid did uid w :
  world_inv w -> world_inv (snd (chat_stream rt llm message sid did uid w)).
Proof.
  intros Hinv.
  destruct (owned_document (db w) did uid) as [d|] eqn:Hown.
  2:{ rewrite chat_stream_unowned by assumption. cbn [snd].
      unfold world_inv, persisted in *. cbn [db trace with_events].
      rewrite commits_of_app. cbn. now rewrite app_nil_r. }
  rewrite (chat_stream_run rt llm _ _ _ _ _ _ Hown). cbn [snd].
  destruct (proj1 (world_inv_split _) Hinv) as [Hb Hpast]. cbn [db trace] in Hb, Hpast.
  set (um := saved_message rt message USER sid did uid w).
  set (request := turn_request _ _ _ _ _ _).
  set (s := chat_astream llm request).
  assert (commits_of (List.map fragment_event (forwarded (chunks s))) = []) as Hfr
    by (induction (forwarded (chunks s)); cbn; auto).
  destruct (turn_reply s) as [reply|];
    unfold world_inv, persisted; cbn [db trace with_events after_save];
    rewrite ?commits_of_app; cbn [commits_of]; rewrite ?commits_of_app, Hfr;
    cbn [commits_of app]; rewrite ?app_nil_r;
    constructor; auto;
    rewrite ?Forall_app; repeat split; auto; repeat constructor; auto.
Qed.

Lemma create_document_preserves title content type user_id w :
  world_inv w -> world_inv (snd (create_document title content type user_id w)).
Proof.
  intros Hinv. destruct (proj1 (world_inv_split _) Hinv) as [Hb Hpast].
  unfold create_document.
  erewrite bind_Return by reflexivity. erewrite bind_Return by reflexivity.
  cbn [db]. destruct (documents (db w) !! next_uuid w) as [existing|].
  - cbn. now apply world_inv_split.
  - erewrite bind_Return by reflexivity. erewrite bind_Return by reflexivity.
    cbn [snd mret M_ret].
    apply world_inv_split. cbn [db trace].
    assert (db_inv (store_at (next_uuid w)
              (Document.mk (next_uuid w) title content type PENDING
                 None None None None None user_id) (db w))) as Hnew.
    { apply db_inv_store_at; [assumption|]. apply doc_inv_created. repeat split. }
    split; [exact Hnew|].
    rewrite commits_of_app, Forall_app. split; [assumption|].
    cbn. constructor; [exact Hnew | constructor].
Qed.

Lemma delete_document_preserves document_id user_id w :
  world_inv w -> world_inv (snd (delete_document document_id user_id w)).
Proof.
  intros Hinv. destruct (proj1 (world_inv_split _) Hinv) as [Hb Hpast].
  unfold delete_document.
  erewrite bind_Return by reflexivity.
  destruct (owned_document (db w) document_id user_id) as [d|].
  - erewrite bind_Return by reflexivity. erewrite bind_Return by reflexivity.
    unfold db_commit. erewrite bind_Return by reflexivity.
    unfold emit. cbn [snd].
    apply world_inv_split. cbn [db trace].
    assert (db_inv (mkDatabase (delete (Document.id d) (documents (db w)))
              (List.filter
                 (fun m => negb (N.eqb (ChatMessage.documentId m) (Document.id d)))
                 (chat_messages (db w))))) as Hnew
      by (unfold db_inv; cbn; now apply map_Forall_delete).
    split; [exact Hnew|].
    rewrite commits_of_app, Forall_app. split; [assumption|].
    cbn. constructor; [exact Hnew | constructor].
  - cbn. now apply world_inv_split.
Qed.

Lemma reachable_inv rt st w : reachable rt st w -> world_inv w.
Proof.
  induction 1 as [w (Hc & Ht) | w w' _ IH Hreq].
  - unfold world_inv, persisted. rewrite Ht. cbn. constructor; [|constructor].
    intros k d Hl. apply doc_inv_created. exact (Hc k d Hl).
  - destruct Hreq.
    + now apply create_document_preserves.
    + now apply delete_document_preserves.
    + now apply analyze_document_preserves.
    + now apply mask_document_content_preserves.
    + now apply chat_stream_preserves.
Qed.

Lemma sample_world_initial : initial sample_world.
Proof.
  split; [|reflexivity]. cbn.
  apply map_Forall_insert_2; [repeat split|].
  apply map_Forall_singleton. repeat split.
Qed.

Lemma analysed_world_reachable st : reachable sample_rt st analysed_world.
Proof.
  eapply reach_request; [apply reach_initial, sample_world_initial|].
  apply req_analyze.
Qed.

Lemma completed_facts rt st w d k :
  reachable rt st w ->
  documents (db w) !! k = Some d ->
  (Document.status d = COMPLETED -> exists a, Document.analysis d = Some a)
  /\ (forall a, Document.analysis d = Some a ->
        Document.status d = COMPLETED /\ DocumentAnalysisResult.valid a = true).
Proof.
  intros Hreach Hl.
  pose proof (reachable_inv _ _ _ Hreach) as Hinv.
  apply world_inv_split in Hinv as [Hb _].
  pose proof (db_inv_lookup _ _ _ Hb Hl) as Hd. unfold doc_inv in Hd.
  destruct (Document.analysis d) as [a|].
  - destruct Hd. split; [eauto|]. now intros a' [= <-].
  - split; [intros; contradiction | discriminate].
Qed.

(** C2: in every database state that a reachable world ever made durable,
    a document is COMPLETED if and only if its analysis is stored and within
    the ranges of the Analysis record; an analysis is stored on no other
    document, so none is stored on a FAILED one. *)
Theorem completed_iff_valid_analysis rt st w b k d :
  reachable rt st w ->
  In b (persisted w) ->
  documents b !! k = Some d ->
  analysis_ok d
  /\ (forall a, Document.analysis d = Some a ->
        Document.status d = COMPLETED /\ DocumentAnalysisResult.valid a = true)
  /\ (Document.status d = FAILED -> Document.analysis d = None).
Proof.
  intros Hreach Hin Hl.
  pose proof (reachable_inv _ _ _ Hreach) as Hinv.
  unfold world_inv in Hinv. rewrite List.Forall_forall in Hinv.
  pose proof (db_inv_lookup _ _ _ (Hinv b Hin) Hl) as Hd.
  unfold doc_inv in Hd. unfold analysis_ok.
  destruct (Document.analysis d) as [a|].
  - destruct Hd as [Hs Hv]. split; [|split].
    + split; eauto.
    + intros a' [= <-]. auto.
    + congruence.
  - split; [|split].
    + split; [intros Hs; contradiction | intros (a & Ha & _); discriminate].
    + discriminate.
    + reflexivity.
Qed.

Lemma completed_iff_valid_analysis_witness :
  analysis_ok analysed_document
  /\ Document.status analysed_document = COMPLETED.
Proof.
  split; [|reflexivity].
  apply (completed_iff_valid_analysis sample_rt default_settings analysed_world
           (db analysed_world) 1%N analysed_document).
  - apply analysed_world_reachable.
  - left. reflexivity.
  - reflexivity.
Defined.

(** C3: on a reachable world, [analyze_document] on a COMPLETED document
    with a stored analysis returns that analysis and leaves the world as it
    was: a second call, whatever the provider, returns the same response, and
    no request to a provider is added to the trace. *)
Theorem analyze_document_idempotent rt st llm llm' document_id user_id w d a :
  reachable rt st w ->
  owned_document (db w) document_id user_id = Some d ->
  Document.status d = COMPLETED ->
  Document.analysis d = Some a ->
  let first := analyze_document rt llm document_id user_id w in
  let second := analyze_document rt llm' document_id user_id (snd first) in
  first = (Return (response_of d (Some a) None), w)
  /\ AnalyzeDocumentResponse.analysis (response_of d (Some a) None)
     = Document.analysis d
  /\ second = first
  /\ db (snd second) = db w
  /\ provider_requests (trace (snd second)) = provider_requests (trace w).
Proof.
  intros Hreach Hown Hs Ha first second.
  destruct (owned_document_lookup _ _ _ _ Hown) as (Hl & _ & _).
  destruct (completed_facts rt st w d document_id Hreach Hl) as [_ Hvalid].
  destruct (Hvalid a Ha) as [_ Hv].
  assert (first = (Return (response_of d (Some a) None), w)) as E1
    by now apply analyze_document_completed.
  assert (second = first) as E2.
  { subst second. rewrite E1. cbn [snd]. now apply analyze_document_completed. }
  rewrite E2, E1. cbn [snd]. auto.
Qed.

Lemma analyze_document_idempotent_witness :
  analyze_document sample_rt failing_llm 1%N 7%N analysed_world
  = (Return (response_of analysed_document (Some analysed_result) None),
     analysed_world).
Proof.
  destruct (analyze_document_idempotent sample_rt default_settings
              failing_llm failing_llm 1%N 7%N analysed_world
              analysed_document analysed_result) as [H _].
  - apply analysed_world_reachable.
  - vm_compute. reflexivity.
  - vm_compute. reflexivity.
  - vm_compute. reflexivity.
  - exact H.
Defined.

(** C4, as worded, at a provider whose exception carries no message: the
    attempt raises, the document is FAILED, and the [errorMessage] persisted
    is the empty string. *)
Lemma analysis_failure_claim_fails :
  let outcome := analyze_document sample_rt failing_llm 1%N 7%N sample_world in
  owned_document (db sample_world) 1%N 7%N = Some sample_document
  /\ fst (analysis_attempt sample_rt failing_llm 1%N sample_world)
     = Raise (mkExn ProviderError "")
  /\ Document.status <$> documents (db (snd outcome)) !! 1%N = Some FAILED
  /\ Document.errorMessage <$> documents (db (snd outcome)) !! 1%N = Some (Some "").
Proof. vm_compute. repeat split. Qed.

(** C4, amended: when the attempt on a reachable, owned, not yet completed
    document raises [e], [analyze_document] returns a response instead of
    raising; the document is committed with status FAILED, with
    [errorMessage] equal to [str(e)] (which is empty when [e] carries no
    message), with [processingCompletedAt] stamped and with no analysis; the
    response carries the same status and message and no analysis. *)
Theorem analysis_failure_recorded rt st llm document_id user_id w d e w1 :
  reachable rt st w ->
  owned_document (db w) document_id user_id = Some d ->
  Document.status d <> COMPLETED ->
  analysis_attempt rt llm document_id w = (Raise e, w1) ->
  exists response w' d',
    analyze_document rt llm document_id user_id w = (Return response, w')
    /\ trace w' = trace w1 ++ [EvCommit (db w')]
    /\ documents (db w') !! document_id = Some d'
    /\ Document.status d' = FAILED
    /\ Document.errorMessage d' = Some (exn_str e)
    /\ Document.processingCompletedAt d' = Some (clock w1)
    /\ Document.analysis d' = None
    /\ AnalyzeDocumentResponse.status response = FAILED
    /\ AnalyzeDocumentResponse.error_message response = Some (exn_str e)
    /\ AnalyzeDocumentResponse.analysis response = None.
Proof.
  intros Hreach Hown Hs Hraise.
  destruct (owned_document_lookup _ _ _ _ Hown) as (Hl & _ & _).
  destruct (completed_facts rt st w d document_id Hreach Hl) as [Hok _].
  assert (Document.analysis d = None) as Ha.
  { destruct (Document.analysis d) as [a|] eqn:Ha; [|reflexivity].
    pose proof (reachable_inv _ _ _ Hreach) as Hinv.
    apply world_inv_split in Hinv as [Hb _].
    pose proof (db_inv_lookup _ _ _ Hb Hl) as Hd. unfold doc_inv in Hd.
    rewrite Ha in Hd. now destruct Hd. }
  rewrite (analyze_document_attempted rt llm _ _ _ _ Hown Ha).
  unfold try_except. rewrite Hraise.
  destruct w as [b c u t]. cbn [db] in *.
  destruct (analysis_attempt_cases rt llm document_id d b c u t Hl) as (prompt & Hcases).
  cbn zeta in Hcases.
  destruct Hcases as [[e' He] | (a & _ & Hok')]; [|congruence].
  rewrite Hraise in He. injection He as -> ->.
  erewrite analysis_failed_run by apply store_at_lookup.
  rewrite store_at_twice.
  do 3 eexists. split; [reflexivity|].
  cbn [db trace clock]. rewrite store_at_lookup.
  repeat split; try reflexivity.
  cbn. exact Ha.
Qed.

Lemma analysis_failure_recorded_witness :
  exists response w',
    analyze_document sample_rt failing_llm 1%N 7%N sample_world = (Return response, w')
    /\ AnalyzeDocumentResponse.status response = FAILED.
Proof.
  destruct (analysis_failure_recorded sample_rt default_settings failing_llm 1%N 7%N
              sample_world sample_document (mkExn ProviderError "")
              (snd (analysis_attempt sample_rt failing_llm 1%N sample_world)))
    as (response & w' & d' & H & _ & _ & _ & _ & _ & _ & Hs & _).
  - apply reach_initial, sample_world_initial.
  - reflexivity.
  - discriminate.
  - reflexivity.
  - exists response, w'. split; assumption.
Defined.

(** C8: when the masking step on the content of an owned document returns a
    text, the record committed in [maskedContent] holds that text with
    [masked_length] its length, and the document's content with
    [original_length] its length; the returned lengths are the same. *)
Theorem masked_lengths rt st llm document_id user_id w d masked w1 :
  owned_document (db w) document_id user_id = Some d ->
  mask_pii llm (Document.content d) w = (Return masked, w1) ->
  exists result w' d' mc,
    mask_document_content rt st llm document_id user_id w = (Return result, w')
    /\ trace w' = trace w1 ++ [EvCommit (db w')]
    /\ documents (db w') !! document_id = Some d'
    /\ Document.content d' = Document.content d
    /\ Document.maskedContent d' = Some mc
    /\ MaskedContent.masked_content mc = masked
    /\ MaskedContent.masked_length mc = String.length masked
    /\ MaskedContent.original_content mc = Document.content d
    /\ MaskedContent.original_length mc = String.length (Document.content d)
    /\ mr_masked_length result = String.length masked
    /\ mr_original_length result = String.length (Document.content d).
Proof.
  intros Hown Hmask. destruct w as [b c u t]. cbn [db] in Hown.
  rewrite mask_pii_run in Hmask.
  rewrite (mask_document_content_run rt st llm _ _ _ _ _ _ _ Hown).
  destruct (ollama_post llm _) as [e|raw]; [discriminate|].
  injection Hmask as <- <-. cbn zeta.
  do 4 eexists. split; [reflexivity|].
  cbn [db trace with_events]. rewrite store_at_lookup.
  repeat split; try reflexivity.
  now rewrite <- app_assoc.
Qed.

Lemma masked_lengths_witness :
  exists result w',
    mask_document_content sample_rt default_settings sample_llm 1%N 7%N sample_world
    = (Return result, w')
    /\ mr_masked_length result = 14
    /\ mr_original_length result = 17.
Proof.
  destruct (masked_lengths sample_rt default_settings sample_llm 1%N 7%N sample_world
              sample_document "Tenant: [NAME]"
              (snd (mask_pii sample_llm (Document.content sample_document) sample_world)))
    as (result & w' & d' & mc & H & _ & _ & _ & _ & _ & _ & _ & _ & Hm & Ho).
  - reflexivity.
  - reflexivity.
  - exists result, w'. repeat split; assumption.
Defined.

(** * Further properties of the code *)

(** * Further properties *)

(** ** What an analysis request does *)

Lemma bind_Return_or_Raise {A B} (m : M A) (k : A -> M B) w o w1 :
  m w = (o, w1) ->
  (m ≫= k) w = match o with Return a => k a w1 | Raise e => (Raise e, w1) end.
Proof. intros H. unfold mbind, M_bind. rewrite H. now destruct o. Qed.

Section AnalysisEffect.
Variable rt : Runtime.
Variable llm : Providers.

Lemma chain_ainvoke_run title doc_type content source description note b c u t :
  let prompt := analysis_prompt rt title doc_type content source description note in
  chain_ainvoke rt llm title doc_type content source description note (mkWorld b c u t)
  = (match chain_result rt llm prompt with
     | inl e => Raise e
     | inr result => Return result
     end,
     mkWorld b c u (t ++ [EvChainInvoke prompt])).
Proof.
  intros prompt. unfold chain_ainvoke, chain_result. fold prompt.
  erewrite bind_Return by apply emit_run.
  destruct (chain_llm llm prompt) as [e|text]; [reflexivity|].
  unfold output_parser. destruct (parse_json rt text) as [r|]; [|reflexivity].
  now destruct (AnalysisResult.valid r).
Qed.

Lemma chain_result_valid prompt result :
  chain_result rt llm prompt = inr result -> AnalysisResult.valid result = true.
Proof.
  unfold chain_result. destruct (chain_llm llm prompt) as [e|text]; [discriminate|].
  destruct (parse_json rt text) as [r|]; [|discriminate].
  destruct (AnalysisResult.valid r) eqn:Hv; [|discriminate].
  now intros [= <-].
Qed.

Lemma analysis_attempt_run h d b c u t :
  documents b !! h = Some d ->
  let d1 := mark_processing c d in
  let t1 := t ++ [EvCommit (store_at h d1 b); EvChainInvoke (prompt_for rt d)] in
  analysis_attempt rt llm h (mkWorld b c u t)
  = match chain_result rt llm (prompt_for rt d) with
    | inl e => (Raise e, mkWorld (store_at h d1 b) (c + 1)%Z u t1)
    | inr result =>
        let b2 := store_at h (attempted_row rt llm c d) b in
        (Return (attempted_response rt llm c d),
         mkWorld b2 (c + 1 + 1 + 1)%Z u (t1 ++ [EvCommit b2]))
    end.
Proof.
  intros Hl d1 t1. unfold analysis_attempt.
  step_attr. step_now. step_attr. step_attr. step_commit. step_row.
  change (Document.set_errorMessage None
            (Document.set_processingStartedAt (Some c)
               (Document.set_status PROCESSING d))) with d1.
  unfold attempted_response, attempted_row. fold d1.
  assert (prompt_for rt d1 = prompt_for rt d) as Ep by reflexivity.
  subst t1. rewrite <- Ep. unfold prompt_for.
  destruct (usable_masked_content d1) as [masked|]; cbv beta iota.
  - erewrite (bind_Return_or_Raise _ _ _ _ _ (chain_ainvoke_run _ _ _ _ _ _ _ _ _ _)).
    cbn zeta.
    destruct (chain_result rt llm _) as [e|r] eqn:Hres.
    + rewrite <- app_assoc. reflexivity.
    + pose proof (chain_result_valid _ _ Hres) as Hv.
      step_now. unfold DocumentAnalysisResult_init.
      change (DocumentAnalysisResult.valid _) with (AnalysisResult.valid r).
      rewrite Hv. erewrite bind_Return by reflexivity.
      step_attr. step_attr. step_now. step_attr. step_commit. step_row.
      rewrite <- !app_assoc. reflexivity.
  - erewrite (bind_Return_or_Raise _ _ _ _ _ (chain_ainvoke_run _ _ _ _ _ _ _ _ _ _)).
    cbn zeta.
    destruct (chain_result rt llm _) as [e|r] eqn:Hres.
    + rewrite <- app_assoc. reflexivity.
    + pose proof (chain_result_valid _ _ Hres) as Hv.
      step_now. unfold DocumentAnalysisResult_init.
      change (DocumentAnalysisResult.valid _) with (AnalysisResult.valid r).
      rewrite Hv. erewrite bind_Return by reflexivity.
      step_attr. step_attr. step_now. step_attr. step_commit. step_row.
      rewrite <- !app_assoc. reflexivity.
Qed.

End AnalysisEffect.

Section AnalysisRequest.
Variable rt : Runtime.
Variable llm : Providers.

Lemma owned_document_store_at did uid d d' b :
  owned_document b did uid = Some d ->
  Document.id d' = Document.id d ->
  Document.userId d' = Document.userId d ->
  owned_document (store_at did d' b) did uid = Some d'.
Proof.
  intros Hown Hid Hu.
  destruct (owned_document_lookup _ _ _ _ Hown) as (_ & Hid0 & Hu0).
  unfold owned_document. rewrite store_at_lookup.
  rewrite Hid, Hu, Hid0, Hu0, !N.eqb_refl. reflexivity.
Qed.

Lemma attempted_row_identity c d :
  same_identity d (attempted_row rt llm c d)
  /\ Document.maskedContent (attempted_row rt llm c d) = Document.maskedContent d.
Proof.
  unfold attempted_row, same_identity.
  destruct (chain_result rt llm (prompt_for rt d)); cbn; auto 10.
Qed.

(** The attempt of [analyze_document] and its handler, in one step. *)
Lemma analyze_document_run did uid d b c u t :
  owned_document b did uid = Some d ->
  Document.status d <> COMPLETED \/ Document.analysis d = None ->
  let d1 := mark_processing c d in
  let b2 := store_at did (attempted_row rt llm c d) b in
  analyze_document rt llm did uid (mkWorld b c u t)
  = (Return (attempted_response rt llm c d),
     mkWorld b2
       (match chain_result rt llm (prompt_for rt d) with
        | inl _ => c + 1 + 1
        | inr _ => c + 1 + 1 + 1
        end)%Z
       u
       (t ++ [EvCommit (store_at did d1 b); EvChainInvoke (prompt_for rt d);
              EvCommit b2])).
Proof.
  intros Hown Hopen d1 b2.
  destruct (owned_document_lookup _ _ _ _ Hown) as (Hl & Hid & _).
  unfold analyze_document. erewrite bind_Return by reflexivity.
  cbn [db]. rewrite Hown, Hid.
  assert (match DocumentStatus_eqb (Document.status d) COMPLETED,
                Document.analysis d return Prop with
          | true, Some _ => False
          | _, _ => True
          end) as Hsc.
  { destruct Hopen as [Hs | ->].
    - destruct (Document.status d); try exact I; congruence.
    - now destruct (DocumentStatus_eqb _ _). }
  assert (try_except (analysis_attempt rt llm did) (analysis_failed did)
            (mkWorld b c u t)
          = (Return (attempted_response rt llm c d),
             mkWorld b2
               (match chain_result rt llm (prompt_for rt d) with
                | inl _ => c + 1 + 1
                | inr _ => c + 1 + 1 + 1
                end)%Z
               u
               (t ++ [EvCommit (store_at did d1 b); EvChainInvoke (prompt_for rt d);
                      EvCommit b2]))) as Htry.
  { unfold try_except. rewrite (analysis_attempt_run rt llm did d b c u t Hl).
    subst b2. unfold attempted_response, attempted_row. fold d1.
    destruct (chain_result rt llm (prompt_for rt d)) as [e|r].
    - erewrite analysis_failed_run by apply store_at_lookup.
      rewrite store_at_twice, <- app_assoc. reflexivity.
    - cbn zeta. rewrite <- app_assoc. reflexivity. }
  destruct (DocumentStatus_eqb (Document.status d) COMPLETED);
    destruct (Document.analysis d); try contradiction; exact Htry.
Qed.

(** Every call of [analyze_document] either leaves the world as it was or
    is an attempt on an owned row. *)
Lemma analyze_document_cases did uid w :
  snd (analyze_document rt llm did uid w) = w
  \/ exists d,
       owned_document (db w) did uid = Some d
       /\ (Document.status d <> COMPLETED \/ Document.analysis d = None)
       /\ db (snd (analyze_document rt llm did uid w))
          = store_at did (attempted_row rt llm (clock w) d) (db w)
       /\ commits_of (trace (snd (analyze_document rt llm did uid w)))
          = commits_of (trace w)
            ++ [store_at did (mark_processing (clock w) d) (db w);
                store_at did (attempted_row rt llm (clock w) d) (db w)].
Proof.
  destruct (owned_document (db w) did uid) as [d|] eqn:Hown.
  2:{ left. unfold analyze_document. erewrite bind_Return by reflexivity.
      now rewrite Hown. }
  destruct (DocumentStatus_eqb (Document.status d) COMPLETED) eqn:Hs;
    [destruct (Document.analysis d) as [a|] eqn:Ha|].
  - left. unfold analyze_document. erewrite bind_Return by reflexivity.
    rewrite Hown, Hs, Ha. unfold DocumentAnalysisResult_init.
    destruct (DocumentAnalysisResult.valid a).
    + erewrite bind_Return by reflexivity. reflexivity.
    + erewrite bind_Raise by reflexivity. reflexivity.
  - right. exists d. destruct w as [b c u t]. cbn [db clock trace] in *.
    rewrite (analyze_document_run did uid d b c u t Hown (or_intror Ha)).
    cbn [snd db trace]. repeat split; auto.
    rewrite commits_of_app. reflexivity.
  - right. exists d. destruct w as [b c u t]. cbn [db clock trace] in *.
    assert (Document.status d <> COMPLETED) as Hne
      by (intros E; rewrite E in Hs; discriminate).
    rewrite (analyze_document_run did uid d b c u t Hown (or_introl Hne)).
    cbn [snd db trace]. repeat split; auto.
    rewrite commits_of_app. reflexivity.
Qed.

End AnalysisRequest.

(** ** Invariants of the documents table *)

Section RowInvariant.
Variable P : Document.t -> Prop.
Hypothesis P_created : forall d, created d -> P d.
Hypothesis P_attempt : forall rt llm c d,
  P d -> Document.status d <> COMPLETED \/ Document.analysis d = None ->
  P (mark_processing c d) /\ P (attempted_row rt llm c d).
Hypothesis P_masked : forall rt st raw c d,
  P d ->
  P (Document.set_maskedContent
       (Some (masked_record rt st d (MaskClean.clean_response raw) c)) d).

Lemma all_rows_ok_split w :
  all_rows_ok P w <-> (rows_ok P) (db w) /\ Forall (rows_ok P) (commits_of (trace w)).
Proof.
  unfold all_rows_ok, persisted. split.
  - intros H. inversion H. auto.
  - intros [H1 H2]. now constructor.
Qed.

Lemma rows_ok_store_at h d b : (rows_ok P) b -> P d -> (rows_ok P) (store_at h d b).
Proof. intros Hb Hd. unfold rows_ok, store_at. cbn. now apply map_Forall_insert_2. Qed.

Lemma request_keeps_rows rt st w w' :
  request rt st w w' -> all_rows_ok P w -> all_rows_ok P w'.
Proof.
  intros Hreq Hinv. destruct (proj1 (all_rows_ok_split _) Hinv) as [Hb Hpast].
  destruct Hreq as [title content type user_id w | document_id user_id w
                   | llm document_id user_id w | llm document_id user_id w
                   | llm message session_id document_id user_id w].
  - unfold create_document.
    erewrite bind_Return by reflexivity. erewrite bind_Return by reflexivity.
    cbn [db]. destruct (documents (db w) !! next_uuid w) as [existing|].
    + cbn. now apply all_rows_ok_split.
    + erewrite bind_Return by reflexivity. erewrite bind_Return by reflexivity.
      cbn [snd mret M_ret]. apply all_rows_ok_split. cbn [db trace].
      assert ((rows_ok P) (store_at (next_uuid w)
                (Document.mk (next_uuid w) title content type PENDING
                   None None None None None user_id) (db w))) as Hnew.
      { apply rows_ok_store_at; [assumption|]. apply P_created. repeat split. }
      split; [exact Hnew|].
      rewrite commits_of_app, Forall_app. split; [assumption|].
      cbn. constructor; [exact Hnew | constructor].
  - unfold delete_document. erewrite bind_Return by reflexivity.
    destruct (owned_document (db w) document_id user_id) as [d|].
    + erewrite bind_Return by reflexivity. erewrite bind_Return by reflexivity.
      unfold db_commit. erewrite bind_Return by reflexivity.
      unfold emit. cbn [snd]. apply all_rows_ok_split. cbn [db trace].
      assert ((rows_ok P) (mkDatabase (delete (Document.id d) (documents (db w)))
                (List.filter
                   (fun m => negb (N.eqb (ChatMessage.documentId m) (Document.id d)))
                   (chat_messages (db w))))) as Hnew
        by (unfold rows_ok; cbn; now apply map_Forall_delete).
      split; [exact Hnew|].
      rewrite commits_of_app, Forall_app. split; [assumption|].
      cbn. constructor; [exact Hnew | constructor].
    + cbn. now apply all_rows_ok_split.
  - destruct (analyze_document_cases rt llm document_id user_id w)
      as [-> | (d & Hown & Hopen & Hdb & Hcommits)]; [assumption|].
    destruct (owned_document_lookup _ _ _ _ Hown) as (Hl & _ & _).
    destruct (P_attempt rt llm (clock w) d (Hb _ _ Hl) Hopen) as [H1 H2].
    apply all_rows_ok_split. rewrite Hdb, Hcommits, Forall_app.
    split; [now apply rows_ok_store_at|]. split; [assumption|].
    repeat constructor; now apply rows_ok_store_at.
  - destruct w as [b c u t]. cbn [db trace] in *.
    destruct (owned_document b document_id user_id) as [d|] eqn:Hown.
    2:{ unfold mask_document_content. erewrite bind_Return by reflexivity.
        cbn [db]. rewrite Hown. exact Hinv. }
    destruct (owned_document_lookup _ _ _ _ Hown) as (Hl & _ & _).
    rewrite (mask_document_content_run rt st llm _ _ _ _ _ _ _ Hown).
    destruct (ollama_post llm _) as [e|raw]; cbn [snd].
    + apply all_rows_ok_split. cbn [db trace].
      rewrite commits_of_app. cbn. now rewrite app_nil_r.
    + cbn zeta. apply all_rows_ok_split. cbn [db trace].
      match goal with |- (rows_ok P) ?b' /\ _ => assert ((rows_ok P) b') as Hb' end.
      { apply rows_ok_store_at; [assumption|]. apply P_masked. exact (Hb _ _ Hl). }
      split; [assumption|].
      rewrite commits_of_app. cbn [commits_of].
      rewrite Forall_app. split; auto.
  - destruct (owned_document (db w) document_id user_id) as [d|] eqn:Hown.
    2:{ rewrite chat_stream_unowned by assumption. cbn [snd].
        apply all_rows_ok_split. cbn [db trace with_events].
        rewrite commits_of_app. cbn. now rewrite app_nil_r. }
    rewrite (chat_stream_run rt llm _ _ _ _ _ _ Hown). cbn [snd].
    set (um := saved_message rt message USER session_id document_id user_id w).
    set (request := turn_request _ _ _ _ _ _).
    set (s := chat_astream llm request).
    assert (commits_of (List.map fragment_event (forwarded (chunks s))) = []) as Hfr
      by (induction (forwarded (chunks s)); cbn; auto).
    destruct (turn_reply s) as [reply|];
      apply all_rows_ok_split; cbn [db trace with_events after_save];
      rewrite ?commits_of_app; cbn [commits_of]; rewrite ?commits_of_app, Hfr;
      cbn [commits_of app]; rewrite ?app_nil_r;
      (split; [exact Hb|]);
      rewrite ?Forall_app; repeat split; auto; repeat constructor; auto.
Qed.

Lemma reachable_rows rt st w : reachable rt st w -> all_rows_ok P w.
Proof.
  induction 1 as [w (Hc & Ht) | w w' _ IH Hreq].
  - unfold all_rows_ok, persisted. rewrite Ht. cbn. constructor; [|constructor].
    intros k d Hl. apply P_created. exact (Hc k d Hl).
  - eapply request_keeps_rows; eassumption.
Qed.

End RowInvariant.

Lemma status_inv_attempted rt llm c d :
  status_inv (mark_processing c d) /\ status_inv (attempted_row rt llm c d).
Proof.
  unfold attempted_row. split; [cbn; auto|].
  destruct (chain_result rt llm (prompt_for rt d)); cbn; repeat split; congruence.
Qed.

Lemma reachable_status_inv rt st w k d :
  reachable rt st w -> documents (db w) !! k = Some d -> status_inv d /\ doc_inv d.
Proof.
  intros Hreach Hl.
  assert (all_rows_ok (fun d => status_inv d /\ doc_inv d) w) as Hall.
  { apply (reachable_rows _) with (rt := rt) (st := st); [| | |assumption].
    - intros d0 Hc. split; [|now apply doc_inv_created].
      destruct Hc as (Hs & _ & _ & H1 & H2 & H3). unfold status_inv. rewrite Hs. auto.
    - intros rt0 llm0 c d0 [_ Hd] Hopen.
      assert (Document.analysis d0 = None) as Ha.
      { destruct Hopen as [Hs|]; [|assumption]. unfold doc_inv in Hd.
        destruct (Document.analysis d0); [|reflexivity]. now destruct Hd. }
      destruct (status_inv_attempted rt0 llm0 c d0) as [H1 H2].
      repeat split; auto using doc_inv_mark_processing.
      unfold attempted_row. destruct (chain_result rt0 llm0 (prompt_for rt0 d0)) eqn:Hres.
      + now apply doc_inv_mark_failed.
      + apply doc_inv_mark_completed.
        change (DocumentAnalysisResult.valid (stored_analysis t (c + 1)%Z))
          with (AnalysisResult.valid t).
        eapply chain_result_valid; eassumption.
    - intros rt0 st0 raw c d0 [H1 H2]. split; [exact H1 | exact H2]. }
  apply all_rows_ok_split in Hall as [Hb _]. exact (Hb k d Hl).
Qed.

(** X1: in every database state that a reachable world holds or ever committed,
    each document's status agrees with its other columns: a PENDING document
    has no processing timestamps and no error message; a PROCESSING one has
    a start timestamp and no error message; a COMPLETED one has both
    timestamps and no error message; a FAILED one has both timestamps and an
    error message. *)
Theorem status_machine_invariant rt st w b k d :
  reachable rt st w ->
  In b (persisted w) ->
  documents b !! k = Some d ->
  match Document.status d with
  | PENDING =>
      Document.processingStartedAt d = None
      /\ Document.processingCompletedAt d = None
      /\ Document.errorMessage d = None
  | PROCESSING =>
      Document.processingStartedAt d <> None /\ Document.errorMessage d = None
  | COMPLETED =>
      Document.processingStartedAt d <> None
      /\ Document.processingCompletedAt d <> None
      /\ Document.errorMessage d = None
  | FAILED =>
      Document.processingStartedAt d <> None
      /\ Document.processingCompletedAt d <> None
      /\ Document.errorMessage d <> None
  end.
Proof.
  intros Hreach Hin Hl.
  assert (all_rows_ok status_inv w) as Hall.
  { apply (reachable_rows _) with (rt := rt) (st := st); [| | |assumption].
    - intros d0 (Hs & _ & _ & H1 & H2 & H3). unfold status_inv. rewrite Hs. auto.
    - intros. apply status_inv_attempted.
    - auto. }
  unfold all_rows_ok in Hall. rewrite List.Forall_forall in Hall.
  exact (Hall b Hin k d Hl).
Qed.

Lemma status_machine_invariant_witness :
  Document.status analysed_document = COMPLETED
  /\ Document.errorMessage analysed_document = None.
Proof.
  assert (Document.status analysed_document = COMPLETED) as Hs
    by (vm_compute; reflexivity).
  assert (documents (db analysed_world) !! 1%N = Some analysed_document) as Hl
    by (vm_compute; reflexivity).
  assert (In (db analysed_world) (persisted analysed_world)) as Hin
    by (left; reflexivity).
  pose proof (status_machine_invariant sample_rt default_settings analysed_world
                (db analysed_world) 1%N analysed_document
                (analysed_world_reachable default_settings) Hin Hl) as H.
  rewrite Hs in H. split; [exact Hs | apply H].
Defined.

(** ** Reading an analysis back *)

(** X2: on a reachable world, whenever [analyze_document] returns a response,
    [get_analysis_by_document_id] called right after it for the same
    document and user returns that same response and changes nothing. *)
Theorem analysis_read_back rt st llm document_id user_id w r w' :
  reachable rt st w ->
  analyze_document rt llm document_id user_id w = (Return r, w') ->
  get_analysis_by_document_id rt document_id user_id w' = (Return r, w').
Proof.
  intros Hreach Hrun.
  destruct (owned_document (db w) document_id user_id) as [d|] eqn:Hown.
  2:{ unfold analyze_document in Hrun. erewrite bind_Return in Hrun by reflexivity.
      rewrite Hown in Hrun. discriminate. }
  destruct (owned_document_lookup _ _ _ _ Hown) as (Hl & Hid & Hu).
  destruct (reachable_status_inv rt st w document_id d Hreach Hl) as [Hst Hd].
  unfold doc_inv in Hd. destruct (Document.analysis d) as [a|] eqn:Ha.
  - destruct Hd as [Hs Hv].
    rewrite (analyze_document_completed rt llm _ _ _ _ _ Hown Hs Ha Hv) in Hrun.
    injection Hrun as <- <-.
    unfold status_inv in Hst. rewrite Hs in Hst. destruct Hst as (_ & _ & He).
    unfold get_analysis_by_document_id. erewrite bind_Return by reflexivity.
    rewrite Hown, Ha. unfold DocumentAnalysisResult_init. rewrite Hv.
    erewrite bind_Return by reflexivity.
    unfold response_of. rewrite He. reflexivity.
  - destruct w as [b c u t]. cbn [db] in *.
    rewrite (analyze_document_run rt llm _ _ _ _ _ _ _ Hown (or_intror Ha)) in Hrun.
    injection Hrun as <- <-.
    destruct (attempted_row_identity rt llm c d) as [(Hid' & _ & _ & _ & Hu') _].
    pose proof (owned_document_store_at document_id user_id d
                  (attempted_row rt llm c d) b Hown Hid' Hu') as Hown'.
    unfold get_analysis_by_document_id. erewrite bind_Return by reflexivity.
    cbn [db]. rewrite Hown'.
    unfold attempted_response, attempted_row in *.
    destruct (chain_result rt llm (prompt_for rt d)) as [e|res] eqn:Hres.
    + cbn [Document.analysis mark_failed mark_processing
           Document.set_processingCompletedAt Document.set_errorMessage
           Document.set_status Document.set_processingStartedAt].
      rewrite Ha. erewrite bind_Return by reflexivity. reflexivity.
    + cbn [Document.analysis mark_completed mark_processing
           Document.set_processingCompletedAt Document.set_errorMessage
           Document.set_status Document.set_processingStartedAt
           Document.set_analysis].
      unfold DocumentAnalysisResult_init.
      change (DocumentAnalysisResult.valid (stored_analysis res (c + 1)%Z))
        with (AnalysisResult.valid res).
      rewrite (chain_result_valid _ _ _ _ Hres).
      erewrite bind_Return by reflexivity.
      reflexivity.
Qed.

Lemma analysis_read_back_witness :
  get_analysis_by_document_id sample_rt 1%N 7%N
    (snd (analyze_document sample_rt failing_llm 1%N 7%N sample_world))
  = analyze_document_outcome_of_failing_llm.
Proof.
  unfold analyze_document_outcome_of_failing_llm.
  apply (analysis_read_back sample_rt default_settings failing_llm 1%N 7%N sample_world).
  - apply reach_initial, sample_world_initial.
  - vm_compute. reflexivity.
Defined.

(** ** The analyze endpoint *)

(** X3: on a reachable world the analyze endpoint answers 404 with the
    not-found message and changes nothing when the caller owns no such
    document; for an owned document it always answers with a body (never an
    HTTP error), which is either COMPLETED with a valid analysis and no error
    message, or FAILED with no analysis and an error message. *)
Theorem analyze_endpoint_outcomes rt st llm document_id user_id w :
  reachable rt st w ->
  match owned_document (db w) document_id user_id with
  | None =>
      DocumentRouter.analyze_document rt llm document_id user_id w
      = (HTTPException 404
           ("Document " +:+ str_uuid rt document_id +:+ " not found or access denied"),
         w)
  | Some d =>
      exists r w',
        DocumentRouter.analyze_document rt llm document_id user_id w = (HTTPOk r, w')
        /\ ((AnalyzeDocumentResponse.status r = COMPLETED
             /\ (exists a, AnalyzeDocumentResponse.analysis r = Some a
                           /\ DocumentAnalysisResult.valid a = true)
             /\ AnalyzeDocumentResponse.error_message r = None)
            \/ (AnalyzeDocumentResponse.status r = FAILED
                /\ AnalyzeDocumentResponse.analysis r = None
                /\ exists message, AnalyzeDocumentResponse.error_message r = Some message))
  end.
Proof.
  intros Hreach. unfold DocumentRouter.analyze_document, serve_or_404.
  destruct (owned_document (db w) document_id user_id) as [d|] eqn:Hown.
  2:{ unfold analyze_document. erewrite bind_Return by reflexivity.
      rewrite Hown. reflexivity. }
  destruct (owned_document_lookup _ _ _ _ Hown) as (Hl & Hid & Hu).
  destruct (reachable_status_inv rt st w document_id d Hreach Hl) as [_ Hd].
  unfold doc_inv in Hd. destruct (Document.analysis d) as [a|] eqn:Ha.
  - destruct Hd as [Hs Hv].
    rewrite (analyze_document_completed rt llm _ _ _ _ _ Hown Hs Ha Hv).
    do 2 eexists. split; [reflexivity|]. left. cbn. eauto.
  - destruct w as [b c u t]. cbn [db] in *.
    rewrite (analyze_document_run rt llm _ _ _ _ _ _ _ Hown (or_intror Ha)).
    do 2 eexists. split; [reflexivity|].
    unfold attempted_response, attempted_row.
    destruct (chain_result rt llm (prompt_for rt d)) as [e|res] eqn:Hres.
    + right. cbn. eauto.
    + left. cbn. repeat split; eauto.
      eexists. split; [reflexivity|].
      change (DocumentAnalysisResult.valid (stored_analysis res (c + 1)%Z))
        with (AnalysisResult.valid res).
      eapply chain_result_valid; eassumption.
Qed.

Lemma analyze_endpoint_outcomes_witness :
  DocumentRouter.analyze_document sample_rt sample_llm 9%N 7%N sample_world
  = (HTTPException 404 "Document <uuid> not found or access denied", sample_world).
Proof.
  exact (analyze_endpoint_outcomes sample_rt default_settings sample_llm 9%N 7%N
           sample_world (reach_initial _ _ _ sample_world_initial)).
Defined.

(** ** What an analysis leaves alone *)

(** X4: [analyze_document] never touches the chat messages or the rows of
    other documents; a row the caller does not own is left as it is; the
    analysed row keeps its id, title, content, type, owner and masked
    content. *)
Theorem analyze_document_isolated rt llm document_id user_id w :
  let w' := snd (analyze_document rt llm document_id user_id w) in
  chat_messages (db w') = chat_messages (db w)
  /\ (forall k, k <> document_id ->
        documents (db w') !! k = documents (db w) !! k)
  /\ (forall d, owned_document (db w) document_id user_id = None ->
        documents (db w) !! document_id = Some d ->
        documents (db w') !! document_id = Some d)
  /\ (forall d, documents (db w) !! document_id = Some d ->
        exists d', documents (db w') !! document_id = Some d'
                   /\ same_identity d d'
                   /\ Document.maskedContent d' = Document.maskedContent d).
Proof.
  intros w'. subst w'.
  destruct (analyze_document_cases rt llm document_id user_id w)
    as [-> | (d & Hown & _ & Hdb & _)].
  - repeat split; auto.
    intros d Hl. exists d. repeat split; auto.
  - destruct (owned_document_lookup _ _ _ _ Hown) as (Hl & _ & _).
    rewrite Hdb. unfold store_at. cbn [documents chat_messages].
    split; [reflexivity|]. split; [|split].
    + intros k Hk. now apply lookup_insert_ne.
    + intros d0 Hnone. congruence.
    + intros d0 Hl0. rewrite Hl in Hl0. injection Hl0 as <-.
      eexists. split; [apply lookup_insert_eq|].
      apply attempted_row_identity.
Qed.

(** ** Completed documents *)

(** X5: no request takes a document out of COMPLETED: after any one request
    (create, delete, analyze, mask or chat, with any providers) a row that
    was COMPLETED with a stored analysis is either deleted or still
    COMPLETED with the same analysis and the same identity columns. *)
Theorem completed_is_terminal rt st w w' k d a :
  request rt st w w' ->
  documents (db w) !! k = Some d ->
  Document.status d = COMPLETED ->
  Document.analysis d = Some a ->
  documents (db w') !! k = None
  \/ exists d',
       documents (db w') !! k = Some d'
       /\ Document.status d' = COMPLETED
       /\ Document.analysis d' = Some a
       /\ same_identity d d'.
Proof.
  intros Hreq Hl Hs Ha.
  assert (same_identity d d) as Hsame by (repeat split).
  destruct Hreq as [title content type user_id w | document_id user_id w
                   | llm document_id user_id w | llm document_id user_id w
                   | llm message session_id document_id user_id w].
  - right. exists d. repeat split; auto.
    unfold create_document.
    erewrite bind_Return by reflexivity. erewrite bind_Return by reflexivity.
    cbn [db]. destruct (documents (db w) !! next_uuid w) as [existing|] eqn:Hnew.
    + exact Hl.
    + erewrite bind_Return by reflexivity. erewrite bind_Return by reflexivity.
      cbn [snd mret M_ret db documents].
      rewrite lookup_insert_ne; [exact Hl | congruence].
  - unfold delete_document. erewrite bind_Return by reflexivity.
    destruct (owned_document (db w) document_id user_id) as [d0|].
    + erewrite bind_Return by reflexivity. erewrite bind_Return by reflexivity.
      unfold db_commit. erewrite bind_Return by reflexivity.
      unfold emit. cbn [snd db documents].
      destruct (decide (Document.id d0 = k)) as [->|Hne].
      * left. apply lookup_delete_eq.
      * right. exists d. rewrite lookup_delete_ne by assumption. repeat split; auto.
    + right. exists d. repeat split; auto.
  - right.
    destruct (analyze_document_cases rt llm document_id user_id w)
      as [-> | (d0 & Hown & Hopen & Hdb & _)].
    + exists d. repeat split; auto.
    + destruct (owned_document_lookup _ _ _ _ Hown) as (Hl0 & _ & _).
      rewrite Hdb. unfold store_at. cbn [documents].
      destruct (decide (document_id = k)) as [->|Hne].
      * rewrite Hl in Hl0. injection Hl0 as <-.
        destruct Hopen; congruence.
      * exists d. rewrite lookup_insert_ne by assumption. repeat split; auto.
  - right. destruct w as [b c u t]. cbn [db] in *.
    destruct (owned_document b document_id user_id) as [d0|] eqn:Hown.
    2:{ unfold mask_document_content. erewrite bind_Return by reflexivity.
        cbn [db]. rewrite Hown. exists d. repeat split; auto. }
    destruct (owned_document_lookup _ _ _ _ Hown) as (Hl0 & _ & _).
    rewrite (mask_document_content_run rt st llm _ _ _ _ _ _ _ Hown).
    destruct (ollama_post llm _) as [e|raw]; cbn [snd db].
    + exists d. repeat split; auto.
    + cbn zeta. unfold store_at. cbn [documents].
      destruct (decide (document_id = k)) as [->|Hne].
      * rewrite Hl in Hl0. injection Hl0 as <-.
        eexists. split; [apply lookup_insert_eq|]. repeat split; auto.
      * exists d. rewrite lookup_insert_ne by assumption. repeat split; auto.
  - right. exists d.
    destruct (owned_document (db w) document_id user_id) as [d0|] eqn:Hown.
    + rewrite (chat_stream_run rt llm _ _ _ _ _ _ Hown). cbn [snd].
      destruct (turn_reply _); repeat split; auto.
    + rewrite chat_stream_unowned by assumption. repeat split; auto.
Qed.

Lemma completed_is_terminal_witness :
  exists d',
    documents (db (snd (analyze_document sample_rt failing_llm 1%N 7%N analysed_world)))
      !! 1%N = Some d'
    /\ Document.analysis d' = Some analysed_result.
Proof.
  destruct (completed_is_terminal sample_rt default_settings analysed_world
              (snd (analyze_document sample_rt failing_llm 1%N 7%N analysed_world))
              1%N analysed_document analysed_result)
    as [Hgone | (d' & Hl & _ & Ha & _)].
  - apply req_analyze.
  - vm_compute. reflexivity.
  - vm_compute. reflexivity.
  - vm_compute. reflexivity.
  - exfalso. vm_compute in Hgone. discriminate.
  - exists d'. split; assumption.
Defined.

(** ** Masking, then analysing *)

Lemma provider_requests_app t1 t2 :
  provider_requests (t1 ++ t2) = provider_requests t1 ++ provider_requests t2.
Proof. apply List.filter_app. Qed.

(** X6: when an owned, not yet completed document is masked and then
    analysed, the two provider requests are the masking prompt over the
    document's content and then the analysis prompt, which is built over the
    masked text (labelled as masked) when that text is not empty, and over
    the original content otherwise. *)
Theorem analysis_reads_masked_content rt st llm llm' document_id user_id w d raw :
  owned_document (db w) document_id user_id = Some d ->
  Document.status d <> COMPLETED \/ Document.analysis d = None ->
  ollama_post llm (masking_prompt (Document.content d)) = Completes raw ->
  let masked := MaskClean.clean_response raw in
  let w1 := snd (mask_document_content rt st llm document_id user_id w) in
  let w2 := snd (analyze_document rt llm' document_id user_id w1) in
  provider_requests (trace w2)
  = provider_requests (trace w)
    ++ [EvOllamaPost (masking_prompt (Document.content d));
        EvChainInvoke
          (if PyStr.truthy masked
           then analysis_prompt rt (Document.title d)
                  (DocumentType_value (Document.type d)) masked "masked"
                  "PII has been masked for privacy"
                  "Note: Personal identifiable information (PII) has been masked in this document for privacy protection."
           else analysis_prompt rt (Document.title d)
                  (DocumentType_value (Document.type d)) (Document.content d)
                  "original" "original unmasked content" "")].
Proof.
  intros Hown Hopen Hpost masked w1 w2. subst w2 w1.
  destruct w as [b c u t]. cbn [db trace] in *.
  rewrite (mask_document_content_run rt st llm _ _ _ _ _ _ _ Hown), Hpost.
  cbn zeta. cbn [snd]. fold masked.
  set (d' := Document.set_maskedContent (Some (masked_record rt st d masked c)) d).
  assert (owned_document (store_at document_id d' b) document_id user_id = Some d')
    as Hown' by (apply (owned_document_store_at document_id user_id d); auto).
  rewrite (analyze_document_run rt llm' _ _ _ _ _ _ _ Hown' Hopen).
  cbn [snd trace].
  rewrite !provider_requests_app. cbn [provider_requests List.filter is_provider_request app].
  rewrite <- app_assoc. cbn [app]. do 3 f_equal.
  unfold prompt_for, usable_masked_content. cbn.
  now destruct (PyStr.truthy masked).
Qed.

Lemma analysis_reads_masked_content_witness :
  provider_requests
    (trace (snd (analyze_document sample_rt sample_llm 1%N 7%N
                   (snd (mask_document_content sample_rt default_settings sample_llm
                           1%N 7%N sample_world)))))
  = [EvOllamaPost (masking_prompt "  Tenant: Ann Lee");
     EvChainInvoke
       (analysis_prompt sample_rt "Lease" "contract" "Tenant: [NAME]" "masked"
          "PII has been masked for privacy"
          "Note: Personal identifiable information (PII) has been masked in this document for privacy protection.")].
Proof.
  exact (analysis_reads_masked_content sample_rt default_settings sample_llm sample_llm
           1%N 7%N sample_world sample_document
           ("<think>mask the name</think>" +:+ nl +:+ "  Tenant: [NAME]")
           eq_refl (or_intror eq_refl) eq_refl).
Defined.

(** ** What masking leaves alone, and how it fails *)

(** X7: [mask_document_content] never touches the chat messages or the rows
    of other documents, and on the masked row it changes nothing but the
    masked-content column: identity, status, analysis, timestamps and error
    message stay as they were. *)
Theorem mask_document_content_isolated rt st llm document_id user_id w :
  let w' := snd (mask_document_content rt st llm document_id user_id w) in
  chat_messages (db w') = chat_messages (db w)
  /\ (forall k, k <> document_id ->
        documents (db w') !! k = documents (db w) !! k)
  /\ (forall d, documents (db w) !! document_id = Some d ->
        exists d', documents (db w') !! document_id = Some d'
                   /\ same_identity d d'
                   /\ Document.status d' = Document.status d
                   /\ Document.analysis d' = Document.analysis d
                   /\ Document.processingStartedAt d' = Document.processingStartedAt d
                   /\ Document.processingCompletedAt d' = Document.processingCompletedAt d
                   /\ Document.errorMessage d' = Document.errorMessage d).
Proof.
  intros w'. subst w'.
  assert (forall d, documents (db w) !! document_id = Some d ->
            exists d', documents (db w) !! document_id = Some d'
                   /\ same_identity d d'
                   /\ Document.status d' = Document.status d
                   /\ Document.analysis d' = Document.analysis d
                   /\ Document.processingStartedAt d' = Document.processingStartedAt d
                   /\ Document.processingCompletedAt d' = Document.processingCompletedAt d
                   /\ Document.errorMessage d' = Document.errorMessage d) as Hsame
    by (intros d Hl; exists d; repeat split; auto).
  destruct w as [b c u t]. cbn [db] in *.
  destruct (owned_document b document_id user_id) as [d|] eqn:Hown.
  2:{ unfold mask_document_content. erewrite bind_Return by reflexivity.
      cbn [db]. rewrite Hown. cbn. auto. }
  destruct (owned_document_lookup _ _ _ _ Hown) as (Hl & _ & _).
  rewrite (mask_document_content_run rt st llm _ _ _ _ _ _ _ Hown).
  destruct (ollama_post llm _) as [e|raw]; cbn [snd db]; [auto|].
  cbn zeta. unfold store_at. cbn [documents chat_messages].
  split; [reflexivity|]. split.
  - intros k Hk. now apply lookup_insert_ne.
  - intros d0 Hl0. rewrite Hl in Hl0. injection Hl0 as <-.
    eexists. split; [apply lookup_insert_eq|]. repeat split.
Qed.

(** X8: the document-masking endpoint answers 404 with the not-found message
    and changes nothing when the caller owns no such document; when the
    provider fails it answers 500 with the doubly prefixed message
    "Failed to mask document PII: Failed to mask document content: <error>",
    and the only effect is the one request to the provider. *)
Theorem mask_endpoint_failures rt st llm document_id user_id w :
  match owned_document (db w) document_id user_id with
  | None =>
      PIIRouter.mask_document_pii rt st llm document_id user_id w
      = (HTTPException 404
           ("Document " +:+ str_uuid rt document_id +:+ " not found or access denied"),
         w)
  | Some d =>
      forall e, ollama_post llm (masking_prompt (Document.content d)) = Fails e ->
        PIIRouter.mask_document_pii rt st llm document_id user_id w
        = (HTTPException 500
             ("Failed to mask document PII: " +:+ "Failed to mask document content: "
              +:+ exn_str e),
           with_events [EvOllamaPost (masking_prompt (Document.content d))] w)
  end.
Proof.
  unfold PIIRouter.mask_document_pii, serve_or_404.
  destruct (owned_document (db w) document_id user_id) as [d|] eqn:Hown.
  - intros e He. destruct w as [b c u t]. cbn [db] in *.
    rewrite (mask_document_content_run rt st llm _ _ _ _ _ _ _ Hown), He.
    reflexivity.
  - unfold mask_document_content. erewrite bind_Return by reflexivity.
    rewrite Hown. reflexivity.
Qed.

Lemma mask_endpoint_failures_witness :
  PIIRouter.mask_document_pii sample_rt default_settings failing_llm 1%N 7%N sample_world
  = (HTTPException 500
       "Failed to mask document PII: Failed to mask document content: 503 Service Unavailable",
     with_events [EvOllamaPost (masking_prompt "  Tenant: Ann Lee")] sample_world).
Proof.
  exact (mask_endpoint_failures sample_rt default_settings failing_llm 1%N 7%N sample_world
           (mkExn ProviderError "503 Service Unavailable") eq_refl).
Defined.

(** X9: whenever [mask_document_content] returns a result,
    [get_masked_content] called right after it for the same document and
    user returns that same result and changes nothing. *)
Theorem masked_content_read_back rt st llm document_id user_id w r w' :
  mask_document_content rt st llm document_id user_id w = (Return r, w') ->
  get_masked_content rt document_id user_id w' = (Return r, w').
Proof.
  intros Hrun.
  destruct (owned_document (db w) document_id user_id) as [d|] eqn:Hown.
  2:{ unfold mask_document_content in Hrun.
      erewrite bind_Return in Hrun by reflexivity.
      rewrite Hown in Hrun. discriminate. }
  destruct (owned_document_lookup _ _ _ _ Hown) as (Hl & Hid & Hu).
  destruct w as [b c u t]. cbn [db] in *.
  rewrite (mask_document_content_run rt st llm _ _ _ _ _ _ _ Hown) in Hrun.
  destruct (ollama_post llm _) as [e|raw]; [discriminate|].
  cbn zeta in Hrun. injection Hrun as <- <-.
  unfold get_masked_content. erewrite bind_Return by reflexivity. cbn [db].
  erewrite (owned_document_store_at document_id user_id d) by (eauto; reflexivity).
  cbn. now rewrite Hid.
Qed.

Lemma masked_content_read_back_witness :
  fst (get_masked_content sample_rt 1%N 7%N
         (snd (mask_document_content sample_rt default_settings sample_llm 1%N 7%N
                 sample_world)))
  = Return (mkMaskingResult 1%N "Tenant: [NAME]" 17 14 "<time>").
Proof.
  rewrite (masked_content_read_back sample_rt default_settings sample_llm 1%N 7%N
             sample_world
             (mkMaskingResult 1%N "Tenant: [NAME]" 17 14 "<time>")
             (snd (mask_document_content sample_rt default_settings sample_llm 1%N 7%N
                     sample_world))).
  - reflexivity.
  - vm_compute. reflexivity.
Defined.

(** ** The history a chat turn sends *)

Lemma history_messages_entries msgs :
  history_messages (List.map history_entry msgs) = List.flat_map role_message msgs.
Proof.
  induction msgs as [|m rest IH]; [reflexivity|].
  cbn [List.map List.flat_map history_messages]. unfold history_entry at 1, role_message at 1.
  destruct (ChatMessage.role m); cbn; now rewrite IH.
Qed.

Lemma insert_by_createdAt_last m rows last :
  (ChatMessage.createdAt m <= ChatMessage.createdAt last)%Z ->
  insert_by_createdAt m (rows ++ [last]) = insert_by_createdAt m rows ++ [last].
Proof.
  intros Hle. induction rows as [|x rest IH]; cbn.
  - destruct (Z.leb_spec (ChatMessage.createdAt m) (ChatMessage.createdAt last));
      [reflexivity | lia].
  - destruct (Z.leb _ _); [reflexivity|]. now rewrite IH.
Qed.

Lemma order_by_createdAt_last rows last :
  Forall (fun m => (ChatMessage.createdAt m <= ChatMessage.createdAt last)%Z) rows ->
  order_by_createdAt (rows ++ [last]) = order_by_createdAt rows ++ [last].
Proof.
  induction 1 as [|m rest Hm _ IH]; [reflexivity|].
  cbn. rewrite IH. now apply insert_by_createdAt_last.
Qed.

Lemma removelast_last {A} (l : list A) x : removelast (l ++ [x]) = l.
Proof. apply List.removelast_last. Qed.

(** X10: in a chat turn on an owned document, if no stored message of the
    session is dated after the new user message, the one request sent to the
    chat provider is the system prompt over the document context, then the
    messages stored for the session before the turn in order of creation
    (user rows as human messages, assistant rows as AI messages, others
    left out), then the new message as a human message: the new message
    appears once, not also as the last entry of the history. *)
Theorem chat_request_history rt llm message session_id document_id user_id w d :
  owned_document (db w) document_id user_id = Some d ->
  Forall (fun m => (ChatMessage.createdAt m <= clock w + 1)%Z)
    (session_rows (db w) session_id document_id user_id) ->
  provider_requests
    (trace (snd (chat_stream rt llm message session_id document_id user_id w)))
  = provider_requests (trace w)
    ++ [EvChatStream
          ([SystemMessage (system_prompt (document_context rt (db w) document_id user_id))]
           ++ List.flat_map role_message
                (select_messages (db w) session_id document_id user_id)
           ++ [HumanMessage message])].
Proof.
  intros Hown Hpast.
  rewrite (chat_stream_run rt llm _ _ _ _ _ _ Hown). cbn [snd].
  set (um := saved_message rt message USER session_id document_id user_id w).
  assert (turn_request rt (db (after_save um w)) message session_id document_id user_id
          = [SystemMessage (system_prompt (document_context rt (db w) document_id user_id))]
            ++ List.flat_map role_message
                 (select_messages (db w) session_id document_id user_id)
            ++ [HumanMessage message]) as Hreq.
  { unfold turn_request. f_equal. f_equal.
    rewrite <- history_messages_entries. f_equal.
    unfold select_messages. cbn [db after_save with_message chat_messages].
    rewrite List.filter_app. cbn [List.filter].
    pose proof (in_session_saved rt message USER session_id document_id user_id w)
      as Hum.
    fold um in Hum. rewrite Hum.
    rewrite order_by_createdAt_last by exact Hpast.
    rewrite List.map_app. cbn [List.map]. apply removelast_last. }
  rewrite Hreq.
  set (request := _ ++ _ ++ _).
  set (s := chat_astream llm request).
  assert (provider_requests (List.map fragment_event (forwarded (chunks s))) = []) as Hfr
    by apply provider_requests_fragments.
  destruct (turn_reply s); cbn [trace db with_events after_save];
    rewrite !provider_requests_app; cbn [provider_requests List.filter is_provider_request];
    fold (provider_requests (List.map fragment_event (forwarded (chunks s))));
    rewrite Hfr; cbn [app]; now rewrite ?app_nil_r.
Qed.

Lemma chat_request_history_witness :
  provider_requests
    (trace (snd (chat_stream sample_rt sample_llm "When?" "s1" 1%N 7%N talked_world)))
  = provider_requests (trace talked_world)
    ++ [EvChatStream
          [SystemMessage
             (system_prompt
                "Document 'Lease' has not been analyzed yet. Please analyze the document first to get detailed insights.");
           HumanMessage "Is it risky?";
           AIMessage "The lease renews.";
           HumanMessage "When?"]].
Proof.
  rewrite (chat_request_history sample_rt sample_llm "When?" "s1" 1%N 7%N
             talked_world sample_document).
  - vm_compute. reflexivity.
  - vm_compute. reflexivity.
  - vm_compute. repeat constructor; discriminate.
Defined.

(** ** The chat endpoints *)

Lemma skipn_length_app {A} (l r : list A) : skipn (List.length l) (l ++ r) = r.
Proof. induction l; cbn; auto. Qed.

Lemma consume_run (generator : M unit) w w' evs :
  generator w = (Return tt, w') ->
  trace w' = trace w ++ evs ->
  ChatRouter.consume generator w = (Return (yields_of evs), w').
Proof.
  intros H Ht. unfold ChatRouter.consume. rewrite H, Ht.
  now rewrite yields_of_app, skipn_length_app.
Qed.

Lemma with_events_twice e1 e2 w :
  with_events e2 (with_events e1 w) = with_events (e1 ++ e2) w.
Proof. unfold with_events. cbn. now rewrite <- app_assoc. Qed.

(** The events a chat turn on an owned document adds, and the world
    without them. *)
Lemma chat_stream_events rt llm message sid did uid w d :
  owned_document (db w) did uid = Some d ->
  let um := saved_message rt message USER sid did uid w in
  let request := turn_request rt (db (after_save um w)) message sid did uid in
  let s := chat_astream llm request in
  exists evs w',
    chat_stream rt llm message sid did uid w = (Return tt, w')
    /\ trace w' = trace w ++ evs
    /\ provider_requests evs = [EvChatStream request]
    /\ match turn_reply s with
       | Some reply =>
           exists am,
             db w' = with_message am (with_message um (db w))
             /\ ChatMessage.content am = reply
             /\ ChatMessage.role am = ASSISTANT
             /\ in_session sid did uid am = true
             /\ yields_of evs
                = List.map (fun c => (c, None)) (forwarded (chunks s))
                  ++ [(closing_chunk s, Some (ChatMessage.id am))]
       | None =>
           db w' = with_message um (db w)
           /\ yields_of evs = List.map (fun c => (c, None)) (forwarded (chunks s))
       end.
Proof.
  intros Hown um request s.
  rewrite (chat_stream_run rt llm _ _ _ _ _ _ Hown).
  fold um. fold request. fold s.
  set (fragments := List.map fragment_event (forwarded (chunks s))).
  assert (provider_requests fragments = []) as Hfr by apply provider_requests_fragments.
  assert (yields_of fragments = List.map (fun c => (c, None)) (forwarded (chunks s)))
    as Hy by apply yields_of_fragments.
  destruct (turn_reply s) as [reply|].
  - set (w2 := with_events (EvChatStream request :: fragments) (after_save um w)).
    set (am := saved_message rt reply ASSISTANT sid did uid w2).
    exists ([EvCommit (with_message um (db w))]
            ++ (EvChatStream request :: fragments)
            ++ [EvCommit (with_message am (with_message um (db w)));
                EvYield (closing_chunk s) (Some (ChatMessage.id am))]).
    eexists. split; [reflexivity|].
    split.
    { unfold with_events, after_save. subst w2. unfold with_events, after_save.
      cbn [trace db clock next_uuid]. rewrite <- !app_assoc. reflexivity. }
    split.
    + rewrite !provider_requests_app.
      cbn [provider_requests List.filter is_provider_request app].
      fold (provider_requests fragments). now rewrite Hfr.
    + exists am. repeat split; [apply in_session_saved|].
      rewrite !yields_of_app. cbn [yields_of app]. now rewrite Hy.
  - exists ([EvCommit (with_message um (db w))] ++ EvChatStream request :: fragments).
    eexists. split; [reflexivity|].
    split.
    { unfold with_events, after_save. cbn [trace db clock next_uuid].
      rewrite <- !app_assoc. reflexivity. }
    split.
    + rewrite !provider_requests_app.
      cbn [provider_requests List.filter is_provider_request app].
      fold (provider_requests fragments). now rewrite Hfr.
    + split; [reflexivity|].
      rewrite !yields_of_app. cbn [yields_of app]. now rewrite Hy.
Qed.

Lemma event_loop_fragments sid did fragments rest message_id :
  Forall (fun c => PyStr.truthy c = true) fragments ->
  ChatRouter.event_loop sid did (List.map (fun c => (c, None)) fragments ++ rest) message_id
  = List.map (fun c => ChatRouter.SSEMessage c sid did) fragments
    ++ ChatRouter.event_loop sid did rest message_id.
Proof.
  induction 1 as [|c l Hc _ IH]; [reflexivity|].
  cbn [List.map app ChatRouter.event_loop]. now rewrite Hc, IH.
Qed.

Lemma forwarded_truthy emitted :
  Forall (fun c => PyStr.truthy c = true) (forwarded emitted).
Proof.
  apply List.Forall_forall. intros c Hin. unfold forwarded in Hin.
  now apply filter_In in Hin.
Qed.

Lemma accumulate_fragments fragments rest acc message_id :
  ChatRouter.accumulate (List.map (fun c => (c, None)) fragments ++ rest) acc message_id
  = ChatRouter.accumulate rest (acc +:+ PyStr.join "" fragments) message_id.
Proof.
  revert acc. induction fragments as [|c l IH]; intros acc.
  - cbn. now rewrite append_nil_r.
  - cbn [List.map app ChatRouter.accumulate]. rewrite IH, join_empty_cons.
    destruct c; [reflexivity|]. cbn [PyStr.truthy]. now rewrite append_assoc.
Qed.

(** X11: the streaming endpoint ends every stream with exactly one [end]
    event, after all [message] events. Without an owned document the events
    are the error message and an [end] without a message id. Otherwise the
    [message] events are the provider's non-empty chunks in order, followed
    by the apology when the stream failed, and the [end] event carries the id
    of the assistant message that was stored last, or none when none was
    stored. *)
Theorem sse_stream_events rt llm message session_id document_id user_id w :
  match owned_document (db w) document_id user_id with
  | None =>
      fst (ChatRouter.chat_stream rt llm message session_id document_id user_id w)
      = Return [ChatRouter.SSEMessage "Error: Document not found or access denied."
                  session_id document_id;
                ChatRouter.SSEEnd session_id document_id None]
  | Some _ =>
      exists request w',
        let s := chat_astream llm request in
        snd (ChatRouter.chat_stream rt llm message session_id document_id user_id w) = w'
        /\ provider_requests (trace w')
           = provider_requests (trace w) ++ [EvChatStream request]
        /\ fst (ChatRouter.chat_stream rt llm message session_id document_id user_id w)
           = Return
               (List.map (fun c => ChatRouter.SSEMessage c session_id document_id)
                  (forwarded (chunks s)
                   ++ match failure s with
                      | Some e => ["Sorry, I encountered an error: " +:+ exn_str e]
                      | None => []
                      end)
                ++ [ChatRouter.SSEEnd session_id document_id
                      (match turn_reply s with
                       | Some _ => option_map ChatMessage.id (last (chat_messages (db w')))
                       | None => None
                       end)])
  end.
Proof.
  unfold ChatRouter.chat_stream.
  destruct (owned_document (db w) document_id user_id) as [d|] eqn:Hown.
  - destruct (chat_stream_events rt llm message session_id document_id user_id w d Hown)
      as (evs & w' & Hrun & Ht & Hreq & Hcase).
    cbn zeta in Hreq, Hcase.
    set (um := saved_message rt message USER session_id document_id user_id w) in *.
    set (request := turn_request rt _ message session_id document_id user_id) in *.
    set (s := chat_astream llm request) in *.
    exists request, w'. cbn zeta. fold s.
    erewrite bind_Return by (eapply consume_run; eassumption).
    cbn [fst snd mret M_ret].
    split; [reflexivity|].
    split; [now rewrite Ht, provider_requests_app, Hreq|].
    unfold turn_reply, closing_chunk in *.
    destruct (failure s) as [e|].
    + destruct Hcase as (am & Hdb & _ & _ & _ & Hy). rewrite Hy, Hdb.
      rewrite event_loop_fragments by apply forwarded_truthy.
      rewrite List.map_app. rewrite <- app_assoc.
      cbn [with_message chat_messages]. rewrite last_snoc. reflexivity.
    + rewrite app_nil_r.
      destruct (PyStr.truthy (PyStr.join "" (forwarded (chunks s)))).
      * destruct Hcase as (am & Hdb & _ & _ & _ & Hy). rewrite Hy, Hdb.
        rewrite event_loop_fragments by apply forwarded_truthy.
        cbn [with_message chat_messages]. rewrite last_snoc. reflexivity.
      * destruct Hcase as (Hdb & Hy). rewrite Hy.
        rewrite <- (app_nil_r (List.map (fun c => (c, None)) (forwarded (chunks s)))).
        rewrite event_loop_fragments by apply forwarded_truthy. reflexivity.
  - erewrite bind_Return
      by (eapply consume_run; [now apply chat_stream_unowned | reflexivity]).
    reflexivity.
Qed.

(** X12: the non-streaming chat endpoint answers 500 ("Chat failed: " and the
    validation error of the missing message id) when the caller owns no such
    document, and also when the provider's stream ends without text, in which
    case the user's message has nevertheless been stored. Otherwise it
    answers with the concatenated fragments (followed by the apology after a
    failure) and the id of the assistant message stored last, whose content
    is the reply. *)
Theorem chat_message_outcomes rt llm missing_id message session_id document_id user_id w :
  match owned_document (db w) document_id user_id with
  | None =>
      fst (ChatRouter.chat_message rt llm missing_id message session_id
             document_id user_id w)
      = HTTPException 500 ("Chat failed: " +:+ missing_id)
  | Some _ =>
      exists request w',
        let s := chat_astream llm request in
        snd (ChatRouter.chat_message rt llm missing_id message session_id
               document_id user_id w) = w'
        /\ provider_requests (trace w')
           = provider_requests (trace w) ++ [EvChatStream request]
        /\ session_count (db w') session_id document_id user_id
           = session_count (db w) session_id document_id user_id + 1
             + match turn_reply s with Some _ => 1 | None => 0 end
        /\ match turn_reply s with
           | Some reply =>
               exists am,
                 last (chat_messages (db w')) = Some am
                 /\ ChatMessage.content am = reply
                 /\ fst (ChatRouter.chat_message rt llm missing_id message session_id
                           document_id user_id w)
                    = HTTPOk (ChatRouter.mkChatResponse
                                (PyStr.join "" (forwarded (chunks s)) +:+ closing_chunk s)
                                session_id (ChatMessage.id am))
           | None =>
               fst (ChatRouter.chat_message rt llm missing_id message session_id
                      document_id user_id w)
               = HTTPException 500 ("Chat failed: " +:+ missing_id)
           end
  end.
Proof.
  unfold ChatRouter.chat_message, serve.
  destruct (owned_document (db w) document_id user_id) as [d|] eqn:Hown.
  - destruct (chat_stream_events rt llm message session_id document_id user_id w d Hown)
      as (evs & w' & Hrun & Ht & Hreq & Hcase).
    cbn zeta in Hreq, Hcase.
    pose proof (in_session_saved rt message USER session_id document_id user_id w) as Hum.
    set (um := saved_message rt message USER session_id document_id user_id w) in *.
    set (request := turn_request rt _ message session_id document_id user_id) in *.
    set (s := chat_astream llm request) in *.
    exists request, w'. cbn zeta. fold s.
    erewrite bind_Return by (eapply consume_run; eassumption).
    destruct (turn_reply s) as [reply|] eqn:Hreply.
    + destruct Hcase as (am & Hdb & Hcontent & Hrole & Ham & Hy). rewrite Hy.
      rewrite accumulate_fragments. cbn [ChatRouter.accumulate PyStr.truthy].
      cbn [fst snd]. split; [reflexivity|].
      split; [now rewrite Ht, provider_requests_app, Hreq|].
      split.
      * rewrite Hdb, !session_count_with_message by assumption. lia.
      * exists am. rewrite Hdb. cbn [with_message chat_messages].
        split; [apply last_snoc|]. split; [assumption|].
        rewrite append_Empty.
        destruct (closing_chunk s) eqn:Hc; [now rewrite append_nil_r | reflexivity].
    + destruct Hcase as (Hdb & Hy). rewrite Hy.
      rewrite <- (app_nil_r (List.map (fun c => (c, None)) (forwarded (chunks s)))).
      rewrite accumulate_fragments. cbn [ChatRouter.accumulate fst snd].
      split; [reflexivity|].
      split; [now rewrite Ht, provider_requests_app, Hreq|].
      split; [|reflexivity].
      rewrite Hdb, session_count_with_message by assumption. lia.
  - erewrite bind_Return
      by (eapply consume_run; [now apply chat_stream_unowned | reflexivity]).
    reflexivity.
Qed.

(** ** Deleting a chat session *)

Lemma filter_filter_out {A} (f : A -> bool) l :
  List.filter f (List.filter (fun x => negb (f x)) l) = [].
Proof.
  induction l as [|x l IH]; [reflexivity|]. cbn.
  destruct (f x) eqn:E; cbn; [assumption|]. now rewrite E.
Qed.

Lemma filter_partition_length {A} (f : A -> bool) l :
  List.length (List.filter f l) + List.length (List.filter (fun x => negb (f x)) l)
  = List.length l.
Proof. induction l as [|x l IH]; [reflexivity|]. cbn. destruct (f x); cbn; lia. Qed.

(** X13: deleting a chat session always succeeds; the count it reports is the
    number of messages the session had; the documents are untouched; the
    messages left are exactly those outside the session; one commit is made;
    and the history of the session read afterwards is empty. *)
Theorem delete_chat_session_spec str_nat session_id document_id user_id w :
  exists body w',
    ChatRouter.delete_chat_session str_nat session_id document_id user_id w
    = (HTTPOk body, w')
    /\ ChatRouter.ds_deleted_messages body
       = session_count (db w) session_id document_id user_id
    /\ documents (db w') = documents (db w)
    /\ (forall m, In m (chat_messages (db w')) <->
          In m (chat_messages (db w))
          /\ in_session session_id document_id user_id m = false)
    /\ List.length (chat_messages (db w')) + ChatRouter.ds_deleted_messages body
       = List.length (chat_messages (db w))
    /\ trace w' = trace w ++ [EvCommit (db w')]
    /\ ChatRouter.get_chat_history session_id document_id user_id w'
       = (HTTPOk (ChatRouter.mkChatHistoryResponse session_id document_id [] 0), w').
Proof.
  unfold ChatRouter.delete_chat_session, serve.
  erewrite bind_Return by reflexivity. erewrite bind_Return by reflexivity.
  erewrite bind_Return by reflexivity. cbn [mret M_ret].
  do 2 eexists. split; [reflexivity|].
  cbn [ChatRouter.ds_deleted_messages db documents chat_messages trace].
  split; [reflexivity|]. split; [reflexivity|]. split; [|split; [|split]].
  - intros m. rewrite filter_In, negb_true_iff. tauto.
  - unfold session_count, session_rows.
    pose proof (filter_partition_length
                  (in_session session_id document_id user_id) (chat_messages (db w))).
    lia.
  - reflexivity.
  - unfold ChatRouter.get_chat_history, serve, get_chat_history, query_messages.
    erewrite bind_Return by reflexivity. cbn [mret M_ret].
    unfold select_messages. cbn [db chat_messages].
    rewrite filter_filter_out. reflexivity.
Qed.

(** ** The sessions of a document *)

Lemma distinct_In x l : In x (distinct l) <-> In x l.
Proof.
  induction l as [|y rest IH]; [reflexivity|]. cbn [distinct In].
  rewrite filter_In, negb_true_iff, String.eqb_neq, IH.
  destruct (String.eqb_spec y x); [tauto|].
  split; [tauto|]. intros [H|H]; [tauto|]. right. split; congruence.
Qed.

Lemma distinct_NoDup l : List.NoDup (distinct l).
Proof.
  induction l as [|y rest IH]; cbn [distinct]; [constructor|].
  apply List.NoDup_cons.
  - rewrite filter_In, negb_true_iff, String.eqb_neq. tauto.
  - now apply List.NoDup_filter.
Qed.

Lemma has_session_in_session did uid m :
  has_session did uid m = true
  <-> exists sid, ChatMessage.sessionId m = Some sid /\ in_session sid did uid m = true.
Proof.
  unfold has_session. rewrite !andb_true_iff, !N.eqb_eq. split.
  - intros [[H1 H2] H3].
    destruct (ChatMessage.sessionId m) as [s|] eqn:E; [|discriminate].
    exists s. split; [reflexivity|]. apply in_session_spec. auto.
  - intros (sid & Hsid & H). apply in_session_spec in H as (_ & H1 & H2).
    rewrite Hsid. auto.
Qed.

Lemma session_ids_In b did uid sid :
  In sid (session_ids b did uid)
  <-> exists m, In m (session_rows b sid did uid).
Proof.
  unfold session_ids, session_rows. rewrite distinct_In, in_flat_map. split.
  - intros (m & Hin & Hs). apply filter_In in Hin as [Hin Hm].
    destruct (ChatMessage.sessionId m) as [s|] eqn:E; [|contradiction].
    destruct Hs as [<-|[]]. exists m. apply filter_In. split; [assumption|].
    apply has_session_in_session in Hm as (sid & Hsid & H). congruence.
  - intros (m & Hin). apply filter_In in Hin as [Hin Hm]. exists m.
    pose proof Hm as Hm'. apply in_session_spec in Hm' as (Hsid & _ & _).
    split.
    + apply filter_In. split; [assumption|]. apply has_session_in_session. eauto.
    + rewrite Hsid. now left.
Qed.

Lemma session_count_pos b sid did uid :
  0 < session_count b sid did uid <-> exists m, In m (session_rows b sid did uid).
Proof.
  unfold session_count. destruct (session_rows b sid did uid) as [|m rest]; cbn.
  - split; [lia | intros [m []]].
  - split; [eauto | lia].
Qed.

(** The first row in ascending order is an earliest one. *)
Lemma order_by_createdAt_head rows m0 :
  In m0 rows ->
  exists first,
    head (order_by_createdAt rows) = Some first
    /\ In first rows
    /\ forall m, In m rows -> (ChatMessage.createdAt first <= ChatMessage.createdAt m)%Z.
Proof.
  intros Hin.
  pose proof (order_by_createdAt_perm rows) as Hperm.
  pose proof (order_by_createdAt_sorted rows) as Hsorted.
  destruct (order_by_createdAt rows) as [|first rest] eqn:E.
  - apply Permutation_nil in Hperm. subst. contradiction.
  - exists first. split; [reflexivity|]. split.
    + eapply Permutation_in; [exact Hperm | now left].
    + apply Sorted_StronglySorted in Hsorted;
        [|intros x y z; unfold by_createdAt; lia].
      apply StronglySorted_inv in Hsorted as [_ Hall].
      rewrite List.Forall_forall in Hall.
      intros m Hm. eapply Permutation_in in Hm; [|symmetry; exact Hperm].
      destruct Hm as [<-|Hm]; [lia | exact (Hall m Hm)].
Qed.

Lemma insert_by_createdAt_desc_perm m rows :
  Permutation (insert_by_createdAt_desc m rows) (m :: rows).
Proof.
  induction rows as [|x rest IH]; cbn; [reflexivity|].
  destruct (Z.leb _ _); [reflexivity|]. rewrite IH. apply perm_swap.
Qed.

Lemma order_by_createdAt_desc_perm rows :
  Permutation (order_by_createdAt_desc rows) rows.
Proof.
  induction rows as [|m rest IH]; cbn; [reflexivity|].
  rewrite insert_by_createdAt_desc_perm. now constructor.
Qed.

Lemma insert_by_createdAt_desc_sorted m rows :
  Sorted (fun a b => by_createdAt b a) rows ->
  Sorted (fun a b => by_createdAt b a) (insert_by_createdAt_desc m rows).
Proof.
  induction 1 as [|x rest Hs IH Hhd]; cbn; [repeat constructor|].
  destruct (Z.leb_spec (ChatMessage.createdAt x) (ChatMessage.createdAt m)).
  - constructor; [now constructor|]. constructor. assumption.
  - constructor; [exact IH|].
    destruct rest as [|y rest']; cbn.
    + constructor. unfold by_createdAt. lia.
    + destruct (Z.leb _ _); constructor; [unfold by_createdAt; lia|].
      now inversion Hhd.
Qed.

Lemma order_by_createdAt_desc_sorted rows :
  Sorted (fun a b => by_createdAt b a) (order_by_createdAt_desc rows).
Proof.
  induction rows; cbn; [constructor | now apply insert_by_createdAt_desc_sorted].
Qed.

Lemma order_by_createdAt_desc_head rows m0 :
  In m0 rows ->
  exists last,
    head (order_by_createdAt_desc rows) = Some last
    /\ In last rows
    /\ forall m, In m rows -> (ChatMessage.createdAt m <= ChatMessage.createdAt last)%Z.
Proof.
  intros Hin.
  pose proof (order_by_createdAt_desc_perm rows) as Hperm.
  pose proof (order_by_createdAt_desc_sorted rows) as Hsorted.
  destruct (order_by_createdAt_desc rows) as [|last rest] eqn:E.
  - apply Permutation_nil in Hperm. subst. contradiction.
  - exists last. split; [reflexivity|]. split.
    + eapply Permutation_in; [exact Hperm | now left].
    + apply Sorted_StronglySorted in Hsorted;
        [|intros x y z; unfold by_createdAt; lia].
      apply StronglySorted_inv in Hsorted as [_ Hall].
      rewrite List.Forall_forall in Hall.
      intros m Hm. eapply Permutation_in in Hm; [|symmetry; exact Hperm].
      destruct Hm as [<-|Hm]; [lia | exact (Hall m Hm)].
Qed.

(** What one entry says of its session. *)
Lemma session_entry_spec b did uid sid m0 :
  In m0 (session_rows b sid did uid) ->
  let x := session_entry b did uid sid in
  si_session_id x = sid
  /\ si_document_id x = did
  /\ si_message_count x = session_count b sid did uid
  /\ exists first last,
       In first (session_rows b sid did uid)
       /\ In last (session_rows b sid did uid)
       /\ si_created_at x = Some (ChatMessage.createdAt first)
       /\ si_updated_at x = Some (ChatMessage.createdAt last)
       /\ si_first_message x = preview (ChatMessage.content first)
       /\ forall m, In m (session_rows b sid did uid) ->
            (ChatMessage.createdAt first <= ChatMessage.createdAt m
             <= ChatMessage.createdAt last)%Z.
Proof.
  intros Hin x. subst x. unfold session_entry.
  destruct (order_by_createdAt_head _ _ Hin) as (first & Hf & Hfin & Hfmin).
  destruct (order_by_createdAt_desc_head _ _ Hin) as (last & Hl & Hlin & Hlmax).
  rewrite Hf, Hl. cbn. repeat split; auto.
  exists first, last. repeat split; auto.
Qed.

Lemma session_keys_Some infos :
  Forall (fun x => exists t, si_updated_at x = Some t) infos ->
  exists keyed,
    session_keys infos = Some keyed
    /\ List.map snd keyed = infos
    /\ Forall (fun p => si_updated_at (snd p) = Some (fst p)) keyed.
Proof.
  induction 1 as [|x rest [t Ht] _ (keyed & Hk & Hmap & Hall)]; cbn [session_keys].
  - exists []. repeat split. constructor.
  - unfold session_key. rewrite Ht, Hk. exists ((t, x) :: keyed).
    split; [reflexivity|]. split; [cbn; now rewrite Hmap|].
    constructor; [exact Ht | exact Hall].
Qed.

Lemma insert_by_key_desc_perm x l :
  Permutation (insert_by_key_desc x l) (x :: l).
Proof.
  induction l as [|y rest IH]; cbn; [reflexivity|].
  destruct (Z.leb _ _); [reflexivity|]. rewrite IH. apply perm_swap.
Qed.

Lemma sort_by_key_desc_perm l : Permutation (sort_by_key_desc l) l.
Proof.
  induction l as [|x rest IH]; cbn; [reflexivity|].
  rewrite insert_by_key_desc_perm. now constructor.
Qed.

Lemma insert_by_key_desc_sorted x l :
  Sorted (fun p q => (fst q <= fst p)%Z) l ->
  Sorted (fun p q => (fst q <= fst p)%Z) (insert_by_key_desc x l).
Proof.
  unfold datetime in *.
  induction 1 as [|y rest Hs IH Hhd]; cbn; [repeat constructor|].
  destruct (Z.leb _ _) eqn:E.
  - apply Z.leb_le in E. constructor; [now constructor|]. constructor. assumption.
  - apply Z.leb_gt in E. constructor; [exact IH|].
    destruct rest as [|z rest']; cbn.
    + constructor. now apply Z.lt_le_incl.
    + destruct (Z.leb _ _); constructor; [now apply Z.lt_le_incl|].
      now inversion Hhd.
Qed.

Lemma sort_by_key_desc_sorted l :
  Sorted (fun p q => (fst q <= fst p)%Z) (sort_by_key_desc l).
Proof.
  induction l; cbn; [constructor | now apply insert_by_key_desc_sorted].
Qed.

Lemma newer_first_of_keys l :
  Forall (fun p => si_updated_at (snd p) = Some (fst p)) l ->
  StronglySorted (fun p q => (fst q <= fst p)%Z) l ->
  StronglySorted newer_first (List.map snd l).
Proof.
  intros Hall. induction 1 as [|p rest Hs IH Hhd]; cbn; [constructor|].
  apply List.Forall_cons_iff in Hall as [Hp Hrest].
  constructor; [now apply IH|].
  rewrite List.Forall_forall in *. intros x Hx.
  apply in_map_iff in Hx as (q & <- & Hq).
  unfold newer_first. rewrite Hp, (Hrest q Hq). now apply Hhd.
Qed.

Lemma sorted_sessions_run infos w :
  Forall (fun x => exists t, si_updated_at x = Some t) infos ->
  exists listed,
    sorted_sessions infos w = (Return listed, w)
    /\ Permutation listed infos
    /\ StronglySorted newer_first listed.
Proof.
  intros Hall.
  destruct (session_keys_Some infos Hall) as (keyed & Hk & Hmap & Hkeys).
  assert (Hgen : exists listed,
             listed = List.map snd (sort_by_key_desc keyed)
             /\ Permutation listed infos
             /\ StronglySorted newer_first listed).
  { eexists. split; [reflexivity|]. split.
    - rewrite <- Hmap. apply Permutation_map, sort_by_key_desc_perm.
    - apply newer_first_of_keys.
      + rewrite List.Forall_forall in *. intros p Hp. apply Hkeys.
        eapply Permutation_in; [apply sort_by_key_desc_perm | exact Hp].
      + apply Sorted_StronglySorted; [intros x y z; lia|].
        apply sort_by_key_desc_sorted. }
  destruct Hgen as (listed & -> & Hperm & Hsorted).
  destruct infos as [|x [|y rest]].
  - exists []. repeat split; constructor.
  - exists [x]. split; [reflexivity|]. split; [reflexivity|].
    repeat constructor.
  - unfold sorted_sessions. rewrite Hk. eexists. split; [reflexivity|]. split; assumption.
Qed.

Lemma get_chat_sessions_run did uid w :
  exists listed,
    get_chat_sessions did uid w = (Return listed, w)
    /\ Permutation listed
         (List.map (session_entry (db w) did uid) (session_ids (db w) did uid))
    /\ StronglySorted newer_first listed.
Proof.
  apply sorted_sessions_run.
  rewrite List.Forall_forall. intros x Hx.
  apply in_map_iff in Hx as (sid & <- & Hsid).
  apply session_ids_In in Hsid as (m0 & Hm0).
  destruct (session_entry_spec _ _ _ _ _ Hm0)
    as (_ & _ & _ & first & last & _ & _ & _ & Hup & _).
  eauto.
Qed.

Lemma slice_to_length n s : String.length (slice_to n s) <= n.
Proof.
  revert s. induction n as [|n IH]; intros [|c s]; cbn; try lia.
  specialize (IH s). lia.
Qed.

Lemma length_append s t :
  String.length (s +:+ t) = String.length s + String.length t.
Proof.
  induction s as [|c s IH]; [now rewrite append_Empty|].
  rewrite append_String. cbn. now rewrite IH.
Qed.

Lemma preview_length s : String.length (preview s) <= 103.
Proof.
  unfold preview. destruct (Nat.ltb_spec 100 (String.length s)); [|lia].
  rewrite length_append. pose proof (slice_to_length 100 s).
  change (String.length "...") with 3. lia.
Qed.

(** X14: [get_chat_sessions] never raises and changes nothing; it lists each
    session once, and exactly the sessions that have at least one message
    for the document and user; each entry carries that document id and, as
    its message count, the number of messages of the session. *)
Theorem chat_sessions_listed did uid w :
  exists listed,
    get_chat_sessions did uid w = (Return listed, w)
    /\ List.NoDup (List.map si_session_id listed)
    /\ (forall sid, In sid (List.map si_session_id listed)
                    <-> 0 < session_count (db w) sid did uid)
    /\ (forall x, In x listed ->
          si_document_id x = did
          /\ si_message_count x = session_count (db w) (si_session_id x) did uid).
Proof.
  destruct (get_chat_sessions_run did uid w) as (listed & Hrun & Hperm & _).
  exists listed. split; [exact Hrun|].
  assert (Hids : Permutation (List.map si_session_id listed) (session_ids (db w) did uid)).
  { rewrite Hperm, List.map_map. cbn. now rewrite List.map_id. }
  split; [|split].
  - eapply Permutation_NoDup; [symmetry; exact Hids | apply distinct_NoDup].
  - intros sid. rewrite session_count_pos, <- session_ids_In.
    split; apply Permutation_in; [exact Hids | symmetry; exact Hids].
  - intros x Hx. eapply Permutation_in in Hx; [|exact Hperm].
    apply in_map_iff in Hx as (sid & <- & Hsid).
    apply session_ids_In in Hsid as (m0 & Hm0).
    destruct (session_entry_spec _ _ _ _ _ Hm0) as (H1 & H2 & H3 & _).
    rewrite H1. auto.
Qed.

(** X15: the sessions are listed from the most recently updated to the least;
    in each entry [created_at] is the time of an earliest message of the
    session and [updated_at] that of a latest one, so every message of the
    session lies between them; [first_message] is the content of that
    earliest message, cut to 100 characters and "..." when longer, hence
    never longer than 103 characters. *)
Theorem chat_sessions_ordered did uid w :
  exists listed,
    get_chat_sessions did uid w = (Return listed, w)
    /\ StronglySorted newer_first listed
    /\ forall x, In x listed ->
         exists first last,
           let rows := session_rows (db w) (si_session_id x) did uid in
           In first rows /\ In last rows
           /\ si_created_at x = Some (ChatMessage.createdAt first)
           /\ si_updated_at x = Some (ChatMessage.createdAt last)
           /\ si_first_message x = preview (ChatMessage.content first)
           /\ String.length (si_first_message x) <= 103
           /\ forall m, In m rows ->
                (ChatMessage.createdAt first <= ChatMessage.createdAt m
                 <= ChatMessage.createdAt last)%Z.
Proof.
  destruct (get_chat_sessions_run did uid w) as (listed & Hrun & Hperm & Hsorted).
  exists listed. split; [exact Hrun|]. split; [exact Hsorted|].
  intros x Hx. eapply Permutation_in in Hx; [|exact Hperm].
  apply in_map_iff in Hx as (sid & <- & Hsid).
  apply session_ids_In in Hsid as (m0 & Hm0).
  destruct (session_entry_spec _ _ _ _ _ Hm0)
    as (H1 & _ & _ & first & last & Hf & Hl & Hc & Hu & Hp & Hb).
  exists first, last. rewrite H1. cbv zeta.
  split; [exact Hf|]. split; [exact Hl|]. split; [exact Hc|]. split; [exact Hu|].
  split; [exact Hp|]. split; [rewrite Hp; apply preview_length | exact Hb].
Qed.

(** ** Whitespace at the ends of a cleaned response *)

Lemma lstrip_first s :
  PyStr.lstrip s = ""
  \/ exists c t, PyStr.lstrip s = String c t /\ PyStr.isspace c = false.
Proof.
  induction s as [|c s IH]; [now left|]. cbn [PyStr.lstrip].
  destruct (PyStr.isspace c) eqn:E; [exact IH | right; eauto].
Qed.

Lemma rstrip_cons c s :
  PyStr.isspace c = false -> exists r, PyStr.rstrip (String c s) = String c r.
Proof.
  intros Hc. cbn [PyStr.rstrip]. destruct (PyStr.rstrip s); [rewrite Hc|]; eauto.
Qed.

Lemma rstrip_last s :
  PyStr.rstrip s = ""
  \/ exists c, last_char (PyStr.rstrip s) = Some c /\ PyStr.isspace c = false.
Proof.
  induction s as [|a s IH]; [now left|]. cbn [PyStr.rstrip].
  destruct (PyStr.rstrip s) as [|b r] eqn:E.
  - destruct (PyStr.isspace a) eqn:Ha; [now left | right]. exists a. now split.
  - right. destruct IH as [IH|IH]; [discriminate|]. exact IH.
Qed.

Lemma rstrip_fixed s c :
  last_char s = Some c -> PyStr.isspace c = false -> PyStr.rstrip s = s.
Proof.
  intros Hl Hc. induction s as [|a s IH]; [reflexivity|].
  cbn [PyStr.rstrip]. destruct s as [|b s'].
  - cbn in *. injection Hl as ->. now rewrite Hc.
  - rewrite IH by exact Hl. reflexivity.
Qed.

Lemma lstrip_fixed s c :
  first_char s = Some c -> PyStr.isspace c = false -> PyStr.lstrip s = s.
Proof.
  destruct s as [|a s]; [reflexivity|]. cbn. intros [= ->] ->. reflexivity.
Qed.

(** A string without whitespace at its ends. *)
Lemma ends_fixed s c c' :
  first_char s = Some c -> PyStr.isspace c = false ->
  last_char s = Some c' -> PyStr.isspace c' = false ->
  PyStr.strip s = s.
Proof.
  intros Hf Hc Hl Hc'. unfold PyStr.strip.
  rewrite (lstrip_fixed s c Hf Hc). exact (rstrip_fixed s c' Hl Hc').
Qed.

Lemma strip_ends s :
  PyStr.strip s = ""
  \/ exists c c',
       first_char (PyStr.strip s) = Some c /\ PyStr.isspace c = false
       /\ last_char (PyStr.strip s) = Some c' /\ PyStr.isspace c' = false.
Proof.
  unfold PyStr.strip. destruct (lstrip_first s) as [->|(c & t & -> & Hc)]; [now left|].
  right. destruct (rstrip_cons c t Hc) as [r Hr].
  destruct (rstrip_last (String c t)) as [H|(c' & Hl & Hc')]; [congruence|].
  exists c, c'. rewrite Hr in *. now repeat split.
Qed.

Lemma strip_idempotent s : PyStr.strip (PyStr.strip s) = PyStr.strip s.
Proof.
  destruct (strip_ends s) as [->|(c & c' & Hf & Hc & Hl & Hc')]; [reflexivity|].
  exact (ends_fixed _ _ _ Hf Hc Hl Hc').
Qed.

Lemma first_char_append a b :
  a <> "" -> first_char (a +:+ b) = first_char a.
Proof. destruct a; [congruence | now rewrite append_String]. Qed.

Lemma last_char_append a b :
  b <> "" -> last_char (a +:+ b) = last_char b.
Proof.
  intros Hb. induction a as [|c a IH]; [now rewrite append_Empty|].
  rewrite append_String. cbn [last_char]. rewrite IH.
  destruct (a +:+ b) eqn:E; [|reflexivity].
  destruct a; [rewrite append_Empty in E; congruence|].
  rewrite append_String in E. discriminate.
Qed.

Lemma join_cons sep x y rest :
  PyStr.join sep (x :: y :: rest) = x +:+ sep +:+ PyStr.join sep (y :: rest).
Proof. reflexivity. Qed.

Lemma join_nonempty sep x rest : x <> "" -> PyStr.join sep (x :: rest) <> "".
Proof.
  intros Hx. destruct rest as [|y rest]; [exact Hx|].
  rewrite join_cons. destruct x; [congruence|]. now rewrite append_String.
Qed.

Lemma join_first sep x rest :
  x <> "" -> first_char (PyStr.join sep (x :: rest)) = first_char x.
Proof.
  intros Hx. destruct rest as [|y rest]; [reflexivity|].
  rewrite join_cons. now apply first_char_append.
Qed.

Lemma last_cons (x y : string) rest : List.last (y :: rest) x = List.last rest y.
Proof.
  revert x y. induction rest as [|z rest IH]; intros x y; [reflexivity|].
  change (List.last (y :: z :: rest) x) with (List.last (z :: rest) x).
  now rewrite !IH.
Qed.

Lemma last_In (x : string) rest : In (List.last rest x) (x :: rest).
Proof.
  revert x. induction rest as [|y rest IH]; intros x; [now left|].
  right. rewrite last_cons. apply IH.
Qed.

Lemma join_last sep x rest :
  Forall (fun l => l <> "") (x :: rest) ->
  last_char (PyStr.join sep (x :: rest)) = last_char (List.last rest x).
Proof.
  revert x. induction rest as [|y rest IH]; intros x Hall; [reflexivity|].
  apply List.Forall_cons_iff in Hall as [Hx Hrest].
  rewrite join_cons, <- append_assoc, last_char_append.
  - rewrite (IH y Hrest). now rewrite last_cons.
  - apply join_nonempty. now apply List.Forall_cons_iff in Hrest as [Hy _].
Qed.

(** The kept lines are stripped and not empty. *)
Lemma kept_lines_ends remainder :
  Forall (fun l =>
            exists c c',
              first_char l = Some c /\ PyStr.isspace c = false
              /\ last_char l = Some c' /\ PyStr.isspace c' = false)
    (MaskClean.kept_lines remainder).
Proof.
  rewrite List.Forall_forall. intros l Hl. unfold MaskClean.kept_lines in Hl.
  apply filter_In in Hl as [Hin Hkeep].
  apply in_map_iff in Hin as (l0 & <- & _).
  unfold MaskClean.keep_line in Hkeep. apply andb_true_iff in Hkeep as [Ht _].
  destruct (strip_ends l0) as [H|H]; [|exact H].
  rewrite H in Ht. discriminate.
Qed.

Lemma clean_response_kept raw :
  MaskClean.clean_response raw
  = match MaskClean.kept_lines (MaskClean.skip_thinking raw) with
    | [] => PyStr.strip (MaskClean.skip_thinking raw)
    | kept => PyStr.join " " kept
    end.
Proof.
  unfold MaskClean.clean_response. cbv zeta. rewrite collect_filter. cbn [app].
  unfold MaskClean.kept_lines. now destruct (List.filter _ _).
Qed.

(** ** No line break in a joined response *)

Lemma has_newline_append a b :
  has_newline (a +:+ b) = has_newline a || has_newline b.
Proof.
  induction a as [|c a IH]; [now rewrite append_Empty|].
  rewrite append_String. cbn [has_newline]. rewrite IH. now rewrite orb_assoc.
Qed.

Lemma split_lines_nonempty s : PyStr.split_lines s <> [].
Proof.
  induction s as [|c s IH]; cbn [PyStr.split_lines]; [discriminate|].
  destruct (Ascii.eqb c PyStr.newline); [discriminate|].
  destruct (PyStr.split_lines s); discriminate.
Qed.

Lemma split_lines_no_newline s :
  Forall (fun l => has_newline l = false) (PyStr.split_lines s).
Proof.
  induction s as [|c s IH]; cbn [PyStr.split_lines].
  - now constructor.
  - destruct (Ascii.eqb c PyStr.newline) eqn:E.
    + now constructor.
    + destruct (PyStr.split_lines s) as [|l ls].
      * constructor; [cbn; now rewrite E | constructor].
      * apply List.Forall_cons_iff in IH as [Hl Hls].
        constructor; [cbn; now rewrite E, Hl | exact Hls].
Qed.

Lemma lstrip_no_newline s :
  has_newline s = false -> has_newline (PyStr.lstrip s) = false.
Proof.
  induction s as [|c s IH]; [reflexivity|]. intros H. cbn [PyStr.lstrip].
  destruct (PyStr.isspace c); [|exact H].
  apply IH. cbn in H. now apply orb_false_iff in H as [_ H].
Qed.

Lemma rstrip_no_newline s :
  has_newline s = false -> has_newline (PyStr.rstrip s) = false.
Proof.
  induction s as [|c s IH]; [reflexivity|]. intros H. cbn [PyStr.rstrip].
  cbn in H. apply orb_false_iff in H as [Hc Hs]. specialize (IH Hs).
  destruct (PyStr.rstrip s) as [|b r].
  - destruct (PyStr.isspace c); [reflexivity|]. cbn. now rewrite Hc.
  - cbn [has_newline] in *. now rewrite Hc, IH.
Qed.

Lemma join_no_newline sep parts :
  has_newline sep = false ->
  Forall (fun l => has_newline l = false) parts ->
  has_newline (PyStr.join sep parts) = false.
Proof.
  intros Hsep. induction 1 as [|x rest Hx Hrest IH]; [reflexivity|].
  destruct rest as [|y rest]; [exact Hx|].
  rewrite join_cons, !has_newline_append, Hx, Hsep. exact IH.
Qed.

Lemma kept_lines_no_newline remainder :
  Forall (fun l => has_newline l = false) (MaskClean.kept_lines remainder).
Proof.
  rewrite List.Forall_forall. intros l Hl. unfold MaskClean.kept_lines in Hl.
  apply filter_In in Hl as [Hin _].
  apply in_map_iff in Hin as (l0 & <- & Hl0).
  unfold PyStr.strip. apply rstrip_no_newline, lstrip_no_newline.
  pose proof (split_lines_no_newline remainder) as Hall.
  rewrite List.Forall_forall in Hall. now apply Hall.
Qed.

Lemma clean_response_strip raw :
  PyStr.strip (MaskClean.clean_response raw) = MaskClean.clean_response raw.
Proof.
  rewrite clean_response_kept.
  pose proof (kept_lines_ends (MaskClean.skip_thinking raw)) as Hends.
  destruct (MaskClean.kept_lines (MaskClean.skip_thinking raw)) as [|x rest];
    [apply strip_idempotent|].
  assert (Hne : Forall (fun l => l <> "") (x :: rest)).
  { eapply List.Forall_impl; [|exact Hends].
    intros l (c & _ & Hf & _). destruct l; [discriminate | congruence]. }
  pose proof Hends as Hx.
  apply List.Forall_cons_iff in Hx as [(c & _ & Hf & Hc & _) _].
  pose proof (last_In x rest) as Hin.
  rewrite List.Forall_forall in Hends.
  destruct (Hends _ Hin) as (_ & c' & _ & _ & Hl & Hc').
  apply (ends_fixed _ c c').
  - rewrite join_first; [exact Hf|]. now apply List.Forall_cons_iff in Hne as [Hx _].
  - exact Hc.
  - rewrite join_last; [exact Hl | exact Hne].
  - exact Hc'.
Qed.

(** X16: the cleaned masking response never begins or ends with whitespace
    (stripping it again changes nothing); when at least one line was kept it
    is a single non-empty line. *)
Theorem clean_response_trimmed (raw : string) :
  PyStr.strip (MaskClean.clean_response raw) = MaskClean.clean_response raw
  /\ (MaskClean.kept_lines (MaskClean.skip_thinking raw) <> [] ->
      has_newline (MaskClean.clean_response raw) = false
      /\ MaskClean.clean_response raw <> "").
Proof.
  split; [apply clean_response_strip|].
  rewrite clean_response_kept.
  pose proof (kept_lines_ends (MaskClean.skip_thinking raw)) as Hends.
  pose proof (kept_lines_no_newline (MaskClean.skip_thinking raw)) as Hnl.
  destruct (MaskClean.kept_lines (MaskClean.skip_thinking raw)) as [|x rest];
    [congruence|].
  intros _. split; [now apply join_no_newline|].
  apply join_nonempty.
  apply List.Forall_cons_iff in Hends as [(c & _ & Hf & _) _].
  destruct x; [discriminate | congruence].
Qed.

Lemma clean_response_trimmed_witness :
  has_newline
    (MaskClean.clean_response ("  Tenant: [NAME]" +:+ nl +:+ "  Phone: [PHONE]")) = false.
Proof.
  destruct (clean_response_trimmed ("  Tenant: [NAME]" +:+ nl +:+ "  Phone: [PHONE]"))
    as [_ H].
  apply H. vm_compute. discriminate.
Defined.

(** ** The text-masking endpoint *)

(** X17: the text-masking endpoint sends exactly one request to the provider
    and leaves the database untouched. When the provider answers, the body
    carries the cleaned response, the length of the submitted text and the
    length of the masked text, which has no whitespace at its ends; when the
    provider fails the answer is 500 with "Failed to mask PII: <error>". *)
Theorem mask_pii_text_outcomes llm text w :
  let outcome := PIIRouter.mask_pii_text llm text w in
  snd outcome = with_events [EvOllamaPost (masking_prompt text)] w
  /\ match ollama_post llm (masking_prompt text) with
     | Completes raw_response =>
         exists body,
           fst outcome = HTTPOk body
           /\ PIIRouter.masked_content body = MaskClean.clean_response raw_response
           /\ PIIRouter.original_length body = String.length text
           /\ PIIRouter.masked_length body = String.length (PIIRouter.masked_content body)
           /\ PyStr.strip (PIIRouter.masked_content body) = PIIRouter.masked_content body
     | Fails e =>
         fst outcome = HTTPException 500 ("Failed to mask PII: " +:+ exn_str e)
     end.
Proof.
  cbv zeta. unfold PIIRouter.mask_pii_text, serve.
  destruct (ollama_post llm (masking_prompt text)) as [e|raw_response] eqn:Hpost.
  - erewrite bind_Raise by (rewrite mask_pii_run, Hpost; reflexivity).
    split; reflexivity.
  - erewrite bind_Return by (rewrite mask_pii_run, Hpost; reflexivity).
    split; [reflexivity|]. eexists. split; [reflexivity|]. cbn.
    repeat split. apply clean_response_strip.
Qed.

(** ** The read endpoints *)

Lemma get_analysis_by_document_id_run rt st w did uid :
  reachable rt st w ->
  get_analysis_by_document_id rt did uid w
  = (match owned_document (db w) did uid with
     | Some d => Return (response_of d (Document.analysis d) (Document.errorMessage d))
     | None => Raise (not_found rt did)
     end, w).
Proof.
  intros Hreach. unfold get_analysis_by_document_id.
  erewrite bind_Return by reflexivity.
  destruct (owned_document (db w) did uid) as [d|] eqn:Hown; [|reflexivity].
  destruct (owned_document_lookup _ _ _ _ Hown) as (Hl & _ & _).
  destruct (reachable_status_inv rt st w did d Hreach Hl) as [_ Hd].
  unfold doc_inv in Hd. destruct (Document.analysis d) as [a|] eqn:Ha.
  - destruct Hd as [_ Hv]. unfold DocumentAnalysisResult_init. rewrite Hv.
    erewrite bind_Return by reflexivity. reflexivity.
  - erewrite bind_Return by reflexivity. reflexivity.
Qed.

(** X18: on a reachable world, reading the analysis of a document changes
    nothing and never answers 500: it answers 404 with the not-found message
    when the caller owns no such document, and otherwise the status, stored
    analysis, timestamps and error message of the row. *)
Theorem get_document_analysis_outcomes rt st w document_id user_id :
  reachable rt st w ->
  DocumentRouter.get_document_analysis rt document_id user_id w
  = (match owned_document (db w) document_id user_id with
     | Some d =>
         HTTPOk (response_of d (Document.analysis d) (Document.errorMessage d))
     | None =>
         HTTPException 404
           ("Document " +:+ str_uuid rt document_id +:+ " not found or access denied")
     end, w).
Proof.
  intros Hreach. unfold DocumentRouter.get_document_analysis, serve_or_404.
  rewrite (get_analysis_by_document_id_run rt st w _ _ Hreach).
  now destruct (owned_document (db w) document_id user_id).
Qed.

Lemma get_document_analysis_outcomes_witness :
  DocumentRouter.get_document_analysis sample_rt 1%N 7%N analysed_world
  = (HTTPOk (response_of analysed_document (Some analysed_result) None), analysed_world).
Proof.
  rewrite (get_document_analysis_outcomes sample_rt default_settings analysed_world 1%N 7%N
             (analysed_world_reachable default_settings)).
  vm_compute. reflexivity.
Defined.

(** X19: the two chat read endpoints always answer with a body and change
    nothing: the history's total is the number of messages of the session,
    and the session list's total is the number of entries it carries, which
    is zero exactly when no session of the document and user has a
    message. *)
Theorem chat_read_endpoints session_id document_id user_id w :
  (exists body,
     ChatRouter.get_chat_history session_id document_id user_id w = (HTTPOk body, w)
     /\ ChatRouter.ch_total_messages body
        = session_count (db w) session_id document_id user_id
     /\ List.length (ChatRouter.ch_messages body) = ChatRouter.ch_total_messages body)
  /\ (exists body,
        ChatRouter.get_chat_sessions document_id user_id w = (HTTPOk body, w)
        /\ ChatRouter.cs_document_id body = document_id
        /\ ChatRouter.cs_total_sessions body = List.length (ChatRouter.cs_sessions body)
        /\ (ChatRouter.cs_total_sessions body = 0
            <-> forall sid, session_count (db w) sid document_id user_id = 0)).
Proof.
  split.
  - unfold ChatRouter.get_chat_history, serve, get_chat_history, query_messages.
    eexists. split; [reflexivity|]. cbn.
    unfold select_messages, session_count, session_rows.
    rewrite List.length_map.
    split; [|reflexivity].
    apply Permutation_length, order_by_createdAt_perm.
  - destruct (get_chat_sessions_run document_id user_id w) as (listed & Hrun & Hperm & _).
    unfold ChatRouter.get_chat_sessions, serve.
    erewrite bind_Return by exact Hrun.
    eexists. split; [reflexivity|]. cbn. split; [reflexivity|]. split; [reflexivity|].
    rewrite (Permutation_length Hperm), List.length_map.
    split.
    + intros Hlen sid.
      destruct (session_count (db w) sid document_id user_id) eqn:Hcount; [reflexivity|].
      assert (Hin : In sid (session_ids (db w) document_id user_id))
        by (apply session_ids_In, session_count_pos; lia).
      destruct (session_ids (db w) document_id user_id); [contradiction | discriminate].
    + intros Hall.
      destruct (session_ids (db w) document_id user_id) as [|sid rest] eqn:Hids;
        [reflexivity|]. exfalso.
      assert (Hin : In sid (session_ids (db w) document_id user_id))
        by (rewrite Hids; now left).
      apply session_ids_In, session_count_pos in Hin. rewrite Hall in Hin. lia.
Qed.

(** ** Enum columns *)

Section EnumColumn.

Context {E : Type}.
Variable cls : EnumClass E.

Lemma find_by_value_sound items value e :
  find_by_value (value_of cls) items value = Some e ->
  value_of cls e = value /\ In e items.
Proof.
  induction items as [|x rest IH]; cbn [find_by_value]; [discriminate|].
  destruct (String.eqb_spec (value_of cls x) value) as [Heq|_].
  - intros [= <-]. split; [exact Heq | now left].
  - intros H. destruct (IH H). split; [assumption | now right].
Qed.

Lemma find_by_value_complete items e :
  In e items ->
  List.NoDup (List.map (value_of cls) items) ->
  find_by_value (value_of cls) items (value_of cls e) = Some e.
Proof.
  induction items as [|x rest IH]; cbn [find_by_value List.map]; [contradiction|].
  intros Hin Hnodup. apply List.NoDup_cons_iff in Hnodup as [Hx Hrest].
  destruct (String.eqb_spec (value_of cls x) (value_of cls e)) as [Heq|Hne].
  - destruct Hin as [->|Hin]; [reflexivity|]. exfalso. apply Hx.
    rewrite Heq. now apply in_map.
  - destruct Hin as [->|Hin]; [congruence|]. now apply IH.
Qed.

End EnumColumn.

(** X20: for an enum class whose members have distinct values, a member
    written to an [EnumAsString] column is read back as that same member. *)
Theorem enum_column_round_trip {E : Type} (cls : EnumClass E) (e : E) :
  In e (members cls) ->
  List.NoDup (List.map (value_of cls) (members cls)) ->
  process_result_value cls (process_bind_param cls (Some (Member e)))
  = Some (Member e).
Proof.
  intros Hin Hnodup. cbn [process_bind_param]. unfold process_result_value.
  now rewrite find_by_value_complete.
Qed.

(** X21: whatever is stored in an [EnumAsString] column, reading it and
    writing the result back stores the same thing (NULL stays NULL, a string
    stays the same string, whether or not it is the value of a member); a
    stored string is never read as NULL. *)
Theorem stored_value_round_trip {E : Type} (cls : EnumClass E)
  (value : option string) :
  process_bind_param cls (process_result_value cls value) = value
  /\ forall s, process_result_value cls (Some s) <> None.
Proof.
  split.
  - destruct value as [s|]; [|reflexivity]. unfold process_result_value.
    destruct (find_by_value (value_of cls) (members cls) s) as [e|] eqn:Hfind;
      [|reflexivity].
    cbn. apply find_by_value_sound in Hfind as [-> _]. reflexivity.
  - intros s. unfold process_result_value.
    now destruct (find_by_value (value_of cls) (members cls) s).
Qed.


Lemma enum_column_round_trip_witness :
  process_result_value DocumentStatus_class
    (process_bind_param DocumentStatus_class (Some (Member FAILED)))
  = Some (Member FAILED).
Proof.
  apply (enum_column_round_trip DocumentStatus_class FAILED).
  - cbn. tauto.
  - cbn. repeat constructor; cbn; intuition discriminate.
Defined.

(** ** Creating and deleting documents *)

Lemma owned_document_insert b k d uid :
  Document.id d = k ->
  owned_document (mkDatabase (<[k := d]> (documents b)) (chat_messages b)) k uid
  = if N.eqb (Document.userId d) uid then Some d else None.
Proof.
  intros Hid. unfold owned_document. cbn [documents].
  rewrite lookup_insert_eq, Hid, N.eqb_refl. reflexivity.
Qed.

Lemma create_document_run title content type user_id w :
  documents (db w) !! next_uuid w = None ->
  let d := Document.mk (next_uuid w) title content type PENDING
             None None None None None user_id in
  let b' := mkDatabase (<[next_uuid w := d]> (documents (db w)))
              (chat_messages (db w)) in
  create_document title content type user_id w
  = (Return d,
     mkWorld b' (clock w) (next_uuid w + 1)%N (trace w ++ [EvCommit b'])).
Proof.
  intros Hfresh. unfold create_document.
  erewrite bind_Return by reflexivity. erewrite bind_Return by reflexivity.
  cbn [db]. rewrite Hfresh.
  erewrite bind_Return by reflexivity. erewrite bind_Return by reflexivity.
  reflexivity.
Qed.



Lemma delete_document_run did uid d w :
  owned_document (db w) did uid = Some d ->
  let b' := mkDatabase (delete did (documents (db w)))
              (List.filter (fun m => negb (N.eqb (ChatMessage.documentId m) did))
                 (chat_messages (db w))) in
  delete_document did uid w = (Return tt, with_events [EvCommit b'] (mkWorld b' (clock w) (next_uuid w) (trace w))).
Proof.
  intros Hown. destruct (owned_document_lookup _ _ _ _ Hown) as (_ & Hid & _).
  unfold delete_document. erewrite bind_Return by reflexivity. rewrite Hown.
  erewrite bind_Return by reflexivity. erewrite bind_Return by reflexivity.
  unfold db_commit. erewrite bind_Return by reflexivity.
  rewrite Hid. reflexivity.
Qed.

(** X23: [delete_document] raises "Document not found" and changes nothing
    when the caller owns no such document. Otherwise the row is gone, other
    rows are untouched, the messages left are exactly those of other
    documents (so no session of the deleted document has a message left and
    the sessions of other documents are as before), one commit is made, and
    a later [analyze_document] on that id raises not-found for every
    user. *)
Theorem delete_document_cascade rt llm document_id user_id w :
  match owned_document (db w) document_id user_id with
  | None =>
      delete_document document_id user_id w
      = (Raise (mkExn OtherException "Document not found"), w)
  | Some _ =>
      exists w',
        delete_document document_id user_id w = (Return tt, w')
        /\ documents (db w') !! document_id = None
        /\ (forall k, k <> document_id ->
              documents (db w') !! k = documents (db w) !! k)
        /\ (forall m, In m (chat_messages (db w'))
                      <-> In m (chat_messages (db w))
                          /\ ChatMessage.documentId m <> document_id)
        /\ (forall sid other uid, other <> document_id ->
              session_rows (db w') sid other uid = session_rows (db w) sid other uid)
        /\ (forall sid uid, session_count (db w') sid document_id uid = 0)
        /\ trace w' = trace w ++ [EvCommit (db w')]
        /\ (forall uid,
              analyze_document rt llm document_id uid w'
              = (Raise (not_found rt document_id), w'))
  end.
Proof.
  destruct (owned_document (db w) document_id user_id) as [d|] eqn:Hown.
  - rewrite (delete_document_run _ _ _ _ Hown). cbv zeta.
    eexists. split; [reflexivity|]. cbn [db trace with_events documents chat_messages].
    split; [apply lookup_delete_eq|].
    split; [intros k Hk; now apply lookup_delete_ne|].
    split.
    { intros m. rewrite filter_In, negb_true_iff, N.eqb_neq. reflexivity. }
    split.
    { intros sid other uid Hother. unfold session_rows. cbn [chat_messages].
      induction (chat_messages (db w)) as [|m rest IH]; [reflexivity|].
      cbn [List.filter].
      destruct (N.eqb_spec (ChatMessage.documentId m) document_id) as [Heq|Hne];
        cbn [negb List.filter].
      - rewrite IH.
        assert (in_session sid other uid m = false) as ->; [|reflexivity].
        destruct (in_session sid other uid m) eqn:Hs; [|reflexivity].
        apply in_session_spec in Hs as (_ & Hd & _). congruence.
      - now rewrite IH. }
    split.
    { intros sid uid. unfold session_count, session_rows. cbn [chat_messages].
      induction (chat_messages (db w)) as [|m rest IH]; [reflexivity|].
      cbn [List.filter].
      destruct (N.eqb_spec (ChatMessage.documentId m) document_id) as [Heq|Hne];
        cbn [negb List.filter]; [exact IH|].
      assert (in_session sid document_id uid m = false) as ->; [|exact IH].
      destruct (in_session sid document_id uid m) eqn:Hs; [|reflexivity].
      apply in_session_spec in Hs as (_ & Hd & _). congruence. }
    split; [reflexivity|].
    intros uid. unfold analyze_document. erewrite bind_Return by reflexivity.
    cbn [db with_events].
    assert (owned_document
              (mkDatabase (delete document_id (documents (db w)))
                 (List.filter
                    (fun m => negb (N.eqb (ChatMessage.documentId m) document_id))
                    (chat_messages (db w)))) document_id uid = None) as ->
      by (unfold owned_document; cbn [documents]; now rewrite lookup_delete_eq).
    reflexivity.
  - unfold delete_document. erewrite bind_Return by reflexivity. now rewrite Hown.
Qed.

(** X24: when the generated id is not taken and no chat message refers to
    it, creating a document and then deleting it as its owner leaves the
    database exactly as it was. *)
Theorem create_delete_round_trip title content type user_id w :
  documents (db w) !! next_uuid w = None ->
  Forall (fun m => ChatMessage.documentId m <> next_uuid w) (chat_messages (db w)) ->
  exists d w' w'',
    create_document title content type user_id w = (Return d, w')
    /\ delete_document (Document.id d) user_id w' = (Return tt, w'')
    /\ db w'' = db w.
Proof.
  intros Hfresh Hfk.
  rewrite (create_document_run _ _ _ _ _ Hfresh). cbv zeta.
  eexists. eexists. eexists. split; [reflexivity|]. cbn [Document.id].
  erewrite delete_document_run
    by (cbn [db]; rewrite owned_document_insert by reflexivity;
        cbn; now rewrite N.eqb_refl).
  cbv zeta. split; [reflexivity|].
  cbn [db with_events documents chat_messages].
  destruct (db w) as [docs msgs]. cbn [documents chat_messages] in *. f_equal.
  - rewrite delete_insert_eq. now apply delete_id.
  - induction Hfk as [|m rest Hm _ IH]; [reflexivity|]. cbn [List.filter].
    destruct (N.eqb_spec (ChatMessage.documentId m) (next_uuid w)); [contradiction|].
    cbn [negb]. now rewrite IH.
Qed.

Lemma create_delete_round_trip_witness :
  exists d w' w'',
    create_document "Deed" "Grantor: Bo" CONTRACT 7%N
      (mkWorld (db talked_world) 100%Z 5%N []) = (Return d, w')
    /\ delete_document (Document.id d) 7%N w' = (Return tt, w'')
    /\ db w'' = db talked_world.
Proof.
  apply (create_delete_round_trip "Deed" "Grantor: Bo" CONTRACT 7%N
           (mkWorld (db talked_world) 100%Z 5%N [])).
  - vm_compute. reflexivity.
  - vm_compute. repeat constructor; discriminate.
Defined.

(** ** What a chat turn leaves alone *)

Lemma chat_stream_appends rt llm message sid did uid w :
  let w' := snd (chat_stream rt llm message sid did uid w) in
  documents (db w') = documents (db w)
  /\ exists added,
       chat_messages (db w') = chat_messages (db w) ++ added
       /\ List.length added <= 2
       /\ Forall (fun m => in_session sid did uid m = true) added.
Proof.
  cbv zeta. destruct (owned_document (db w) did uid) as [d|] eqn:Hown.
  - destruct (chat_stream_events rt llm message sid did uid w d Hown)
      as (evs & w' & Hrun & _ & _ & Hreply).
    rewrite Hrun. cbn [snd].
    pose proof (in_session_saved rt message USER sid did uid w) as Hum.
    destruct (turn_reply _) as [reply|].
    + destruct Hreply as (am & -> & _ & _ & Ham & _). split; [reflexivity|].
      eexists [_; am]. cbn [with_message chat_messages].
      split; [now rewrite <- app_assoc|]. split; [cbn; lia|].
      constructor; [exact Hum|]. constructor; [exact Ham | constructor].
    + destruct Hreply as [-> _]. split; [reflexivity|].
      eexists [_]. split; [reflexivity|]. split; [cbn; lia|].
      constructor; [exact Hum | constructor].
  - rewrite (chat_stream_unowned rt llm message sid did uid w Hown).
    split; [reflexivity|]. exists []. split; [now rewrite app_nil_r|].
    split; [cbn; lia | constructor].
Qed.

(** X25: a chat turn never changes the documents table; it only appends to
    the chat messages, at most two rows, all of them in the session,
    document and user of the turn; the rows of every other session, document
    or user are as before. *)
Theorem chat_stream_isolated rt llm message session_id document_id user_id w :
  let w' := snd (chat_stream rt llm message session_id document_id user_id w) in
  documents (db w') = documents (db w)
  /\ (exists added,
        chat_messages (db w') = chat_messages (db w) ++ added
        /\ List.length added <= 2
        /\ Forall (fun m => in_session session_id document_id user_id m = true) added)
  /\ forall sid did uid,
       sid <> session_id \/ did <> document_id \/ uid <> user_id ->
       session_rows (db w') sid did uid = session_rows (db w) sid did uid.
Proof.
  cbv zeta.
  destruct (chat_stream_appends rt llm message session_id document_id user_id w)
    as (Hdocs & added & Hmsgs & Hlen & Hall).
  split; [exact Hdocs|]. split; [eauto|].
  intros sid did uid Hother. unfold session_rows. rewrite Hmsgs, List.filter_app.
  assert (List.filter (in_session sid did uid) added = []) as ->;
    [|now rewrite app_nil_r].
  clear Hmsgs Hlen. induction Hall as [|m rest Hm _ IH]; [reflexivity|].
  cbn [List.filter]. rewrite IH.
  destruct (in_session sid did uid m) eqn:Hs; [|reflexivity].
  apply in_session_spec in Hm as (H1 & H2 & H3).
  apply in_session_spec in Hs as (H1' & H2' & H3').
  exfalso. destruct Hother as [H|[H|H]]; congruence.
Qed.

(** ** The stored masking record *)

Lemma reachable_masked_inv rt st w :
  reachable rt st w -> all_rows_ok masked_inv w.
Proof.
  apply (reachable_rows masked_inv).
  - intros d (_ & _ & Hm & _). unfold masked_inv. now rewrite Hm.
  - intros rt0 llm c d Hd _. unfold attempted_row. split; [exact Hd|].
    destruct (chain_result rt0 llm (prompt_for rt0 d)); exact Hd.
  - intros rt0 st0 raw c d _. unfold masked_inv. cbn.
    repeat split. apply clean_response_strip.
Qed.

(** X26: in every database state that a reachable world holds or ever
    committed, a stored masking record describes its document: its original
    content is the document's content, its original length is the length of
    that content, its masked length is the length of its masked text, and
    the masked text has no whitespace at its ends. *)
Theorem masked_record_invariant rt st w b k d mc :
  reachable rt st w ->
  In b (persisted w) ->
  documents b !! k = Some d ->
  Document.maskedContent d = Some mc ->
  MaskedContent.original_content mc = Document.content d
  /\ MaskedContent.original_length mc = String.length (Document.content d)
  /\ MaskedContent.masked_length mc = String.length (MaskedContent.masked_content mc)
  /\ PyStr.strip (MaskedContent.masked_content mc) = MaskedContent.masked_content mc.
Proof.
  intros Hreach Hb Hl Hmc.
  pose proof (reachable_masked_inv rt st w Hreach) as Hall.
  unfold all_rows_ok in Hall. rewrite List.Forall_forall in Hall.
  pose proof (Hall b Hb k d Hl) as Hd. unfold masked_inv in Hd.
  now rewrite Hmc in Hd.
Qed.

Lemma masked_record_invariant_witness :
  MaskedContent.masked_length
    (masked_record sample_rt default_settings sample_document "Tenant: [NAME]" 100%Z)
  = String.length "Tenant: [NAME]".
Proof.
  pose (w := snd (mask_document_content sample_rt default_settings sample_llm 1%N 7%N
                    sample_world)).
  pose (mc := masked_record sample_rt default_settings sample_document
                "Tenant: [NAME]" 100%Z).
  pose (d := Document.set_maskedContent (Some mc) sample_document).
  assert (Hreach : reachable sample_rt default_settings w).
  { apply reach_request with (w := sample_world).
    - apply reach_initial, sample_world_initial.
    - apply req_mask. }
  assert (Hin : In (db w) (persisted w)) by (left; reflexivity).
  assert (Hl : documents (db w) !! 1%N = Some d) by (vm_compute; reflexivity).
  destruct (masked_record_invariant sample_rt default_settings w (db w) 1%N d mc
              Hreach Hin Hl eq_refl) as (_ & _ & H & _).
  exact H.
Defined.

(** X27: on a reachable world, reading the masked content of a document
    changes nothing and never answers 500: it answers 404 with the not-found
    message when the caller owns no such document, 404 with "Document has
    not been processed for PII masking" when the document was never masked,
    and otherwise a body whose original length is the length of the
    document's content and whose masked length is the length of its masked
    text, which has no whitespace at its ends. *)
Theorem get_masked_document_content_outcomes rt st w document_id user_id :
  reachable rt st w ->
  match owned_document (db w) document_id user_id with
  | None =>
      PIIRouter.get_masked_document_content rt document_id user_id w
      = (HTTPException 404
           ("Document " +:+ str_uuid rt document_id +:+ " not found or access denied"),
         w)
  | Some d =>
      match Document.maskedContent d with
      | None =>
          PIIRouter.get_masked_document_content rt document_id user_id w
          = (HTTPException 404 "Document has not been processed for PII masking", w)
      | Some _ =>
          exists r,
            PIIRouter.get_masked_document_content rt document_id user_id w
            = (HTTPOk r, w)
            /\ mr_document_id r = document_id
            /\ mr_original_length r = String.length (Document.content d)
            /\ mr_masked_length r = String.length (mr_masked_content r)
            /\ PyStr.strip (mr_masked_content r) = mr_masked_content r
      end
  end.
Proof.
  intros Hreach.
  unfold PIIRouter.get_masked_document_content, serve_or_404, get_masked_content.
  erewrite bind_Return by reflexivity.
  destruct (owned_document (db w) document_id user_id) as [d|] eqn:Hown; [|reflexivity].
  destruct (owned_document_lookup _ _ _ _ Hown) as (Hl & Hid & _).
  destruct (Document.maskedContent d) as [mc|] eqn:Hmc; [|reflexivity].
  pose proof (reachable_masked_inv rt st w Hreach) as Hall.
  unfold all_rows_ok, persisted in Hall. apply List.Forall_cons_iff in Hall as [Hb _].
  pose proof (Hb document_id d Hl) as Hd. unfold masked_inv in Hd. rewrite Hmc in Hd.
  destruct Hd as (_ & H1 & H2 & H3).
  eexists. split; [reflexivity|]. cbn. auto.
Qed.

Lemma get_masked_document_content_outcomes_witness :
  exists r,
    PIIRouter.get_masked_document_content sample_rt 1%N 7%N
      (snd (mask_document_content sample_rt default_settings sample_llm 1%N 7%N
              sample_world))
    = (HTTPOk r,
       snd (mask_document_content sample_rt default_settings sample_llm 1%N 7%N
              sample_world))
    /\ mr_original_length r = String.length (Document.content sample_document).
Proof.
  pose (w := snd (mask_document_content sample_rt default_settings sample_llm 1%N 7%N
                    sample_world)).
  pose (mc := masked_record sample_rt default_settings sample_document
                "Tenant: [NAME]" 100%Z).
  pose (d := Document.set_maskedContent (Some mc) sample_document).
  assert (Hreach : reachable sample_rt default_settings w).
  { apply reach_request with (w := sample_world).
    - apply reach_initial, sample_world_initial.
    - apply req_mask. }
  assert (Hown : owned_document (db w) 1%N 7%N = Some d) by (vm_compute; reflexivity).
  pose proof (get_masked_document_content_outcomes sample_rt default_settings w 1%N 7%N
                Hreach) as H.
  rewrite Hown in H. change (Document.maskedContent d) with (Some mc) in H.
  destruct H as (r & Hrun & _ & Hlen & _).
  exists r. split; [exact Hrun | exact Hlen].
Defined.
